(** * oamap.fillcolumn: fillable column buffers

    A shallow embedding of [oamap/fillcolumn.py]: the three backing
    strategies ([FillableList], [FillableArray], [FillableFile] with its
    subclass [FillableNumpyFile]) and the schema walk [_makefillables],
    followed by the properties established for them.

    Python integers are [Z]; [//] and [%] are [Z.div] and [Z.modulo]
    (both round towards minus infinity and give the remainder the sign of
    the divisor, as Python does).  A method is a function from the state
    of [self] to the new state and an outcome, so that the mutations made
    before an exception was raised stay visible afterwards. *)

From Stdlib Require Import ZArith NArith List Bool Lia.
From Stdlib.Strings Require Import String Ascii Byte.
From Stdlib Require Import DecimalString DecimalPos DecimalN DecimalZ.
From stdpp Require Import gmap strings.
Import ListNotations.

Local Open Scope Z_scope.

(* ===================================================================== *)
(** * Python and numpy primitives                                         *)
(* ===================================================================== *)

(** The exceptions the module can raise, under their Python names.
    [ValueError] is what the specification calls InvalidArgument,
    [IndexError] is IndexOutOfRange. *)
Inductive exn : Set :=
| ValueError | IndexError | TypeError | NameError | AssertionError
| ZeroDivisionError | OSError | StructError.

(** Outcome of a call.  [OutOfFuel] is not a Python outcome: it marks a
    [while] loop cut off by the bound of the model. *)
Inductive result (X : Type) : Type :=
| Ok (x : X)
| Raise (e : exn)
| OutOfFuel.
Arguments Ok {X} x.
Arguments Raise {X} e.
Arguments OutOfFuel {X}.

Definition rbind {X Y} (r : result X) (k : X -> result Y) : result Y :=
  match r with
  | Ok x => k x
  | Raise e => Raise e
  | OutOfFuel => OutOfFuel
  end.

Definition rmap {X Y} (f : X -> Y) (r : result X) : result Y :=
  rbind r (fun x => Ok (f x)).

(** A method of an object whose state has type [S]. *)
Definition method (S X : Type) : Type := S -> S * result X.

Definition ret {S X} (x : X) : method S X := fun s => (s, Ok x).
Definition raise {S X} (e : exn) : method S X := fun s => (s, Raise e).
Definition lift {S X} (r : result X) : method S X := fun s => (s, r).
Definition bind {S X Y} (c : method S X) (k : X -> method S Y) : method S Y :=
  fun s =>
    match c s with
    | (s', Ok x) => k x s'
    | (s', Raise e) => (s', Raise e)
    | (s', OutOfFuel) => (s', OutOfFuel)
    end.
Definition get {S} : method S S := fun s => (s, Ok s).
Definition gets {S X} (f : S -> X) : method S X := fun s => (s, Ok (f s)).
Definition modify {S} (f : S -> S) : method S unit := fun s => (f s, Ok tt).

Declare Scope method_scope.
Delimit Scope method_scope with method.
Notation "'do' x <- c ; k" := (bind c (fun x => k))
  (at level 10, x name, c at level 100, k at level 200) : method_scope.
Notation "'do' ' p <- c ; k" := (bind c (fun x => match x with p => k end))
  (at level 10, p pattern, c at level 100, k at level 200) : method_scope.
Notation "c ;; k" := (bind c (fun _ => k))
  (at level 100, k at level 200, right associativity) : method_scope.

Notation "'try' x <- r ; k" := (rbind r (fun x => k))
  (at level 10, x name, r at level 100, k at level 200).
Notation "'try' ' p <- r ; k" := (rbind r (fun x => match x with p => k end))
  (at level 10, p pattern, r at level 100, k at level 200).

(** [len(l)] *)
Definition zlen {X} (l : list X) : Z := Z.of_nat (length l).

(** [divmod(a, b)] *)
Definition divmod (a b : Z) : result (Z * Z) :=
  if b =? 0 then Raise ZeroDivisionError else Ok (a / b, a mod b).

(** ** Indexing *)

(** [l[i]] on a list or a one-dimensional array: a negative index counts
    from the end, and an index outside [-len, len) raises [IndexError]. *)
Definition norm_index (len i : Z) : result nat :=
  let j := if i <? 0 then i + len else i in
  if (0 <=? j) && (j <? len) then Ok (Z.to_nat j) else Raise IndexError.

Definition getitem {X} (l : list X) (i : Z) : result X :=
  try j <- norm_index (zlen l) i;
  match l !! j with
  | Some x => Ok x
  | None => Raise IndexError
  end.

(** [l[i] = x] *)
Definition setitem {X} (l : list X) (i : Z) (x : X) : result (list X) :=
  try j <- norm_index (zlen l) i;
  Ok (<[j := x]> l).

(** ** Slices *)

(** A slice object [start:stop:step]; [None] is an omitted component. *)
Record slice : Set := mkslice {
  start : option Z;
  stop : option Z;
  step : option Z
}.

(** The argument of [__getitem__]: an integer or a slice. *)
Inductive pyindex : Set :=
| Int (i : Z)
| Slice (s : slice).

(** How a given bound of a slice is brought into range for a sequence of
    length [len] (CPython, [PySlice_AdjustIndices]). *)
Definition adjust_bound (len stp i : Z) : Z :=
  if i <? 0 then
    if i + len <? 0 then (if stp <? 0 then -1 else 0) else i + len
  else if len <=? i then (if stp <? 0 then len - 1 else len)
  else i.

(** [slice.indices(len)]: first position, bound and stride. *)
Definition slice_indices (s : slice) (len : Z) : result (Z * Z * Z) :=
  let stp := default 1 (step s) in
  if stp =? 0 then Raise ValueError
  else
    let lo := match start s with
              | None => if stp <? 0 then len - 1 else 0
              | Some i => adjust_bound len stp i
              end in
    let hi := match stop s with
              | None => if stp <? 0 then -1 else len
              | Some i => adjust_bound len stp i
              end in
    Ok (lo, hi, stp).

(** Number of positions a slice selects. *)
Definition slice_length (lo hi stp : Z) : Z :=
  if stp <? 0 then
    if hi <? lo then (lo - hi - 1) / (- stp) + 1 else 0
  else
    if lo <? hi then (hi - lo - 1) / stp + 1 else 0.

(** The positions a slice selects, in the order of traversal. *)
Definition slice_positions (s : slice) (len : Z) : result (list nat) :=
  try '(lo, hi, stp) <- slice_indices s len;
  Ok (map (fun k => Z.to_nat (lo + Z.of_nat k * stp))
          (seq 0 (Z.to_nat (slice_length lo hi stp)))).

(** [l[start:stop:step]] *)
Definition getslice {X} (l : list X) (s : slice) : result (list X) :=
  try ps <- slice_positions s (zlen l);
  Ok (omap (fun p => l !! p) ps).

(** [del l[start:stop:step]] *)
Definition delslice {X} (l : list X) (s : slice) : result (list X) :=
  try ps <- slice_positions s (zlen l);
  Ok (omap (fun p => if bool_decide (p ∈ ps) then None else l !! p)
           (seq 0 (length l))).

(** The slices the source writes with one or two bounds. *)
Definition sl (a b : Z) : slice := mkslice (Some a) (Some b) None.
Definition sl_from (a : Z) : slice := mkslice (Some a) None None.
Definition sl_to (b : Z) : slice := mkslice None (Some b) None.
Definition sl_all : slice := mkslice None None None.
Definition sl3 (a b c : Z) : slice := mkslice (Some a) (Some b) (Some c).

(** ** Typed arrays *)

(** What a (dtype, dims) pair means for the buffers: the Python values
    handed to [append]/[extend], the elements a typed array stores, and
    how numpy converts, lays out and reads back an element. *)
Record eltype : Type := mkeltype {
  pyval : Type;
  elem : Type;
  (** conversion on assignment into an array of this dtype and dims *)
  cast : pyval -> result elem;
  (** what a slot of [numpy.empty] happens to hold *)
  uninit : elem;
  (** [dtype.itemsize]: bytes of one scalar *)
  itemsize : Z;
  (** [dims] *)
  dims : list Z;
  (** bytes of one element, [itemsize * prod(dims)] of them *)
  tobytes : elem -> list byte;
  frombytes : list byte -> elem
}.

(** Bytes one element of shape [dims] occupies. *)
Definition elsize (E : eltype) : Z := itemsize E * fold_right Z.mul 1 (dims E).

(** [numpy.empty((n,) + dims, dtype)] *)
Definition np_empty (E : eltype) (n : Z) : result (list (elem E)) :=
  if n <? 0 then Raise ValueError else Ok (repeat (uninit E) (Z.to_nat n)).

(** Conversion of a Python sequence to an array of the dtype: the first
    value that does not convert raises.  An assignment [arr[a:b] = vs]
    is modelled as this conversion followed by [np_setslice], so a
    sequence with a value that does not convert leaves [arr] as it was;
    numpy has by then written the values before that one into the
    slots of the slice.  In this module those are free slots of a
    staging buffer or of a chunk, or slots of a fresh array. *)
Fixpoint np_array (E : eltype) (vs : list (pyval E)) : result (list (elem E)) :=
  match vs with
  | [] => Ok []
  | v :: vs' =>
      try x <- cast E v;
      try xs <- np_array E vs';
      Ok (x :: xs)
  end.

(** Broadcasting of a source of [length src] elements to [n] slots: the
    lengths agree, or the source has one element. *)
Definition broadcast {X} (src : list X) (n : nat) : result (list X) :=
  if (length src =? n)%nat then Ok src
  else match src with
       | [x] => Ok (repeat x n)
       | _ => Raise ValueError
       end.

Fixpoint write_at {X} (arr : list X) (ps : list nat) (src : list X) : list X :=
  match ps, src with
  | p :: ps', x :: src' => write_at (<[p := x]> arr) ps' src'
  | _, _ => arr
  end.

(** [arr[start:stop:step] = src] for an array [src] *)
Definition np_setslice {X} (arr : list X) (s : slice) (src : list X)
  : result (list X) :=
  try ps <- slice_positions s (zlen arr);
  try src' <- broadcast src (length ps);
  Ok (write_at arr ps src').

(** [arr[i] = value].  A value that does not convert leaves [arr] as
    it was; this is what numpy does for [dims = ()], where the value is
    one scalar.  For other [dims] numpy has written the components of
    the row before the one that does not convert. *)
Definition np_setitem (E : eltype) (arr : list (elem E)) (i : Z)
  (value : pyval E) : result (list (elem E)) :=
  try j <- norm_index (zlen arr) i;
  try x <- cast E value;
  Ok (<[j := x]> arr).

(** Every chunk of [data] has [cs] slots. *)
Definition uniform {X} (cs : nat) (data : list (list X)) : Prop :=
  Forall (fun chunk => length chunk = cs) data.

(** [arr.tostring()]: the elements' bytes, one after the other. *)
Definition tostring (E : eltype) (arr : list (elem E)) : list byte :=
  concat (map (tobytes E) arr).

(** What [__getitem__] returns: one item or a fresh array. *)
Inductive got (V A : Type) : Type :=
| Item (v : V)
| Arr (a : list A).
Arguments Item {V A} v.
Arguments Arr {V A} a.

(** [xrange(a, b, 1)] and [xrange(a, b, -1)] *)
Definition xrange (a b : Z) (up : bool) : list Z :=
  if up then map (fun k => a + Z.of_nat k) (seq 0 (Z.to_nat (b - a)))
  else map (fun k => a - Z.of_nat k) (seq 0 (Z.to_nat (a - b))).

(* ===================================================================== *)
(** * FillableList                                                        *)
(* ===================================================================== *)

Module FillableList.
Section WithEltype.
Context (E : eltype).

Record t : Type := mk {
  _data : list (pyval E);
  _index : Z
}.

Definition __init__ : t := mk [] 0.

Definition __len__ (self : t) : Z := _index self.

(** The committed cursor is within the list: at its end after a call
    that returned, before it after a call that raised once the list had
    grown. *)
Definition committed (self : t) : Prop :=
  0 <= _index self <= zlen (_data self).

Definition append (value : pyval E) : method t unit :=
  (do self <- get;
   (* possibly correct for a previous exception *)
   (if _index self <? zlen (_data self) then
      do d <- lift (delslice (_data self) (sl_from (_index self)));
      modify (fun self => mk d (_index self))
    else ret tt);;
   modify (fun self => mk (_data self ++ [value]) (_index self));;
   (* no exceptions? acknowledge the new data point *)
   modify (fun self => mk (_data self) (_index self + 1)))%method.

Definition extend (values : list (pyval E)) : method t unit :=
  (do self <- get;
   (if _index self <? zlen (_data self) then
      do d <- lift (delslice (_data self) (sl_from (_index self)));
      modify (fun self => mk d (_index self))
    else ret tt);;
   modify (fun self => mk (_data self ++ values) (_index self));;
   modify (fun self => mk (_data self) (_index self + zlen values)))%method.

Definition __getitem__ (index : pyindex)
  : method t (got (pyval E) (elem E)) :=
  fun self =>
    (self,
     match index with
     | Slice s =>
         let lenself := __len__ self in
         let start0 := default 0 (start s) in
         let stop0 := default lenself (stop s) in
         let step0 := default 1 (step s) in
         let start1 := if start0 <? 0 then start0 + lenself else start0 in
         let stop1 := if stop0 <? 0 then stop0 + lenself else stop0 in
         let start2 := Z.min lenself (Z.max 0 start1) in
         let stop2 := Z.min lenself (Z.max 0 stop1) in
         if step0 =? 0 then Raise ValueError
         else
           let length := (stop2 - start2) / step0 in
           try out <- np_empty E length;
           (* out[:] = self._data[start:stop:step] *)
           try picked <- getslice (_data self) (sl3 start2 stop2 step0);
           try src <- np_array E picked;
           try out' <- np_setslice out sl_all src;
           Ok (Arr out')
     | Int i => rmap Item (getitem (_data self) i)
     end).

End WithEltype.
End FillableList.

(* ===================================================================== *)
(** * FillableArray                                                       *)
(* ===================================================================== *)

Module FillableArray.
Section WithEltype.
Context (E : eltype).

Record t : Type := mk {
  chunksize : Z;
  _data : list (list (elem E));
  _indexinchunk : Z;
  _chunkindex : Z
}.

Definition set_data (d : list (list (elem E))) (self : t) : t :=
  mk (chunksize self) d (_indexinchunk self) (_chunkindex self).
Definition set_indexinchunk (i : Z) (self : t) : t :=
  mk (chunksize self) (_data self) i (_chunkindex self).
Definition set_chunkindex (i : Z) (self : t) : t :=
  mk (chunksize self) (_data self) (_indexinchunk self) i.

Definition __init__ (chunksize : Z) : result t :=
  try chunk <- np_empty E chunksize;
  Ok (mk chunksize [chunk] 0 0).

(** [while len(self._data) <= chunkindex + 1: self._data.append(numpy.empty(...))].
    Every round makes the list one longer, so the loop runs
    [max(0, chunkindex + 2 - len(self._data))] times: [n] is that count. *)
Fixpoint add_chunks (n : nat) : method t unit :=
  match n with
  | O => ret tt
  | S n' =>
      (do self <- get;
       do chunk <- lift (np_empty E (chunksize self));
       modify (set_data (_data self ++ [chunk]));;
       add_chunks n')%method
  end.

Definition append (value : pyval E) : method t unit :=
  (do self <- get;
   do chunk <- lift (getitem (_data self) (_chunkindex self));
   (* possibly add a new chunk *)
   (if _indexinchunk self >=? zlen chunk then
      add_chunks (Z.to_nat (_chunkindex self + 2 - zlen (_data self)));;
      modify (set_indexinchunk 0);;
      modify (fun self => set_chunkindex (_chunkindex self + 1) self)
    else ret tt);;
   (* self._data[self._chunkindex][self._indexinchunk] = value *)
   do self <- get;
   do chunk <- lift (getitem (_data self) (_chunkindex self));
   do chunk' <- lift (np_setitem E chunk (_indexinchunk self) value);
   do data' <- lift (setitem (_data self) (_chunkindex self) chunk');
   modify (set_data data');;
   (* no exceptions? acknowledge the new data point *)
   modify (fun self => set_indexinchunk (_indexinchunk self + 1) self))%method.

(** The [while len(values) > 0] loop of [extend], on the local
    [chunkindex] and [indexinchunk]; [fuel] bounds the number of rounds. *)
Fixpoint extend_loop (fuel : nat) (chunkindex indexinchunk : Z)
  (values : list (pyval E)) : method t (Z * Z) :=
  if 0 <? zlen values then
    match fuel with
    | O => lift OutOfFuel
    | S fuel' =>
        (do self <- get;
         do chunk <- lift (getitem (_data self) chunkindex);
         do '(chunkindex1, indexinchunk1) <-
            (if indexinchunk >=? zlen chunk then
               add_chunks (Z.to_nat (chunkindex + 2 - zlen (_data self)));;
               ret (chunkindex + 1, 0)
             else ret (chunkindex, indexinchunk));
         do self <- get;
         let tofill := Z.min (zlen values) (chunksize self - indexinchunk1) in
         do head <- lift (getslice values (sl_to tofill));
         do chunk1 <- lift (getitem (_data self) chunkindex1);
         do src <- lift (np_array E head);
         do chunk' <- lift (np_setslice chunk1
                              (sl indexinchunk1 (indexinchunk1 + tofill)) src);
         do data' <- lift (setitem (_data self) chunkindex1 chunk');
         modify (set_data data');;
         do values' <- lift (getslice values (sl_from tofill));
         extend_loop fuel' chunkindex1 (indexinchunk1 + tofill) values')%method
    end
  else ret (chunkindex, indexinchunk).

Definition extend (values : list (pyval E)) : method t unit :=
  (do self <- get;
   do '(chunkindex, indexinchunk) <-
      extend_loop (length values) (_chunkindex self) (_indexinchunk self) values;
   modify (set_chunkindex chunkindex);;
   modify (set_indexinchunk indexinchunk))%method.

Definition __len__ (self : t) : Z :=
  _chunkindex self * chunksize self + _indexinchunk self.

(** The [for chunkindex in xrange(...)] loop of the slice branch of
    [__getitem__]; [stop_chunkindex] is the value after its adjustment by
    one, [chunkindexes] what is left of the range. *)
Fixpoint slice_loop (self : t)
  (step0 start_chunkindex start_indexinchunk stop_chunkindex stop_indexinchunk : Z)
  (chunkindexes : list Z) (offset : Z) (out : list (elem E)) (outi : Z)
  : result (list (elem E)) :=
  match chunkindexes with
  | [] => Ok out
  | chunkindex :: rest =>
      let begin_ :=
        if step0 >? 0 then
          if chunkindex =? start_chunkindex then start_indexinchunk else offset
        else
          if chunkindex =? start_chunkindex then start_indexinchunk
          else chunksize self - offset in
      let end_ :=
        if step0 >? 0 then
          if chunkindex =? stop_chunkindex - 1 then stop_indexinchunk
          else chunksize self
        else
          if chunkindex =? stop_chunkindex + 1 then stop_indexinchunk else 0 in
      try chunk <- getitem (_data self) chunkindex;
      try array <- getslice chunk (sl3 begin_ end_ step0);
      let offset' := (end_ - begin_) mod step0 in
      try out' <- np_setslice out (sl outi (outi + zlen array)) array;
      let outi' := outi + zlen array in
      if outi' >=? zlen out' then Ok out'
      else slice_loop self step0 start_chunkindex start_indexinchunk
             stop_chunkindex stop_indexinchunk rest offset' out' outi'
  end.

Definition __getitem__ (index : pyindex)
  : method t (got (elem E) (elem E)) :=
  fun self =>
    (self,
     match index with
     | Slice s =>
         let lenself := __len__ self in
         let start0 := default 0 (start s) in
         let stop0 := default lenself (stop s) in
         let step0 := default 1 (step s) in
         let start1 := if start0 <? 0 then start0 + lenself else start0 in
         let stop1 := if stop0 <? 0 then stop0 + lenself else stop0 in
         let start2 := Z.min lenself (Z.max 0 start1) in
         let stop2 := Z.min lenself (Z.max 0 stop1) in
         if step0 =? 0 then Raise ValueError
         else
           let length := (stop2 - start2) / step0 in
           try out <- np_empty E length;
           try '(start_chunkindex, start_indexinchunk) <-
             divmod start2 (chunksize self);
           try '(stop_chunkindex0, stop_indexinchunk) <-
             divmod stop2 (chunksize self);
           let stop_chunkindex :=
             if step0 >? 0 then stop_chunkindex0 + 1 else stop_chunkindex0 - 1 in
           try out' <-
             slice_loop self step0 start_chunkindex start_indexinchunk
               stop_chunkindex stop_indexinchunk
               (xrange start_chunkindex stop_chunkindex (step0 >? 0))
               0 out 0;
           Ok (Arr out')
     | Int i =>
         let lenself := __len__ self in
         let normalindex := if i >=? 0 then i else i + lenself in
         if negb ((0 <=? normalindex) && (normalindex <? lenself)) then
           Raise IndexError
         else
           try '(chunkindex, indexinchunk) <- divmod i (chunksize self);
           try chunk <- getitem (_data self) chunkindex;
           rmap Item (getitem chunk indexinchunk)
     end).

(** [self] is an array of chunks of [chunksize >= 1] slots each, its
    cursor lies within them, and the slots before the cursor hold the
    elements [xs]. *)
Definition stores (self : t) (xs : list (elem E)) : Prop :=
  1 <= chunksize self
  /\ uniform (Z.to_nat (chunksize self)) (_data self)
  /\ 0 <= _chunkindex self < zlen (_data self)
  /\ 0 <= _indexinchunk self <= chunksize self
  /\ xs = take (Z.to_nat (__len__ self)) (concat (_data self)).

(** The object with the cursor replaced, as [extend] leaves it when its
    loop is done. *)
Definition with_cursor (chunkindex indexinchunk : Z) (self : t) : t :=
  set_indexinchunk indexinchunk (set_chunkindex chunkindex self).

End WithEltype.
End FillableArray.

(* ===================================================================== *)
(** * Files                                                               *)
(* ===================================================================== *)

(** The file a fillable writes to, seen through its unbuffered handle:
    the bytes on disk, the position of the handle and whether the handle
    was closed.  The bytes stay when the handle is closed, which is what a
    later [open] or [numpy.memmap] of the same name reads. *)
Record pyfile : Set := mkfile {
  contents : list byte;
  pos : Z;
  closed : bool
}.

(** [open(filename, "wb", 0).close()] then [open(filename, "r+b", 0)] *)
Definition fopen_truncated : pyfile := mkfile [] 0 false.

(** The bytes after writing [bs] at offset [p]: a write past the end
    fills the gap with zero bytes, an empty write changes nothing. *)
Definition overwrite (c : list byte) (p : nat) (bs : list byte) : list byte :=
  match bs with
  | [] => c
  | _ => take p (c ++ repeat x00 (p - length c)) ++ bs ++ drop (p + length bs) c
  end.

(** [file.seek(p)] *)
Definition fseek (p : Z) (f : pyfile) : result pyfile :=
  if closed f then Raise ValueError
  else if p <? 0 then Raise OSError
  else Ok (mkfile (contents f) p false).

(** [file.write(bs)] *)
Definition fwrite (bs : list byte) (f : pyfile) : result pyfile :=
  if closed f then Raise ValueError
  else Ok (mkfile (overwrite (contents f) (Z.to_nat (pos f)) bs)
                  (pos f + zlen bs) false).

(** [file.close()] *)
Definition fclose (f : pyfile) : pyfile := mkfile (contents f) (pos f) true.

(** ** Text written to the header *)

(** [repr(n)] for an integer *)
Definition repr_int (n : Z) : string := NilZero.string_of_int (Z.to_int n).

Definition spaces (n : nat) : string := string_of_list_ascii (repeat " "%char n).

(** ["{0:<w>d}".format(n)]: the digits, right-aligned in [w] columns, and
    wider than that when they do not fit. *)
Definition format_width (w : nat) (n : Z) : string :=
  let s := repr_int n in
  (spaces (w - String.length s) ++ s)%string.

(** [repr(t)] for a tuple of integers *)
Definition repr_tuple (t : list Z) : string :=
  match t with
  | [] => "()"
  | [x] => "(" ++ repr_int x ++ ",)"
  | x :: t' =>
      "(" ++ repr_int x ++ fold_right (fun y s => ", " ++ repr_int y ++ s) ")" t'
  end%string.

(** [s.encode("ascii")] *)
Definition encode_ascii (s : string) : list byte := list_byte_of_string s.

Definition byte_of_Z (z : Z) : byte :=
  match Byte.of_N (Z.to_N (z mod 256)) with
  | Some b => b
  | None => x00
  end.

(** [struct.pack("<H", n)] *)
Definition pack_H (n : Z) : result (list byte) :=
  if (0 <=? n) && (n <? 65536) then Ok [byte_of_Z n; byte_of_Z (n / 256)]
  else Raise StructError.

(** [b"\x93NUMPY\x01\x00"] *)
Definition magic : list byte :=
  [x93; x4e; x55; x4d; x50; x59; x01; x00].

(* ===================================================================== *)
(** * FillableFile and FillableNumpyFile                                  *)
(* ===================================================================== *)

(** The class of the object: [_openfile] and [flush] are the two methods
    [FillableNumpyFile] overrides. *)
Inductive cls : Set := FillableFile_ | FillableNumpyFile_.

Module FillableFile.
Section WithEltype.
Context (E : eltype) (descr : string).
(** [descr] is [str(self.dtype)], the name the header records. *)

Record t : Type := mk {
  class : cls;
  _data : list (elem E);
  _index : Z;
  _indexinchunk : Z;
  _indexflushed : Z;
  _file : pyfile;
  _datapos : Z;
  (** set by [FillableNumpyFile._openfile] only *)
  _lenpos : Z;
  (** the width in ["{0:%dd}" % lendigits], likewise *)
  _formatter : nat
}.

Definition set_data (d : list (elem E)) (self : t) : t :=
  mk (class self) d (_index self) (_indexinchunk self) (_indexflushed self)
     (_file self) (_datapos self) (_lenpos self) (_formatter self).
Definition set_index (i : Z) (self : t) : t :=
  mk (class self) (_data self) i (_indexinchunk self) (_indexflushed self)
     (_file self) (_datapos self) (_lenpos self) (_formatter self).
Definition set_indexinchunk (i : Z) (self : t) : t :=
  mk (class self) (_data self) (_index self) i (_indexflushed self)
     (_file self) (_datapos self) (_lenpos self) (_formatter self).
Definition set_indexflushed (i : Z) (self : t) : t :=
  mk (class self) (_data self) (_index self) (_indexinchunk self) i
     (_file self) (_datapos self) (_lenpos self) (_formatter self).
Definition set_file (f : pyfile) (self : t) : t :=
  mk (class self) (_data self) (_index self) (_indexinchunk self)
     (_indexflushed self) f (_datapos self) (_lenpos self) (_formatter self).

(** A call on [self._file] that can raise: the handle changes only when
    the call returns. *)
Definition on_file (op : pyfile -> result pyfile) : method t unit :=
  fun self =>
    match op (_file self) with
    | Ok f => (set_file f self, Ok tt)
    | Raise e => (self, Raise e)
    | OutOfFuel => (self, OutOfFuel)
    end.

(** [FillableFile._openfile]: a plain file has no header.  Returns the
    handle, [_datapos], [_lenpos] and [_formatter]. *)
Definition _openfile_plain : result (pyfile * Z * Z * nat) :=
  Ok (fopen_truncated, 0, 0, O).

(** [FillableNumpyFile._openfile], with [self._index] as it is when
    [__init__] calls it. *)
Definition _openfile_numpy (index : Z) (lendigits : nat)
  : result (pyfile * Z * Z * nat) :=
  let header1 :=
    encode_ascii ("{'descr': '" ++ descr
                  ++ "', 'fortran_order': False, 'shape': (")%string in
  let header2 :=
    drop 1 (encode_ascii
              (repr_tuple ((10 ^ Z.of_nat lendigits - 1) :: dims E) ++ ", }")%string) in
  let unpaddedlen := zlen magic + 2 + zlen header1 + zlen header2 in
  if itemsize E =? 0 then Raise ZeroDivisionError
  else
    (* int(math.ceil(float(unpaddedlen) / itemsize)) * itemsize *)
    let paddedlen := - ((- unpaddedlen) / itemsize E) * itemsize E in
    let header2' :=
      header2 ++ repeat x20 (Z.to_nat (paddedlen - unpaddedlen)) in
    let lenpos := zlen magic + 2 + zlen header1 in
    let datapos := zlen magic + 2 + zlen header1 + zlen header2' in
    if negb (datapos mod itemsize E =? 0) then Raise AssertionError
    else
      let file := fopen_truncated in
      try file <- fwrite magic file;
      try packed <- pack_H (zlen header1 + zlen header2');
      try file <- fwrite packed file;
      try file <- fwrite header1 file;
      try file <- fwrite (encode_ascii (format_width lendigits index)) file;
      try file <- fwrite (drop lendigits header2') file;
      Ok (file, datapos, lenpos, lendigits).

Definition __init__ (c : cls) (flushsize : Z) (lendigits : nat) : result t :=
  try data <- np_empty E flushsize;
  try '(file, datapos, lenpos, formatter) <-
    match c with
    | FillableFile_ => _openfile_plain
    | FillableNumpyFile_ => _openfile_numpy 0 lendigits
    end;
  Ok (mk c data 0 0 0 file datapos lenpos formatter).

Definition __len__ (self : t) : Z := _index self.

(** [FillableFile.flush] *)
Definition flush_plain : method t unit :=
  (do self <- get;
   do staged <- lift (getslice (_data self) (sl_to (_indexinchunk self)));
   on_file (fwrite (tostring E staged));;
   modify (set_indexinchunk 0);;
   modify (fun self => set_indexflushed (_index self) self))%method.

(** [FillableNumpyFile.flush] *)
Definition flush_numpy : method t unit :=
  (do self <- get;
   on_file (fseek (_datapos self + _indexflushed self * itemsize E));;
   do staged <- lift (getslice (_data self) (sl_to (_indexinchunk self)));
   on_file (fwrite (tostring E staged));;
   on_file (fseek (_lenpos self));;
   on_file (fwrite (encode_ascii (format_width (_formatter self) (_index self))));;
   modify (set_indexinchunk 0);;
   modify (fun self => set_indexflushed (_index self) self))%method.

(** [self.flush()], dispatched on the class of [self] *)
Definition flush : method t unit :=
  fun self =>
    match class self with
    | FillableFile_ => flush_plain self
    | FillableNumpyFile_ => flush_numpy self
    end.

Definition append (value : pyval E) : method t unit :=
  (do self <- get;
   do data' <- lift (np_setitem E (_data self) (_indexinchunk self) value);
   modify (set_data data');;
   (* no exceptions? acknowledge the new data point *)
   modify (fun self => set_index (_index self + 1) self);;
   modify (fun self => set_indexinchunk (_indexinchunk self + 1) self);;
   (* possibly flush to file *)
   do self <- get;
   if _indexinchunk self >=? zlen (_data self) then flush else ret tt)%method.

(** The [while len(values) > 0] loop of [extend], on the locals [index],
    [indexinchunk] and [indexflushed]; [fuel] bounds the number of rounds. *)
Fixpoint extend_loop (fuel : nat) (index indexinchunk indexflushed : Z)
  (values : list (pyval E)) : method t (Z * Z * Z) :=
  if 0 <? zlen values then
    match fuel with
    | O => lift OutOfFuel
    | S fuel' =>
        (do self <- get;
         let tofill := Z.min (zlen values) (zlen (_data self) - indexinchunk) in
         do head <- lift (getslice values (sl_to tofill));
         do src <- lift (np_array E head);
         do data' <- lift (np_setslice (_data self)
                             (sl indexinchunk (indexinchunk + tofill)) src);
         modify (set_data data');;
         let index1 := index + tofill in
         let indexinchunk1 := indexinchunk + tofill in
         do values' <- lift (getslice values (sl_from tofill));
         if 0 <? zlen values' then
           do self <- get;
           on_file (fseek (_datapos self + indexflushed * itemsize E));;
           do staged <- lift (getslice (_data self) (sl_to indexinchunk1));
           on_file (fwrite (tostring E staged));;
           extend_loop fuel' index1 0 index1 values'
         else
           extend_loop fuel' index1 indexinchunk1 indexflushed values')%method
    end
  else ret (index, indexinchunk, indexflushed).

Definition extend (values : list (pyval E)) : method t unit :=
  (* extend flushes as much as it has to during write *)
  (do self <- get;
   do '(index, indexinchunk, indexflushed) <-
      extend_loop (S (length values)) (_index self) (_indexinchunk self)
        (_indexflushed self) values;
   modify (set_index index);;
   modify (set_indexinchunk indexinchunk);;
   modify (set_indexflushed indexflushed))%method.

(** The first [n] elements laid out in [bs], [elsize] bytes each. *)
Fixpoint decode (n : nat) (bs : list byte) : list (elem E) :=
  match n with
  | O => []
  | S n' =>
      frombytes E (take (Z.to_nat (elsize E)) bs)
      :: decode n' (drop (Z.to_nat (elsize E)) bs)
  end.

(** [numpy.memmap(filename, dtype, "r", offset, (n,) + dims, "C")]: the
    [n] elements found at [offset] in the file, as they are at the time
    of the call.  An empty file, or one too short for the shape, cannot
    be mapped. *)
Definition memmap (f : pyfile) (offset n : Z) : result (list (elem E)) :=
  if n <? 0 then Raise ValueError
  else if zlen (contents f) =? 0 then Raise ValueError
  else if zlen (contents f) <? offset + n * elsize E then Raise ValueError
  else Ok (decode (Z.to_nat n) (drop (Z.to_nat offset) (contents f))).

Definition is_none {X} (o : option X) : bool :=
  match o with None => true | Some _ => false end.

Definition __getitem__ (value : pyindex)
  : method t (got (elem E) (elem E)) :=
  (do self <- get;
   (if negb (closed (_file self)) then flush else ret tt);;
   do self <- get;
   match value with
   | Slice s =>
       do array <- lift (memmap (_file self) (_datapos self) (__len__ self));
       if is_none (start s) && is_none (stop s) && is_none (step s) then
         ret (Arr array)
       else
         do picked <- lift (getslice array s);
         ret (Arr picked)
   | Int _ =>
       let lenself := __len__ self in
       (* normalindex = index if index >= 0 else index + lenself:
          the parameter is called [value]; no name [index] is bound in the
          method, the module or the builtins, so evaluating it raises and
          the rest of the branch never runs *)
       raise NameError
   end)%method.

Definition close : method t unit :=
  (* hasattr(self, "_file") holds for every object [__init__] returned *)
  (flush;;
   modify (fun self => set_file (fclose (_file self)) self))%method.

(** [self] is a plain [FillableFile] on an open handle that holds the
    elements [xs]: the first [_indexflushed] of them are in the file,
    from the data offset on, and the others are staged. *)
Definition stores (self : t) (xs : list (elem E)) : Prop :=
  class self = FillableFile_ /\ closed (_file self) = false
  /\ _datapos self = 0
  /\ 0 <= _indexflushed self /\ _indexflushed self <= _index self
  /\ _index self - _indexflushed self = _indexinchunk self
  /\ _index self = zlen xs
  /\ _indexinchunk self <= zlen (_data self) /\ 0 < zlen (_data self)
  /\ contents (_file self)
     = tostring E (take (Z.to_nat (_indexflushed self)) xs)
  /\ pos (_file self) = zlen (contents (_file self))
  /\ take (Z.to_nat (_indexinchunk self)) (_data self)
     = drop (Z.to_nat (_indexflushed self)) xs.

(** The object with the three counters replaced, as [extend] leaves it
    when its loop is done. *)
Definition with_counters (index indexinchunk indexflushed : Z) (self : t) : t :=
  set_indexflushed indexflushed (set_indexinchunk indexinchunk (set_index index self)).

(** The count field, when there is a header, lies within the header,
    the header within the file, and the counters are in order. *)
Definition wellformed (self : t) : Prop :=
  0 <= _lenpos self
  /\ _lenpos self + Z.of_nat (_formatter self) <= _datapos self
  /\ _datapos self <= zlen (contents (_file self))
  /\ 0 <= _indexflushed self <= _index self
  /\ 0 <= _indexinchunk self <= zlen (_data self).

(** The objects a program holds: made by the constructor of either
    class, then changed by calls that returned. *)
Inductive reachable : t -> Prop :=
| reach_init (c : cls) (flushsize : Z) (lendigits : nat) (self : t) :
    __init__ c flushsize lendigits = Ok self -> reachable self
| reach_append (value : pyval E) (self self' : t) :
    reachable self -> append value self = (self', Ok tt) -> reachable self'
| reach_extend (values : list (pyval E)) (self self' : t) :
    reachable self -> extend values self = (self', Ok tt) -> reachable self'
| reach_flush (self self' : t) :
    reachable self -> flush self = (self', Ok tt) -> reachable self'
| reach_getitem (value : pyindex) (r : got (elem E) (elem E)) (self self' : t) :
    reachable self -> __getitem__ value self = (self', Ok r) -> reachable self'
| reach_close (self self' : t) :
    reachable self -> close self = (self', Ok tt) -> reachable self'.

(** The offsets the object seeks to are not negative. *)
Definition seekable (self : t) : Prop :=
  0 <= itemsize E /\ 0 <= _datapos self /\ 0 <= _lenpos self
  /\ 0 <= _indexflushed self /\ 0 <= _index self.

End WithEltype.
End FillableFile.

(* ===================================================================== *)
(** * Two element types to run the code on                                *)
(* ===================================================================== *)

(** The Python values the examples hand to [append] and [extend]. *)
Inductive pyobject : Set :=
| PyInt (z : Z)
| PyNone
| PyList (zs : list Z).

(** Four bytes, little-endian, two's complement. *)
Definition le32 (z : Z) : list byte :=
  let u := z mod 2 ^ 32 in
  [byte_of_Z u; byte_of_Z (u / 2 ^ 8); byte_of_Z (u / 2 ^ 16); byte_of_Z (u / 2 ^ 24)].

Definition Z_of_byte (b : byte) : Z := Z.of_N (Byte.to_N b).

Definition de32 (bs : list byte) : Z :=
  let u := fold_right (fun b acc => Z_of_byte b + 256 * acc) 0 (take 4 bs) in
  if u <? 2 ^ 31 then u else u - 2 ^ 32.

(** The value an int32 slot takes from a Python integer (wrapped to
    32 bits when it does not fit, as a C cast does; an integer that
    does not fit a C long raises [OverflowError] in numpy and is not
    among the inputs used here). *)
Definition wrap32 (z : Z) : Z := de32 (le32 z).

(** dtype [numpy.int32], [dims = ()].  [junk] is what uninitialised
    slots hold. *)
Definition int32 (junk : Z) : eltype :=
  mkeltype pyobject Z
    (fun v => match v with
              | PyInt z => Ok (wrap32 z)
              | PyNone => Raise TypeError
              | PyList _ => Raise ValueError
              end)
    junk 4 [] le32 de32.

(** dtype [numpy.int32], [dims = (2,)]: an element is a row of two
    scalars, eight bytes.  A scalar and a list of one integer are
    broadcast to the row. *)
Definition int32x2 (junk : Z) : eltype :=
  mkeltype pyobject (Z * Z)
    (fun v => match v with
              | PyInt z => Ok (wrap32 z, wrap32 z)
              | PyNone => Raise TypeError
              | PyList [a] => Ok (wrap32 a, wrap32 a)
              | PyList [a; b] => Ok (wrap32 a, wrap32 b)
              | PyList _ => Raise ValueError
              end)
    (junk, junk) 4 [2]
    (fun x => le32 (fst x) ++ le32 (snd x))
    (fun bs => (de32 (take 4 bs), de32 (drop 4 bs))).

(** Running a sequence of calls on an object, keeping the last state and
    stopping at the first call that does not return. *)
Definition run {S X} (c : method S X) (s : S) : S * result X := c s.
Definition state_after {S X} (c : method S X) (s : S) : S := fst (c s).
Definition outcome {S X} (c : method S X) (s : S) : result X := snd (c s).

(* ===================================================================== *)
(** * The schema walk                                                     *)
(* ===================================================================== *)

(** A dtype as the walk hands it on: by name. *)
Definition npdtype : Set := string.

(** [numpy.bool_] *)
Definition numpy_bool_ : npdtype := "bool".

(** The generator tree of [oamap.generator], which this repository
    imports and does not define: the classes the walk tests for with
    [isinstance] and the attributes it reads from each.  [mask] is
    [Some m] for a generator that is also a [Masked] one, [m] being its
    [mask] attribute.  A keyword argument left at [None] is [None] here
    ([dtype] and [dims] of a primitive, the two the walk checks).
    [OtherGenerator] stands for an object of none of the six classes.
    The type is named after their base class, [oamap.generator.Generator]. *)
#[warnings="-register-all"]
Inductive Generator : Type :=
| PrimitiveGenerator (mask : option string) (data : string)
    (dtype : option npdtype) (dims : option (list Z))
| ListGenerator (mask : option string) (starts stops : string)
    (dtype : npdtype) (content : Generator)
| UnionGenerator (mask : option string) (tags offsets : string)
    (dtype : npdtype) (possibilities : list Generator)
| RecordGenerator (mask : option string) (fields : list (string * Generator))
| TupleGenerator (mask : option string) (types : list Generator)
| PointerGenerator (mask : option string) (positions : string)
    (dtype : npdtype) (_internal : bool) (target : Generator)
| OtherGenerator (mask : option string).

Definition mask_of (g : Generator) : option string :=
  match g with
  | PrimitiveGenerator m _ _ _ | ListGenerator m _ _ _ _
  | UnionGenerator m _ _ _ _ | RecordGenerator m _ | TupleGenerator m _
  | PointerGenerator m _ _ _ _ | OtherGenerator m => m
  end.

(** [_makefillables]: [fillables] is the dictionary the walk fills in
    place, returned here when the walk returns.  When the walk raises,
    the callers below drop the dictionary, so it is not returned then. *)
Fixpoint _makefillables {F : Type} (generator : Generator)
  (fillables : gmap string F)
  (makefillable : string -> npdtype -> list Z -> F)
  (liststarts unionoffsets : bool) {struct generator}
  : result (gmap string F) :=
  let fillables :=
    match mask_of generator with
    | Some mask => <[mask := makefillable mask numpy_bool_ []]> fillables
    | None => fillables
    end in
  match generator with
  | PrimitiveGenerator _ data dtype dims =>
      match dtype, dims with
      | None, _ => Raise ValueError
      | Some _, None => Raise ValueError
      | Some dtype, Some dims =>
          Ok (<[data := makefillable data dtype dims]> fillables)
      end
  | ListGenerator _ starts stops dtype content =>
      let fillables :=
        if liststarts then <[starts := makefillable starts dtype []]> fillables
        else fillables in
      let fillables := <[stops := makefillable stops dtype []]> fillables in
      _makefillables content fillables makefillable liststarts unionoffsets
  | UnionGenerator _ tags offsets dtype possibilities =>
      let fillables := <[tags := makefillable tags dtype []]> fillables in
      let fillables :=
        if unionoffsets then <[offsets := makefillable offsets dtype []]> fillables
        else fillables in
      (fix each (possibilities : list Generator) (fillables : gmap string F) :=
         match possibilities with
         | [] => Ok fillables
         | possibility :: rest =>
             try fillables <-
               _makefillables possibility fillables makefillable liststarts
                 unionoffsets;
             each rest fillables
         end) possibilities fillables
  | RecordGenerator _ fields =>
      (fix each (fields : list (string * Generator)) (fillables : gmap string F) :=
         match fields with
         | [] => Ok fillables
         | (_, field) :: rest =>
             try fillables <-
               _makefillables field fillables makefillable liststarts
                 unionoffsets;
             each rest fillables
         end) fields fillables
  | TupleGenerator _ types =>
      (fix each (types : list Generator) (fillables : gmap string F) :=
         match types with
         | [] => Ok fillables
         | field :: rest =>
             try fillables <-
               _makefillables field fillables makefillable liststarts
                 unionoffsets;
             each rest fillables
         end) types fillables
  | PointerGenerator _ positions dtype _internal target =>
      let fillables := <[positions := makefillable positions dtype []]> fillables in
      if negb _internal then
        _makefillables target fillables makefillable liststarts unionoffsets
      else Ok fillables
  | OtherGenerator _ => Raise AssertionError
  end.

(** A fillable the walk has just constructed, by the constructor call
    that made it. *)
Inductive fillable : Set :=
| NewFillableList (dtype : npdtype) (dims : list Z).

(** [fillablelists], on a generator (the conversion of a schema to its
    generator is left out). *)
Definition fillablelists (generator : Generator) (liststarts unionoffsets : bool)
  : result (gmap string fillable) :=
  _makefillables generator ∅
    (fun name dtype dims => NewFillableList dtype dims) liststarts unionoffsets.

(* ===================================================================== *)
(** * Reading the header back                                             *)
(* ===================================================================== *)

Fixpoint lstrip (s : string) : string :=
  match s with
  | String " " s' => lstrip s'
  | _ => s
  end.

(** The element count a reader finds in the header: the [w] columns at
    [lenpos] hold spaces and then a decimal number. *)
Definition header_count (c : list byte) (lenpos : Z) (w : nat) : option Z :=
  option_map Z.of_int
    (NilZero.int_of_string
       (lstrip (string_of_list_byte (take w (drop (Z.to_nat lenpos) c))))).

(* ===================================================================== *)
(** * Scripts                                                             *)
(* ===================================================================== *)

(** A script is a constructor call followed by method calls on the new
    object.  [call] goes on only when the method returned; [ask] gives
    what the last method returned or raised. *)
Definition call {S X} (r : result S) (c : method S X) : result S :=
  try s <- r;
  match c s with
  | (s', Ok _) => Ok s'
  | (_, Raise e) => Raise e
  | (_, OutOfFuel) => OutOfFuel
  end.

Definition ask {S X} (r : result S) (c : method S X) : result X :=
  try s <- r; snd (c s).

(** [for value in values: append(value)] *)
Fixpoint each {S V} (append : V -> method S unit) (values : list V)
  : method S unit :=
  match values with
  | [] => ret tt
  | value :: rest => (append value;; each append rest)%method
  end.

(** An element type whose elements take [dtype.itemsize] bytes each
    ([dims = ()]), more than none. *)
Definition scalar_layout (E : eltype) : Prop :=
  elsize E = itemsize E /\ 0 < elsize E
  /\ forall x : elem E, zlen (tobytes E x) = elsize E.

(** An element that reads back from its bytes. *)
Definition readable (E : eltype) (x : elem E) : Prop :=
  frombytes E (tobytes E x) = x.

(** The outcome of a call and the object as the call left it, whether
    the call returned or raised. *)
Definition attempt {S X} (r : result S) (c : method S X)
  : result (S * result X) :=
  try s <- r; Ok (c s).

Definition ints : list Z -> list pyobject := map PyInt.

(** [FillableArray(numpy.int32, chunksize=4)] after
    [extend([1, 2, 3, 4, 5, 6, 7])] *)
Definition array7 (junk : Z) : result (FillableArray.t (int32 junk)) :=
  call (FillableArray.__init__ (int32 junk) 4)
       (FillableArray.extend (int32 junk) (ints [1; 2; 3; 4; 5; 6; 7])).

(** [FillableList(numpy.int32)] after the same [extend] *)
Definition list7 (junk : Z) : result (FillableList.t (int32 junk)) :=
  call (Ok (FillableList.__init__ (int32 junk)))
       (FillableList.extend (int32 junk) (ints [1; 2; 3; 4; 5; 6; 7])).

(** [FillableFile(name, numpy.int32, flushsize=4)] after the same [extend] *)
Definition file7 (junk : Z) : result (FillableFile.t (int32 junk)) :=
  call (FillableFile.__init__ (int32 junk) "int32" FillableFile_ 4 16)
       (FillableFile.extend (int32 junk) (ints [1; 2; 3; 4; 5; 6; 7])).

(** [FillableFile(name, numpy.int32, dims=(2,), flushsize=1)] *)
Definition pairfile (junk : Z) : result (FillableFile.t (int32x2 junk)) :=
  FillableFile.__init__ (int32x2 junk) "int32" FillableFile_ 1 16.

(** ... after [append([1, 2])] and [extend([[3, 4], [5, 6]])] *)
Definition pairfile_1_2 (junk : Z) : result (FillableFile.t (int32x2 junk)) :=
  call (call (pairfile junk) (FillableFile.append (int32x2 junk) (PyList [1; 2])))
       (FillableFile.extend (int32x2 junk) [PyList [3; 4]; PyList [5; 6]]).

(** ... after [extend([[1, 2], [3, 4], [5, 6]])] alone *)
Definition pairfile_0_3 (junk : Z) : result (FillableFile.t (int32x2 junk)) :=
  call (pairfile junk)
       (FillableFile.extend (int32x2 junk) [PyList [1; 2]; PyList [3; 4]; PyList [5; 6]]).

(** [FillableFile(name, numpy.int32, flushsize=1)] *)
Definition file1 (junk : Z) : result (FillableFile.t (int32 junk)) :=
  FillableFile.__init__ (int32 junk) "int32" FillableFile_ 1 16.

(** [FillableFile(name, numpy.int32, flushsize=4)] after [append(1)] *)
Definition file4_1 (junk : Z) : result (FillableFile.t (int32 junk)) :=
  call (FillableFile.__init__ (int32 junk) "int32" FillableFile_ 4 16)
       (FillableFile.append (int32 junk) (PyInt 1)).

(** [FillableNumpyFile(name, numpy.int32, flushsize=4, lendigits=w)] after
    [extend] with the given integers *)
Definition numpyfile (junk : Z) (w : nat) (values : list Z)
  : result (FillableFile.t (int32 junk)) :=
  call (FillableFile.__init__ (int32 junk) "int32" FillableNumpyFile_ 4 w)
       (FillableFile.extend (int32 junk) (ints values)).

(** A record with a primitive field [x] and a field [y] that is a list
    of primitives, and a masked primitive. *)
Definition record_x_y : Generator :=
  RecordGenerator None
    [("x", PrimitiveGenerator None "object-Fx-Df64" (Some "float64") (Some []));
     ("y", ListGenerator None "object-Fy-B" "object-Fy-E" "int32"
             (PrimitiveGenerator None "object-Fy-L-Di32" (Some "int32") (Some [])))]%string.

Definition masked_primitive : Generator :=
  PrimitiveGenerator (Some "object-M") "object-Df64" (Some "float64") (Some [])%string.

(** [extend([1, None])] on a new [FillableFile(name, numpy.int32,
    flushsize=1)] raises in its second round.  The script goes on with
    [append(7)] and [self[:]] and reports, in this order: what [extend]
    did, [len(self)] after it, what [append] did, [len(self)] after it,
    and what [self[:]] gave. *)
Definition retry_script (junk : Z)
  : result (result unit * Z * result unit * Z * result (got Z Z)) :=
  try f <- file1 junk;
  let '(f1, r1) := FillableFile.extend (int32 junk) [PyInt 1; PyNone] f in
  let '(f2, r2) := FillableFile.append (int32 junk) (PyInt 7) f1 in
  let '(_, r3) := FillableFile.__getitem__ (int32 junk) (Slice sl_all) f2 in
  Ok (r1, FillableFile.__len__ _ f1, r2, FillableFile.__len__ _ f2, r3).

(** The same script without the call that raised. *)
Definition no_retry_script (junk : Z) : result (got Z Z) :=
  ask (call (file1 junk) (FillableFile.append (int32 junk) (PyInt 7)))
      (FillableFile.__getitem__ (int32 junk) (Slice sl_all)).

(** [FillableNumpyFile(name, numpy.int32, flushsize=4, lendigits=16)]
    after [extend([1, 2, 3, 4, 5, 6])]: four elements in the file, two
    staged. *)
Definition numpyfile6 : FillableFile.t (int32 0) :=
  match numpyfile 0 16 [1; 2; 3; 4; 5; 6] with
  | Ok f => f
  | _ => FillableFile.mk (int32 0) FillableNumpyFile_ [] 0 0 0 fopen_truncated 0 0 O
  end.

(** The same with [lendigits=1], after [extend] with ten elements. *)
Definition numpyfile10 : result (FillableFile.t (int32 0)) :=
  numpyfile 0 1 [1; 2; 3; 4; 5; 6; 7; 8; 9; 10].

(* ===================================================================== *)
(** * Further notions and objects for the general properties              *)
(* ===================================================================== *)

(** Two outcomes of the same kind: both returned, with values related by
    [rel], or both raised the same exception. *)
Definition alike {A B} (rel : A -> B -> Prop) (r : result A) (r' : result B)
  : Prop :=
  match r, r' with
  | Ok a, Ok b => rel a b
  | Raise e, Raise e' => e = e'
  | _, _ => False
  end.

(** Every entry of [after] was in [before] or was made by [makefillable]
    under the name it is stored at. *)
Definition made_by {F} (makefillable : string -> npdtype -> list Z -> F)
  (before after : gmap string F) : Prop :=
  forall (name : string) (fillable : F),
    after !! name = Some fillable ->
    before !! name = Some fillable
    \/ exists dtype dims, fillable = makefillable name dtype dims.

(** [FillableFile(name, numpy.int32, flushsize=4)] after
    [extend([1, 2, 3, 4, 5, 6, 7])], as an object. *)
Definition plainfile7 : FillableFile.t (int32 0) :=
  match file7 0 with
  | Ok f => f
  | _ => FillableFile.mk (int32 0) FillableFile_ [] 0 0 0 fopen_truncated 0 0 O
  end.

(** [FillableArray(numpy.int32, chunksize=4)] after the same [extend]. *)
Definition chunks7 : FillableArray.t (int32 0) :=
  match array7 0 with
  | Ok a => a
  | _ => FillableArray.mk (int32 0) 0 [] 0 0
  end.

(** [FillableFile(name, numpy.int32, flushsize=0)], as the constructor
    leaves it: an empty staging buffer on an empty file. *)
Definition plainfile_flushsize0 : FillableFile.t (int32 0) :=
  FillableFile.mk (int32 0) FillableFile_ [] 0 0 0 fopen_truncated 0 0 O.

(** [FillableArray(numpy.int32, chunksize=0)], as the constructor leaves
    it: one chunk of no slot. *)
Definition chunks_chunksize0 : FillableArray.t (int32 0) :=
  FillableArray.mk (int32 0) 0 [[]] 0 0.

(** [FillableFile(name, numpy.int32, flushsize=4)] after [append(1)] and
    [close()]: one element staged, the handle closed. *)
Definition closedfile : FillableFile.t (int32 0) :=
  FillableFile.mk (int32 0) FillableFile_ [1; 0; 0; 0] 1 0 1
    (mkfile (le32 1) 4 true) 0 0 O.

(** [FillableFile.__enter__]: [return self]. *)
Definition __enter__ (E : eltype) : method (FillableFile.t E) (FillableFile.t E) :=
  get.

(** [FillableFile.__exit__]: [self.close()], whatever the arguments. *)
Definition __exit__ (E : eltype) : method (FillableFile.t E) unit :=
  FillableFile.close E.

(** [FillableFile.__del__]: [self.close()]. *)
Definition __del__ (E : eltype) : method (FillableFile.t E) unit :=
  FillableFile.close E.

(** [with self: body].  [__exit__] is called whether the body returned
    or raised; it returns [None], so what the body raised is raised
    again after it, unless [__exit__] itself raises.  (A body cut off by
    the bound of the model is no outcome of a Python body; the block
    passes the cut on.) *)
Definition with_block {E : eltype} {X} (body : method (FillableFile.t E) X)
  : method (FillableFile.t E) X :=
  fun self =>
    let '(self, _) := __enter__ E self in
    let '(self, r) := body self in
    match __exit__ E self with
    | (self, Ok _) => (self, r)
    | (self, Raise e) => (self, Raise e)
    | (self, OutOfFuel) => (self, OutOfFuel)
    end.

(** [FillableArray(numpy.int32, chunksize=4)] after
    [extend([1, 2, 3, 4])]: one chunk, full. *)
Definition chunks4 : FillableArray.t (int32 0) :=
  match call (FillableArray.__init__ (int32 0) 4)
             (FillableArray.extend (int32 0) (ints [1; 2; 3; 4])) with
  | Ok a => a
  | _ => FillableArray.mk (int32 0) 0 [] 0 0
  end.

(** [self] is a [FillableNumpyFile] on an open handle that holds the
    elements [xs] behind its header: the count field lies within the
    header, the first [_indexflushed] elements are in the file from the
    data offset on, with nothing after them, and the others are
    staged. *)
Definition stores_behind_header (E : eltype) (self : FillableFile.t E)
  (xs : list (elem E)) : Prop :=
  FillableFile.class E self = FillableNumpyFile_
  /\ closed (FillableFile._file E self) = false
  /\ 0 <= FillableFile._lenpos E self
  /\ FillableFile._lenpos E self + Z.of_nat (FillableFile._formatter E self)
     <= FillableFile._datapos E self
  /\ (1 <= FillableFile._formatter E self)%nat
  /\ 0 <= FillableFile._indexflushed E self
  /\ FillableFile._indexflushed E self <= FillableFile._index E self
  /\ FillableFile._index E self - FillableFile._indexflushed E self
     = FillableFile._indexinchunk E self
  /\ FillableFile._index E self = zlen xs
  /\ FillableFile._indexinchunk E self <= zlen (FillableFile._data E self)
  /\ 0 < zlen (FillableFile._data E self)
  /\ FillableFile._datapos E self <= zlen (contents (FillableFile._file E self))
  /\ drop (Z.to_nat (FillableFile._datapos E self))
          (contents (FillableFile._file E self))
     = tostring E (take (Z.to_nat (FillableFile._indexflushed E self)) xs)
  /\ take (Z.to_nat (FillableFile._indexinchunk E self)) (FillableFile._data E self)
     = drop (Z.to_nat (FillableFile._indexflushed E self)) xs.

(** A new [FillableNumpyFile(name, numpy.int32, flushsize=4,
    lendigits=16)]. *)
Definition numpyfile_new : FillableFile.t (int32 0) :=
  match FillableFile.__init__ (int32 0) "int32" FillableNumpyFile_ 4 16 with
  | Ok f => f
  | _ => FillableFile.mk (int32 0) FillableNumpyFile_ [] 0 0 0 fopen_truncated 0 0 O
  end.

(** What is known of a file-backed fillable: [len(self)], the number of
    elements it counts as flushed, the count read from the header, and
    the bytes of the data region of the file. *)
Definition file_report {E : eltype} (f : FillableFile.t E)
  : Z * Z * option Z * list byte :=
  (FillableFile.__len__ E f,
   FillableFile._indexflushed E f,
   header_count (contents (FillableFile._file E f)) (FillableFile._lenpos E f)
     (FillableFile._formatter E f),
   drop (Z.to_nat (FillableFile._datapos E f)) (contents (FillableFile._file E f))).

(** The elements staged in the buffer of a file-backed fillable. *)
Definition staged {E : eltype} (f : FillableFile.t E) : list (elem E) :=
  take (Z.to_nat (FillableFile._indexinchunk E f)) (FillableFile._data E f).

(** [FillableNumpyFile(name, numpy.int32, flushsize=4, lendigits=16)]
    after [extend([1, 2, 3, 4, 5, 6])] and [extend([7, 8, 9])]. *)
Definition numpyfile9 (junk : Z) : result (FillableFile.t (int32 junk)) :=
  call (numpyfile junk 16 [1; 2; 3; 4; 5; 6])
       (FillableFile.extend (int32 junk) (ints [7; 8; 9])).

(** [FillableNumpyFile(name, numpy.int32, dims=(2,), flushsize=4,
    lendigits=16)] after [append] of the five rows [[1, 2]], [[3, 4]],
    [[5, 6]], [[7, 8]] and [[9, 10]]. *)
Definition pairnumpyfile5 (junk : Z) : result (FillableFile.t (int32x2 junk)) :=
  call (FillableFile.__init__ (int32x2 junk) "int32" FillableNumpyFile_ 4 16)
       (each (FillableFile.append (int32x2 junk))
          [PyList [1; 2]; PyList [3; 4]; PyList [5; 6]; PyList [7; 8];
           PyList [9; 10]]).

(** [self[::0]] on that object.  The script reports, in this order: what
    is known of the object and what it has staged before the call, what
    the call did, and the same two after it. *)
Definition zero_step_script (junk : Z)
  : result ((Z * Z * option Z * list byte) * list (Z * Z)
            * result (got (Z * Z) (Z * Z))
            * (Z * Z * option Z * list byte) * list (Z * Z)) :=
  try f <- pairnumpyfile5 junk;
  let '(f1, r) :=
    FillableFile.__getitem__ (int32x2 junk) (Slice (mkslice None None (Some 0))) f in
  Ok (file_report f, staged f, r, file_report f1, staged f1).

(* ===================================================================== *)
(** * Slices of a known sequence                                          *)
(* ===================================================================== *)

(** C1. With a 4-byte integer dtype, [dims = ()] and [chunksize = 4],
    after [extend([1, 2, 3, 4, 5, 6, 7])] the slice [fillable[1:6:2]] of
    the chunked array is [[2, 4]]: the output is allocated with
    [(stop - start) // step = 2] slots and the walk stops when they are
    full, so the element 6 of the clamped-bounds slice [[2, 4, 6]] is
    lost.  The list-backed fillable allocates the same two slots and
    raises when it assigns the three selected elements to them.  The
    file-backed fillable, which leaves the slice to numpy, returns
    [[2, 4, 6]]. *)
Theorem slice_1_6_2_of_seven : forall junk : Z,
  ask (array7 junk) (FillableArray.__getitem__ (int32 junk) (Slice (sl3 1 6 2)))
    = Ok (Arr [2; 4])
  /\ ask (list7 junk) (FillableList.__getitem__ (int32 junk) (Slice (sl3 1 6 2)))
    = Raise ValueError
  /\ ask (file7 junk) (FillableFile.__getitem__ (int32 junk) (Slice (sl3 1 6 2)))
    = Ok (Arr [2; 4; 6])
  /\ getslice [1; 2; 3; 4; 5; 6; 7] (sl3 1 6 2) = Ok [2; 4; 6].
Proof.
  intros junk. repeat split; vm_compute; reflexivity.
Qed.

(** Two more slices of the same chunked array: a stride of 3 loses its
    phase at the chunk boundary, and a negative stride skips the first
    slot of every chunk and leaves the last output slot unwritten. *)
Lemma more_slices_of_seven : forall junk : Z,
  ask (array7 junk) (FillableArray.__getitem__ (int32 junk) (Slice (sl3 0 7 3)))
    = Ok (Arr [1; 4])
  /\ getslice [1; 2; 3; 4; 5; 6; 7] (sl3 0 7 3) = Ok [1; 4; 7]
  /\ ask (array7 junk) (FillableArray.__getitem__ (int32 junk) (Slice (sl3 6 0 (-1))))
    = Ok (Arr [7; 6; 4; 3; 2; junk])
  /\ getslice [1; 2; 3; 4; 5; 6; 7] (sl3 6 0 (-1)) = Ok [7; 6; 5; 4; 3; 2].
Proof.
  intros junk. repeat split; vm_compute; reflexivity.
Qed.

(* ===================================================================== *)
(** * Appending, extending and reading back                               *)
(* ===================================================================== *)

(** C2. On a file-backed fillable of dtype int32 with [dims = (2,)] and
    [flushsize = 1], after [append([1, 2])] and
    [extend([[3, 4], [5, 6]])] the length is 3, but the file holds the
    twelve bytes of 1, 3, 4: [extend] seeks to
    [indexflushed * dtype.itemsize], four bytes into the eight of the
    first row, and overwrites its second half.  Reading the elements
    back raises, the file being too short for three rows. *)
Theorem rows_appended_then_extended : forall junk : Z,
  rmap (FillableFile.__len__ (int32x2 junk)) (pairfile_1_2 junk) = Ok 3
  /\ rmap (fun f => contents (FillableFile._file _ f)) (pairfile_1_2 junk)
     = Ok (le32 1 ++ le32 3 ++ le32 4)
  /\ ask (pairfile_1_2 junk) (FillableFile.__getitem__ (int32x2 junk) (Slice sl_all))
     = Raise ValueError.
Proof.
  intros junk. repeat split; vm_compute; reflexivity.
Qed.

(** C3. [extend([1, None])] on a new file-backed fillable with
    [flushsize = 1] raises [TypeError] and leaves the length at 0, but
    it has written the element 1 to the file and left the handle behind
    it.  The [append(7)] that follows returns and the length is 1, yet
    the fillable then reads [[1]]; without the failed call it reads
    [[7]]. *)
Theorem append_after_failed_extend : forall junk : Z,
  retry_script junk = Ok (Raise TypeError, 0, Ok tt, 1, Ok (Arr [1]))
  /\ no_retry_script junk = Ok (Arr [7]).
Proof.
  intros junk. split; vm_compute; reflexivity.
Qed.

(* ===================================================================== *)
(** * Single-index access                                                 *)
(* ===================================================================== *)

(** C4. On the chunked array holding 1..7 in chunks of four, index -4
    is in range and normalises to position 3, which holds 4; the code
    returns 5.  It splits the index it was given, not the normalised
    one: [divmod(-4, 4) = (-1, 0)] is slot 0 of the last chunk. *)
Theorem array_negative_index : forall junk : Z,
  ask (array7 junk) (FillableArray.__getitem__ (int32 junk) (Int (-4)))
    = Ok (Item 5)
  /\ ask (array7 junk) (FillableArray.__getitem__ (int32 junk) (Int 3))
    = Ok (Item 4).
Proof.
  intros junk. split; vm_compute; reflexivity.
Qed.

(** C5. On a file-backed fillable holding one element, [self[0]]
    raises [NameError]: the branch reads a name [index] that nothing
    binds. *)
Theorem file_single_index : forall junk : Z,
  ask (file4_1 junk) (FillableFile.__getitem__ (int32 junk) (Int 0))
    = Raise NameError.
Proof.
  intros junk. vm_compute. reflexivity.
Qed.

(* ===================================================================== *)
(** * Closing                                                             *)
(* ===================================================================== *)

(** C6. The first [close()] of a file-backed fillable returns; the
    second raises [ValueError], because it flushes again and the write
    goes to a closed handle. *)
Theorem close_twice : forall junk : Z,
  rmap (fun f => closed (FillableFile._file _ f))
       (call (file4_1 junk) (FillableFile.close (int32 junk))) = Ok true
  /\ ask (call (file4_1 junk) (FillableFile.close (int32 junk)))
         (FillableFile.close (int32 junk)) = Raise ValueError.
Proof.
  intros junk. split; vm_compute; reflexivity.
Qed.

(* ===================================================================== *)
(** * The counters of the file-backed fillable                            *)
(* ===================================================================== *)

(** C9. On a file-backed fillable of dtype int32 with [dims = (2,)] and
    [flushsize = 1], [extend([[1, 2], [3, 4], [5, 6]])] returns with
    [indexflushed = 2], [index = 3] and [indexinchunk = 1], but the file
    holds twelve bytes, not the sixteen of the two flushed rows: the
    second write went to offset [1 * dtype.itemsize = 4]. *)
Theorem rows_flushed_by_extend : forall junk : Z,
  rmap (fun f => (FillableFile._index _ f, FillableFile._indexinchunk _ f,
                  FillableFile._indexflushed _ f)) (pairfile_0_3 junk)
    = Ok (3, 1, 2)
  /\ rmap (fun f => contents (FillableFile._file _ f)) (pairfile_0_3 junk)
    = Ok (le32 1 ++ le32 3 ++ le32 4)
  /\ tostring (int32x2 junk) [(1, 2); (3, 4)]
    = le32 1 ++ le32 2 ++ le32 3 ++ le32 4.
Proof.
  intros junk. repeat split; vm_compute; reflexivity.
Qed.

(* ===================================================================== *)
(** * The schema walk                                                     *)
(* ===================================================================== *)

#[local] Set Warnings "-clear-no-such-hyp".

Lemma four_distinct (a b c d : string) :
  NoDup [a; b; c; d] ->
  a <> b /\ a <> c /\ a <> d /\ b <> c /\ b <> d /\ c <> d.
Proof.
  rewrite !NoDup_cons, !not_elem_of_cons. intuition.
Qed.

Lemma size_insert_new {F} (m : gmap string F) (k : string) (v : F) :
  m !! k = None -> size (<[k := v]> m) = S (size m).
Proof. apply map_size_insert_None. Qed.

#[local] Ltac fresh_key :=
  repeat (rewrite lookup_insert_ne; [| congruence]); apply lookup_empty.

(** C8, as the code has it.  For a record with one primitive field and
    one list-of-primitive field whose four storage keys are distinct,
    the walk returns three keys when list starts are disabled (the
    primitive's values, the list's stop offsets and the values of the
    list's content) and four when they are enabled, in either order of
    the fields.  For a masked primitive whose two keys are distinct it
    returns two keys: the mask, made with [numpy.bool_] and [dims = ()],
    and the values, made with the dtype and dims of the node. *)
Theorem walk_record_and_masked_primitive {F : Type}
  (makefillable : string -> npdtype -> list Z -> F)
  (xname yname x_data y_starts y_stops y_data mask data : string)
  (xdtype ldtype ydtype dtype : npdtype) (xdims ydims dims : list Z)
  (liststarts unionoffsets : bool) :
  NoDup [x_data; y_starts; y_stops; y_data] ->
  mask <> data ->
  let x := PrimitiveGenerator None x_data (Some xdtype) (Some xdims) in
  let y := ListGenerator None y_starts y_stops ldtype
             (PrimitiveGenerator None y_data (Some ydtype) (Some ydims)) in
  (forall fields,
      fields = [(xname, x); (yname, y)] \/ fields = [(yname, y); (xname, x)] ->
      exists fillables,
        _makefillables (RecordGenerator None fields) ∅ makefillable
          liststarts unionoffsets = Ok fillables
        /\ dom fillables
           = (if liststarts then {[y_starts]} else ∅) ∪ {[x_data; y_stops; y_data]}
        /\ size fillables = (if liststarts then 4 else 3)%nat)
  /\ (exists fillables,
        _makefillables (PrimitiveGenerator (Some mask) data (Some dtype) (Some dims))
          ∅ makefillable liststarts unionoffsets = Ok fillables
        /\ fillables !! mask = Some (makefillable mask numpy_bool_ [])
        /\ fillables !! data = Some (makefillable data dtype dims)
        /\ dom fillables = {[mask; data]}
        /\ size fillables = 2%nat).
Proof.
  intros Hkeys Hmask x y.
  apply four_distinct in Hkeys as (Hab & Hac & Had & Hbc & Hbd & Hcd).
  split.
  - intros fields [-> | ->]; destruct liststarts; cbn;
      eexists; (split; [reflexivity |]); split.
    all: try (rewrite !dom_insert_L, dom_empty_L; set_solver).
    all: rewrite !size_insert_new; [apply f_equal; rewrite ?map_size_empty; reflexivity | fresh_key ..].
  - cbn. eexists. split; [reflexivity |].
    split; [| split; [| split]].
    + rewrite lookup_insert_ne; [apply lookup_insert_eq | congruence].
    + apply lookup_insert_eq.
    + rewrite !dom_insert_L, dom_empty_L. set_solver.
    + rewrite !size_insert_new; [reflexivity | fresh_key ..].
Qed.

(** The walk at the names [x], [y] and the prefix [object]. *)
Lemma walk_record_and_masked_primitive_witness :
  (exists fillables,
     fillablelists record_x_y false false = Ok fillables
     /\ size fillables = 3%nat)
  /\ (exists fillables,
     fillablelists masked_primitive false false = Ok fillables
     /\ size fillables = 2%nat).
Proof.
  destruct (walk_record_and_masked_primitive
              (fun _ dtype dims => NewFillableList dtype dims)
              "x" "y" "object-Fx-Df64" "object-Fy-B" "object-Fy-E"
              "object-Fy-L-Di32" "object-M" "object-Df64"
              "float64" "int32" "int32" "float64" [] [] [] false false)
    as [Hrecord Hmasked].
  - apply (bool_decide_unpack _). vm_compute. reflexivity.
  - discriminate.
  - split.
    + destruct (Hrecord _ (or_introl eq_refl)) as (m & Hm & _ & Hsize).
      exists m. split; [exact Hm | exact Hsize].
    + destruct Hmasked as (m & Hm & _ & _ & _ & Hsize).
      exists m. split; [exact Hm | exact Hsize].
Defined.

(** The walk on [record_x_y] with list starts disabled returns three
    keys, not two. *)
Lemma record_x_y_has_three_keys :
  rmap size (fillablelists record_x_y false false) = Ok 3%nat
  /\ rmap size (fillablelists record_x_y false false) <> Ok 2%nat
  /\ rmap size (fillablelists record_x_y true false) = Ok 4%nat
  /\ rmap size (fillablelists record_x_y true false) <> Ok 3%nat.
Proof.
  repeat split; try (vm_compute; reflexivity); vm_compute; discriminate.
Qed.

(* ===================================================================== *)
(** * Writes into a file                                                  *)
(* ===================================================================== *)

Lemma overwrite_lookup_before (c bs : list byte) (p i : nat) :
  (i < p)%nat -> (i < length c)%nat -> overwrite c p bs !! i = c !! i.
Proof.
  intros Hp Hc. unfold overwrite. destruct bs as [| b bs]; [reflexivity |].
  rewrite lookup_app_l.
  - rewrite lookup_take_lt by exact Hp. apply lookup_app_l, Hc.
  - rewrite length_take, length_app, repeat_length. lia.
Qed.

Lemma overwrite_lookup_after (c bs : list byte) (p i : nat) :
  (p + length bs <= i)%nat -> overwrite c p bs !! i = c !! i.
Proof.
  intros Hi. unfold overwrite. destruct bs as [| b bs]; [reflexivity |].
  assert (Hlen : length (take p (c ++ repeat x00 (p - length c))) = p).
  { rewrite length_take, length_app, repeat_length. lia. }
  rewrite lookup_app_r by lia. rewrite Hlen.
  rewrite lookup_app_r by lia.
  rewrite lookup_drop. f_equal. lia.
Qed.

Lemma overwrite_field (c bs : list byte) (p : nat) :
  take (length bs) (drop p (overwrite c p bs)) = bs.
Proof.
  unfold overwrite. destruct bs as [| b bs]; [reflexivity |].
  assert (Hlen : length (take p (c ++ repeat x00 (p - length c))) = p).
  { rewrite length_take, length_app, repeat_length. lia. }
  rewrite drop_app_length' by (symmetry; exact Hlen).
  apply take_app_length.
Qed.

Lemma overwrite_twice (c bs : list byte) (p : nat) :
  overwrite (overwrite c p bs) p bs = overwrite c p bs.
Proof.
  unfold overwrite. destruct bs as [| b bs]; [reflexivity |].
  set (A := take p (c ++ repeat x00 (p - length c))).
  set (B := drop (p + length (b :: bs)) c).
  assert (Hlen : length A = p).
  { unfold A. rewrite length_take, length_app, repeat_length. lia. }
  f_equal; [| f_equal].
  - rewrite <- app_assoc. rewrite take_app_length' by (symmetry; exact Hlen). reflexivity.
  - rewrite drop_app_add' by (symmetry; exact Hlen).
    rewrite drop_app_length. reflexivity.
Qed.

Lemma length_overwrite (c bs : list byte) (p : nat) :
  (length c <= length (overwrite c p bs))%nat.
Proof.
  unfold overwrite. destruct bs as [| b bs]; [lia |].
  rewrite !length_app, length_take, length_app, repeat_length, length_drop.
  cbn [length]. lia.
Qed.

Lemma overwrite_lookup_outside (c bs : list byte) (p i : nat) :
  (p <= length c)%nat -> ~ (p <= i < p + length bs)%nat ->
  overwrite c p bs !! i = c !! i.
Proof.
  intros Hp Hi. destruct (Nat.lt_ge_cases i p) as [Hlt | Hge].
  - destruct (Nat.lt_ge_cases i (length c)) as [Hc | Hc].
    + now apply overwrite_lookup_before.
    + lia.
  - apply overwrite_lookup_after. lia.
Qed.

(** A slice without a step never raises. *)
Lemma getslice_to_returns {X} (l : list X) (k : Z) :
  exists r, getslice l (sl_to k) = Ok r.
Proof.
  unfold getslice, slice_positions, slice_indices, sl_to. cbn.
  eexists. reflexivity.
Qed.

Lemma getslice_to_zero {X} (l : list X) : getslice l (sl_to 0) = Ok [].
Proof.
  unfold getslice, slice_positions, slice_indices, sl_to, adjust_bound, slice_length.
  cbn. destruct (Z.leb_spec (zlen l) 0) as [Hl | Hl]; [| reflexivity].
  assert (Hz : zlen l = 0) by (unfold zlen in *; lia).
  rewrite Hz. reflexivity.
Qed.

Section FlushFacts.
Context (E : eltype).
Import FillableFile.
#[local] Arguments getslice : simpl never.
#[local] Arguments overwrite : simpl never.
#[local] Arguments format_width : simpl never.

(** What [FillableNumpyFile.flush] does on an open handle, when its two
    seeks go to offsets that are not negative. *)
Lemma flush_numpy_run (self : t E) :
  closed (_file _ self) = false ->
  0 <= _datapos _ self + _indexflushed _ self * itemsize E ->
  0 <= _lenpos _ self ->
  exists staged,
    getslice (_data _ self) (sl_to (_indexinchunk _ self)) = Ok staged
    /\ flush_numpy E self
       = (mk E (class _ self) (_data _ self) (_index _ self) 0 (_index _ self)
            (mkfile
               (overwrite
                  (overwrite (contents (_file _ self))
                     (Z.to_nat (_datapos _ self + _indexflushed _ self * itemsize E))
                     (tostring E staged))
                  (Z.to_nat (_lenpos _ self))
                  (encode_ascii (format_width (_formatter _ self) (_index _ self))))
               (_lenpos _ self
                + zlen (encode_ascii (format_width (_formatter _ self) (_index _ self))))
               false)
            (_datapos _ self) (_lenpos _ self) (_formatter _ self),
          Ok tt).
Proof.
  intros Hopen Hdata Hlen.
  destruct (getslice_to_returns (_data _ self) (_indexinchunk _ self)) as [staged Hst].
  exists staged. split; [exact Hst |].
  destruct self as [c d i ic ifl [fc fp fcl] dp lp w]. cbn in *. subst fcl.
  unfold flush_numpy, bind, get, on_file, lift, modify, fseek, fwrite,
    set_file, set_indexinchunk, set_indexflushed. cbn.
  destruct (Z.ltb_spec (dp + ifl * itemsize E) 0) as [? | _]; [lia |]. cbn.
  rewrite Hst. cbn.
  destruct (Z.ltb_spec lp 0) as [? | _]; [lia |]. cbn.
  reflexivity.
Qed.

(** What [FillableFile.flush] does on an open handle. *)
Lemma flush_plain_run (self : t E) :
  closed (_file _ self) = false ->
  exists staged,
    getslice (_data _ self) (sl_to (_indexinchunk _ self)) = Ok staged
    /\ flush_plain E self
       = (mk E (class _ self) (_data _ self) (_index _ self) 0 (_index _ self)
            (mkfile
               (overwrite (contents (_file _ self))
                  (Z.to_nat (pos (_file _ self))) (tostring E staged))
               (pos (_file _ self) + zlen (tostring E staged)) false)
            (_datapos _ self) (_lenpos _ self) (_formatter _ self),
          Ok tt).
Proof.
  intros Hopen.
  destruct (getslice_to_returns (_data _ self) (_indexinchunk _ self)) as [staged Hst].
  exists staged. split; [exact Hst |].
  destruct self as [c d i ic ifl [fc fp fcl] dp lp w]. cbn in *. subst fcl.
  unfold flush_plain, bind, get, on_file, lift, modify, fwrite,
    set_file, set_indexinchunk, set_indexflushed. cbn.
  rewrite Hst. cbn. reflexivity.
Qed.

End FlushFacts.

(* ===================================================================== *)
(** * The count field of the header                                       *)
(* ===================================================================== *)

Lemma length_encode_ascii (s : string) :
  length (encode_ascii s) = String.length s.
Proof.
  unfold encode_ascii, list_byte_of_string. rewrite length_map.
  induction s as [| a s IH]; cbn; [reflexivity | now rewrite IH].
Qed.

Lemma length_string_app (s1 s2 : string) :
  String.length (s1 ++ s2) = (String.length s1 + String.length s2)%nat.
Proof.
  induction s1 as [| a s1 IH]; simpl; [reflexivity | f_equal; exact IH].
Qed.

Lemma length_spaces (n : nat) : String.length (spaces n) = n.
Proof.
  unfold spaces. induction n as [| n IH]; cbn; [reflexivity | now rewrite IH].
Qed.

(** When the digits fit, the formatted count fills the field exactly. *)
Lemma length_format_width (w : nat) (n : Z) :
  (String.length (repr_int n) <= w)%nat ->
  String.length (format_width w n) = w.
Proof.
  intros Hfit. unfold format_width.
  rewrite length_string_app, length_spaces. lia.
Qed.

Lemma int_of_repr_int (n : Z) :
  NilZero.int_of_string (repr_int n) = Some (Z.to_int n).
Proof.
  unfold repr_int. apply NilZero.isi.
  - destruct n as [| p | p]; cbn; try discriminate.
    intros [= H]. now apply (DecimalPos.Unsigned.to_uint_nonnil p).
  - destruct n as [| p | p]; cbn; try discriminate.
    intros [= H]. now apply (DecimalPos.Unsigned.to_uint_nonnil p).
Qed.

Lemma lstrip_spaces (k : nat) (s : string) :
  lstrip (spaces k ++ s) = lstrip s.
Proof.
  unfold spaces. induction k as [| k IH]; cbn; [reflexivity | exact IH].
Qed.

Lemma lstrip_repr_int (n : Z) : lstrip (repr_int n) = repr_int n.
Proof.
  pose proof (int_of_repr_int n) as Hparse.
  destruct (repr_int n) as [| a s]; [reflexivity |].
  destruct (Ascii.eqb_spec a " ") as [-> | Hne].
  - exfalso. cbn in Hparse.
    destruct (NilEmpty.uint_of_string s); discriminate.
  - cbn. destruct a as [[] [] [] [] [] [] [] []]; try reflexivity.
    now contradiction Hne.
Qed.

(** Reading back a field that holds a formatted count gives the count. *)
Lemma header_count_of_format (c : list byte) (lenpos : Z) (w : nat) (n : Z) :
  take w (drop (Z.to_nat lenpos) c) = encode_ascii (format_width w n) ->
  header_count c lenpos w = Some n.
Proof.
  intros Hfield. unfold header_count. rewrite Hfield.
  unfold encode_ascii. rewrite string_of_list_byte_of_string.
  unfold format_width. rewrite lstrip_spaces, lstrip_repr_int, int_of_repr_int.
  cbn. now rewrite DecimalZ.of_to.
Qed.

(** ** How many digits a count takes *)

Lemma length_string_of_uint (d : Decimal.uint) :
  String.length (NilEmpty.string_of_uint d) = Decimal.nb_digits d.
Proof.
  induction d; cbn; [reflexivity | f_equal; exact IHd ..].
Qed.

Lemma to_lu_digit (p : positive) (r : N) :
  (r < 10)%N ->
  Decimal.nb_digits (DecimalPos.Unsigned.to_lu (10 * N.pos p + r))
  = S (Decimal.nb_digits (DecimalPos.Unsigned.to_lu (N.pos p))).
Proof.
  intros Hr.
  assert (Hcases : r = 0%N \/ r = 1%N \/ r = 2%N \/ r = 3%N \/ r = 4%N \/ r = 5%N
                   \/ r = 6%N \/ r = 7%N \/ r = 8%N \/ r = 9%N) by lia.
  destruct Hcases as [-> | [-> | [-> | [-> | [-> | [-> | [-> | [-> | [-> | ->]]]]]]]]].
  - rewrite N.add_0_r, DecimalPos.Unsigned.to_ldec_tenfold. reflexivity.
  - replace (10 * N.pos p + 1)%N with (N.succ (10 * N.pos p)) by lia.
    rewrite !DecimalPos.Unsigned.to_lu_succ, DecimalPos.Unsigned.to_ldec_tenfold. reflexivity.
  - replace (10 * N.pos p + 2)%N with (N.succ (N.succ (10 * N.pos p))) by lia.
    rewrite !DecimalPos.Unsigned.to_lu_succ, DecimalPos.Unsigned.to_ldec_tenfold. reflexivity.
  - replace (10 * N.pos p + 3)%N
      with (N.succ (N.succ (N.succ (10 * N.pos p)))) by lia.
    rewrite !DecimalPos.Unsigned.to_lu_succ, DecimalPos.Unsigned.to_ldec_tenfold. reflexivity.
  - replace (10 * N.pos p + 4)%N
      with (N.succ (N.succ (N.succ (N.succ (10 * N.pos p))))) by lia.
    rewrite !DecimalPos.Unsigned.to_lu_succ, DecimalPos.Unsigned.to_ldec_tenfold. reflexivity.
  - replace (10 * N.pos p + 5)%N
      with (N.succ (N.succ (N.succ (N.succ (N.succ (10 * N.pos p)))))) by lia.
    rewrite !DecimalPos.Unsigned.to_lu_succ, DecimalPos.Unsigned.to_ldec_tenfold. reflexivity.
  - replace (10 * N.pos p + 6)%N
      with (N.succ (N.succ (N.succ (N.succ (N.succ (N.succ (10 * N.pos p)))))))
      by lia.
    rewrite !DecimalPos.Unsigned.to_lu_succ, DecimalPos.Unsigned.to_ldec_tenfold. reflexivity.
  - replace (10 * N.pos p + 7)%N
      with (N.succ (N.succ (N.succ (N.succ (N.succ (N.succ (N.succ
              (10 * N.pos p)))))))) by lia.
    rewrite !DecimalPos.Unsigned.to_lu_succ, DecimalPos.Unsigned.to_ldec_tenfold. reflexivity.
  - replace (10 * N.pos p + 8)%N
      with (N.succ (N.succ (N.succ (N.succ (N.succ (N.succ (N.succ (N.succ
              (10 * N.pos p))))))))) by lia.
    rewrite !DecimalPos.Unsigned.to_lu_succ, DecimalPos.Unsigned.to_ldec_tenfold. reflexivity.
  - replace (10 * N.pos p + 9)%N
      with (N.succ (N.succ (N.succ (N.succ (N.succ (N.succ (N.succ (N.succ
              (N.succ (10 * N.pos p)))))))))) by lia.
    rewrite !DecimalPos.Unsigned.to_lu_succ, DecimalPos.Unsigned.to_ldec_tenfold. reflexivity.
Qed.

Lemma to_lu_one_digit (n : N) :
  (n < 10)%N -> Decimal.nb_digits (DecimalPos.Unsigned.to_lu n) = 1%nat.
Proof.
  intros Hn.
  assert (Hcases : n = 0%N \/ n = 1%N \/ n = 2%N \/ n = 3%N \/ n = 4%N \/ n = 5%N
                   \/ n = 6%N \/ n = 7%N \/ n = 8%N \/ n = 9%N) by lia.
  destruct Hcases as [-> | [-> | [-> | [-> | [-> | [-> | [-> | [-> | [-> | ->]]]]]]]]];
    reflexivity.
Qed.

Lemma to_lu_digits (w : nat) : forall n : N,
  (n < 10 ^ N.of_nat (S w))%N ->
  (Decimal.nb_digits (DecimalPos.Unsigned.to_lu n) <= S w)%nat.
Proof.
  induction w as [| w IH]; intros n Hn.
  - rewrite to_lu_one_digit; [lia | exact Hn].
  - rewrite (N.div_mod n 10) by discriminate.
    destruct (n / 10)%N as [| p] eqn:Hq.
    + rewrite to_lu_one_digit; [lia |].
      rewrite N.mul_0_r, N.add_0_l. now apply N.mod_lt.
    + rewrite to_lu_digit by now apply N.mod_lt.
      apply le_n_S. apply IH. rewrite <- Hq.
      apply N.Div0.div_lt_upper_bound.
      replace (N.of_nat (S (S w))) with (N.succ (N.of_nat (S w))) in Hn by lia.
      rewrite N.pow_succ_r' in Hn. exact Hn.
Qed.

(** A count below [10 ^ w] takes at most [w] columns. *)
Lemma repr_int_fits (w : nat) (n : Z) :
  (1 <= w)%nat -> 0 <= n < 10 ^ Z.of_nat w ->
  (String.length (repr_int n) <= w)%nat.
Proof.
  intros Hw [Hn0 Hn].
  destruct w as [| w]; [lia |].
  destruct n as [| p | p]; [cbn; lia | | lia].
  unfold repr_int. cbn [Z.to_int NilZero.string_of_int].
  unfold NilZero.string_of_uint.
  destruct (Pos.to_uint p) as [| | | | | | | | | |] eqn:Hd;
    [now apply DecimalPos.Unsigned.to_uint_nonnil in Hd | rewrite <- Hd ..].
  all: rewrite length_string_of_uint; unfold Pos.to_uint;
    rewrite DecimalFacts.nb_digits_rev;
    change (Pos.to_little_uint p) with (DecimalPos.Unsigned.to_lu (N.pos p));
    apply to_lu_digits.
  all: apply N2Z.inj_lt; rewrite N2Z.inj_pow, nat_N_Z; exact Hn.
Qed.

(* ===================================================================== *)
(** * Slices with a zero step                                             *)
(* ===================================================================== *)

Section FlushTwice.
Context (E : eltype).
Import FillableFile.
#[local] Arguments getslice : simpl never.
#[local] Arguments overwrite : simpl never.
#[local] Arguments format_width : simpl never.



(** A flush on an open handle returns, and a second flush right after it
    changes nothing at all. *)
Lemma flush_twice (self : t E) :
  closed (_file _ self) = false -> seekable E self ->
  let self1 := state_after (flush E) self in
  outcome (flush E) self = Ok tt
  /\ flush E self1 = (self1, Ok tt)
  /\ closed (_file _ self1) = false
  /\ __len__ _ self1 = __len__ _ self.
Proof.
  intros Hopen (Hitem & Hdatapos & Hlenpos & Hflushed & Hindex) self1.
  subst self1. unfold state_after, outcome, flush.
  destruct (class _ self) eqn:Hclass.
  - destruct (flush_plain_run E self Hopen) as (staged & _ & ->).
    cbn [fst snd class _file closed __len__ _index]. rewrite Hclass.
    repeat split.
    match goal with |- flush_plain E ?s1 = _ =>
      destruct (flush_plain_run E s1 eq_refl) as (staged1 & Hst1 & ->)
    end.
    cbn [_data _indexinchunk] in Hst1. rewrite getslice_to_zero in Hst1.
    injection Hst1 as <-. cbn. rewrite Z.add_0_r. reflexivity.
  - assert (H1 : 0 <= _datapos _ self + _indexflushed _ self * itemsize E)
      by (pose proof (Z.mul_nonneg_nonneg _ _ Hflushed Hitem); lia).
    destruct (flush_numpy_run E self Hopen H1 Hlenpos) as (staged & _ & ->).
    cbn [fst snd class _file closed __len__ _index]. rewrite Hclass.
    repeat split.
    match goal with |- flush_numpy E ?s1 = _ =>
      destruct (flush_numpy_run E s1 eq_refl) as (staged1 & Hst1 & ->)
    end.
    + cbn. pose proof (Z.mul_nonneg_nonneg _ _ Hindex Hitem). lia.
    + exact Hlenpos.
    + cbn [_data _indexinchunk] in Hst1. rewrite getslice_to_zero in Hst1.
      injection Hst1 as <-.
      cbn [_data _index _indexinchunk _indexflushed _file _datapos _lenpos
           _formatter class contents pos tostring map concat].
      change (overwrite ?c ?p []) with c.
      rewrite overwrite_twice. reflexivity.
Qed.

End FlushTwice.



(* ===================================================================== *)
(** * What holds of single-index reads and of [close] in general           *)
(* ===================================================================== *)

(** A flush returns or raises; it has no loop to be cut off. *)
Lemma flush_outcome (E : eltype) (self : FillableFile.t E) :
  outcome (FillableFile.flush E) self = Ok tt
  \/ exists e, outcome (FillableFile.flush E) self = Raise e.
Proof.
  destruct (getslice_to_returns (FillableFile._data E self)
              (FillableFile._indexinchunk E self)) as [staged Hst].
  unfold outcome, FillableFile.flush, FillableFile.flush_plain,
    FillableFile.flush_numpy, bind, get, lift, modify, FillableFile.on_file,
    fseek, fwrite.
  destruct self as [c d i ic ifl [fc fp fcl] dp lp w]. cbn in Hst |- *.
  destruct c, fcl; cbn; rewrite ?Hst; cbn; eauto.
  destruct (dp + ifl * itemsize E <? 0); cbn; eauto.
  rewrite ?Hst; cbn.
  destruct (lp <? 0); cbn; eauto.
Qed.

(** The single-index branch of [FillableFile.__getitem__] never returns
    an element, whatever the object and the index. *)
Lemma file_single_index_raises (E : eltype) (self : FillableFile.t E) (i : Z) :
  exists e, outcome (FillableFile.__getitem__ E (Int i)) self = Raise e.
Proof.
  unfold outcome, FillableFile.__getitem__, bind, get, raise, ret.
  destruct (closed (FillableFile._file E self)); cbn [negb].
  - eauto.
  - destruct (flush_outcome E self) as [Hok | [e He]]; unfold outcome in *;
      destruct (FillableFile.flush E self) as [self1 r]; cbn [snd] in *; subst r;
      eauto.
Qed.

(** [close] on an object whose handle is closed raises [ValueError] and
    leaves the object as it is. *)
Lemma close_on_closed_handle (E : eltype) (self : FillableFile.t E) :
  closed (FillableFile._file E self) = true ->
  FillableFile.close E self = (self, Raise ValueError).
Proof.
  intros Hclosed.
  destruct (getslice_to_returns (FillableFile._data E self)
              (FillableFile._indexinchunk E self)) as [staged Hst].
  unfold FillableFile.close, FillableFile.flush, FillableFile.flush_plain,
    FillableFile.flush_numpy, bind, get, lift, modify, FillableFile.on_file,
    fseek, fwrite.
  destruct self as [c d i ic ifl [fc fp fcl] dp lp w]. cbn in Hclosed, Hst |- *.
  subst fcl. destruct c; cbn; rewrite ?Hst; reflexivity.
Qed.

(** A [close] that returns leaves the handle closed, so the next one
    raises. *)
Lemma close_then_close (E : eltype) (self : FillableFile.t E) :
  outcome (FillableFile.close E) self = Ok tt ->
  outcome (FillableFile.close E) (state_after (FillableFile.close E) self)
  = Raise ValueError.
Proof.
  intros Hok.
  assert (Hclosed : closed (FillableFile._file E
                              (state_after (FillableFile.close E) self)) = true).
  { unfold outcome, state_after, FillableFile.close, bind, modify in *.
    destruct (FillableFile.flush E self) as [self1 [[] | e |]];
      cbn in Hok |- *; congruence. }
  unfold outcome. now rewrite close_on_closed_handle.
Qed.

(** [FillableArray.__getitem__] raises [IndexError] for every index that
    normalises outside [0, len): this half of its bounds check is
    right. *)
Lemma array_index_out_of_range (E : eltype) (self : FillableArray.t E) (i : Z) :
  let lenself := FillableArray.__len__ E self in
  let normalindex := if i >=? 0 then i else i + lenself in
  ~ (0 <= normalindex < lenself) ->
  FillableArray.__getitem__ E (Int i) self = (self, Raise IndexError).
Proof.
  intros lenself normalindex Hout.
  unfold FillableArray.__getitem__. fold lenself. fold normalindex.
  destruct (Z.leb_spec 0 normalindex), (Z.ltb_spec normalindex lenself);
    cbn; try reflexivity.
  lia.
Qed.

(* ===================================================================== *)
(** * Slices with bounds in range                                         *)
(* ===================================================================== *)

Lemma zlen_nonneg {X} (l : list X) : 0 <= zlen l.
Proof. unfold zlen. lia. Qed.

Lemma positions_from (a : Z) (n : nat) :
  0 <= a ->
  map (fun k : nat => Z.to_nat (a + Z.of_nat k * 1)) (seq 0 n) = seq (Z.to_nat a) n.
Proof.
  intros Ha. rewrite <- (Nat.add_0_r (Z.to_nat a)), <- fmap_add_seq.
  apply map_ext. intros k. lia.
Qed.

(** The positions of [a:b] when [0 <= a <= b <= len]. *)
Lemma slice_positions_range (a b len : Z) :
  0 <= a <= b -> b <= len ->
  slice_positions (sl a b) len = Ok (seq (Z.to_nat a) (Z.to_nat (b - a))).
Proof.
  intros Hab Hb. unfold slice_positions, slice_indices, sl, adjust_bound,
    slice_length. cbn.
  assert (Ha' : (if a <? 0 then if a + len <? 0 then 0 else a + len
                 else if len <=? a then len else a) = a).
  { destruct (Z.ltb_spec a 0); [lia |]. destruct (Z.leb_spec len a); lia. }
  assert (Hb' : (if b <? 0 then if b + len <? 0 then 0 else b + len
                 else if len <=? b then len else b) = b).
  { destruct (Z.ltb_spec b 0); [lia |]. destruct (Z.leb_spec len b); lia. }
  rewrite Ha', Hb'. f_equal.
  rewrite positions_from by lia. f_equal.
  destruct (Z.ltb_spec a b).
  - rewrite Z.div_1_r. lia.
  - lia.
Qed.

Lemma omap_lookup_seq {X} (l : list X) (a n : nat) :
  (a + n <= length l)%nat ->
  omap (fun p => l !! p) (seq a n) = take n (drop a l).
Proof.
  revert a. induction n as [| n IH]; intros a Hlen.
  - now rewrite take_0.
  - destruct (lookup_lt_is_Some_2 l a) as [x Hx]; [lia |].
    cbn [seq omap list_omap]. rewrite Hx.
    rewrite (drop_S _ _ _ Hx). cbn [take]. f_equal. apply IH. lia.
Qed.

(** [l[:k]] and [l[k:]] for [k >= 0] *)
Lemma getslice_to {X} (l : list X) (k : Z) :
  0 <= k -> getslice l (sl_to k) = Ok (take (Z.to_nat k) l).
Proof.
  intros Hk. pose proof (zlen_nonneg l) as Hl.
  unfold getslice, slice_positions, slice_indices, sl_to, adjust_bound,
    slice_length. cbn.
  destruct (Z.ltb_spec k 0); [lia |].
  destruct (Z.leb_spec (zlen l) k) as [Hge | Hlt]; cbn; f_equal.
  - rewrite positions_from by lia. cbn [Z.to_nat].
    destruct (Z.ltb_spec 0 (zlen l)).
    + rewrite Z.div_1_r. rewrite omap_lookup_seq by (unfold zlen in *; lia).
      rewrite drop_0. rewrite !take_ge by (unfold zlen in *; lia). reflexivity.
    + assert (l = []) as -> by (destruct l; [reflexivity | cbn in *; unfold zlen in *; cbn in *; lia]).
      now rewrite take_nil.
  - rewrite positions_from by lia. cbn [Z.to_nat].
    destruct (Z.ltb_spec 0 k).
    + rewrite Z.div_1_r. rewrite omap_lookup_seq by (unfold zlen in *; lia).
      rewrite drop_0. f_equal. lia.
    + assert (k = 0) as -> by lia. reflexivity.
Qed.

Lemma getslice_from {X} (l : list X) (k : Z) :
  0 <= k -> getslice l (sl_from k) = Ok (drop (Z.to_nat k) l).
Proof.
  intros Hk. pose proof (zlen_nonneg l) as Hl.
  unfold getslice, slice_positions, slice_indices, sl_from, adjust_bound,
    slice_length. cbn.
  destruct (Z.ltb_spec k 0); [lia |].
  destruct (Z.leb_spec (zlen l) k) as [Hge | Hlt]; cbn; f_equal.
  - rewrite Z.ltb_irrefl. cbn. rewrite drop_ge by (unfold zlen in *; lia).
    reflexivity.
  - destruct (Z.ltb_spec k (zlen l)); [| lia].
    rewrite positions_from by lia. rewrite Z.div_1_r.
    rewrite omap_lookup_seq by (unfold zlen in *; lia).
    rewrite take_ge; [reflexivity |].
    rewrite length_drop. unfold zlen in *. lia.
Qed.

Lemma write_at_seq {X} (src : list X) : forall (arr : list X) (a : nat),
  (a + length src <= length arr)%nat ->
  write_at arr (seq a (length src)) src
  = take a arr ++ src ++ drop (a + length src) arr.
Proof.
  induction src as [| x src IH]; intros arr a Hlen; cbn [length seq write_at].
  - rewrite Nat.add_0_r. cbn. now rewrite take_drop.
  - cbn [length] in Hlen. rewrite IH by (rewrite length_insert; lia).
    rewrite (take_S_r (<[a:=x]> arr) a x)
      by (apply list_lookup_insert_eq; lia).
    rewrite take_insert_ge by lia.
    rewrite drop_insert_lt by lia.
    rewrite <- app_assoc. cbn. rewrite Nat.add_succ_r. reflexivity.
Qed.

(** [arr[a:b] = src] when [0 <= a <= b <= len(arr)] and [src] has
    [b - a] elements. *)
Lemma np_setslice_range {X} (arr src : list X) (a b : Z) :
  0 <= a <= b -> b <= zlen arr -> zlen src = b - a ->
  np_setslice arr (sl a b) src
  = Ok (take (Z.to_nat a) arr ++ src ++ drop (Z.to_nat b) arr).
Proof.
  intros Hab Hb Hsrc. unfold np_setslice.
  rewrite slice_positions_range by assumption.
  assert (Hn : Z.to_nat (b - a) = length src) by (unfold zlen in *; lia).
  rewrite Hn. cbn [rbind].
  unfold broadcast. rewrite length_seq, Nat.eqb_refl. cbn [rbind].
  rewrite write_at_seq by (unfold zlen in *; lia).
  replace (Z.to_nat a + length src)%nat with (Z.to_nat b)
    by (unfold zlen in *; lia).
  reflexivity.
Qed.

(* ===================================================================== *)
(** * The file-backed fillable on elements of [itemsize] bytes            *)
(* ===================================================================== *)

Lemma tostring_app (E : eltype) (a b : list (elem E)) :
  tostring E (a ++ b) = tostring E a ++ tostring E b.
Proof. unfold tostring. now rewrite map_app, concat_app. Qed.

Lemma zlen_app {X} (a b : list X) : zlen (a ++ b) = zlen a + zlen b.
Proof. unfold zlen. rewrite length_app. lia. Qed.

Lemma zlen_tostring (E : eltype) (l : list (elem E)) :
  (forall x, zlen (tobytes E x) = elsize E) ->
  zlen (tostring E l) = zlen l * elsize E.
Proof.
  intros Hsz. induction l as [| x l IH].
  - reflexivity.
  - change (tostring E (x :: l)) with (tobytes E x ++ tostring E l).
    rewrite zlen_app, Hsz, IH. unfold zlen. cbn [length]. lia.
Qed.

(** A write at the end of the file appends. *)
Lemma overwrite_at_end (c bs : list byte) (p : nat) :
  p = length c -> overwrite c p bs = c ++ bs.
Proof.
  intros ->. unfold overwrite. destruct bs as [| b bs].
  - now rewrite app_nil_r.
  - rewrite Nat.sub_diag. cbn [repeat]. rewrite app_nil_r, take_ge by lia.
    rewrite drop_ge by lia. now rewrite app_nil_r.
Qed.

Lemma np_array_length (E : eltype) (values : list (pyval E)) (xs : list (elem E)) :
  np_array E values = Ok xs -> length xs = length values.
Proof.
  revert xs. induction values as [| v values IH]; intros xs; cbn.
  - now intros [= <-].
  - destruct (cast E v); cbn; try discriminate.
    destruct (np_array E values); cbn; try discriminate.
    intros [= <-]. cbn. f_equal. now apply IH.
Qed.

Lemma np_array_take (E : eltype) (values : list (pyval E)) (xs : list (elem E)) (n : nat) :
  np_array E values = Ok xs -> np_array E (take n values) = Ok (take n xs).
Proof.
  revert xs n. induction values as [| v values IH]; intros xs n; cbn.
  - intros [= <-]. now rewrite !take_nil.
  - destruct (cast E v) eqn:Hv; cbn; try discriminate.
    destruct (np_array E values) eqn:Hvs; cbn; try discriminate.
    intros [= <-]. destruct n as [| n]; cbn; [reflexivity |].
    rewrite Hv. cbn. now rewrite (IH _ n eq_refl).
Qed.

Lemma np_array_drop (E : eltype) (values : list (pyval E)) (xs : list (elem E)) (n : nat) :
  np_array E values = Ok xs -> np_array E (drop n values) = Ok (drop n xs).
Proof.
  revert xs n. induction values as [| v values IH]; intros xs n; cbn.
  - intros [= <-]. now rewrite !drop_nil.
  - destruct (cast E v) eqn:Hv; cbn; try discriminate.
    destruct (np_array E values) eqn:Hvs; cbn; try discriminate.
    intros [= <-]. destruct n as [| n]; cbn.
    + now rewrite Hv, Hvs.
    + now apply IH.
Qed.

(** Reading back the bytes of readable elements gives the elements. *)
Lemma decode_tostring (E : eltype) (xs : list (elem E)) (rest : list byte) :
  (forall x, zlen (tobytes E x) = elsize E) ->
  Forall (readable E) xs ->
  FillableFile.decode E (length xs) (tostring E xs ++ rest) = xs.
Proof.
  intros Hsz Hread. induction Hread as [| x xs Hx _ IH].
  - reflexivity.
  - change (tostring E (x :: xs)) with (tobytes E x ++ tostring E xs).
    cbn [length FillableFile.decode]. rewrite <- app_assoc.
    assert (Hlen : Z.to_nat (elsize E) = length (tobytes E x)).
    { rewrite <- (Hsz x). unfold zlen. lia. }
    rewrite Hlen, take_app_length, drop_app_length. rewrite Hx, IH. reflexivity.
Qed.

Section PlainFile.
Context (E : eltype) (Hlayout : scalar_layout E).
Import FillableFile.
#[local] Arguments getslice : simpl never.
#[local] Arguments append : simpl never.
#[local] Arguments extend : simpl never.
#[local] Arguments extend_loop : simpl never.
#[local] Arguments flush : simpl never.
#[local] Arguments __getitem__ : simpl never.
#[local] Arguments np_setslice : simpl never.
#[local] Arguments overwrite : simpl never.
#[local] Arguments tostring : simpl never.
#[local] Arguments Z.mul : simpl never.
#[local] Arguments Z.add : simpl never.
#[local] Arguments Z.sub : simpl never.

(** [flush] writes the staged elements behind the flushed ones. *)
Lemma flush_stores (self : t E) (xs : list (elem E)) :
  stores E self xs ->
  exists self1,
    flush E self = (self1, Ok tt)
    /\ stores E self1 xs
    /\ _indexinchunk _ self1 = 0
    /\ _data _ self1 = _data _ self
    /\ contents (_file _ self1) = tostring E xs.
Proof.
  intros (Hclass & Hopen & Hdatapos & Hf0 & Hfi & Hiic & Hindex & Hcap & Hdata
          & Hcontents & Hpos & Hstaged).
  destruct self as [c d i ic f [fc fp fcl] dp lp w]. cbn in *. subst c fcl dp.
  unfold flush, flush_plain, bind, get, lift, modify, on_file, fwrite,
    set_file, set_indexinchunk, set_indexflushed. cbn.
  rewrite getslice_to by lia. cbn.
  rewrite overwrite_at_end by (unfold zlen in *; lia).
  eexists. split; [reflexivity |].
  assert (Hall : fc ++ tostring E (take (Z.to_nat ic) d) = tostring E xs).
  { rewrite Hcontents, Hstaged, <- tostring_app, take_drop. reflexivity. }
  unfold stores. cbn. rewrite Hall.
  repeat split; try lia.
  - rewrite take_ge by (unfold zlen in *; lia). reflexivity.
  - rewrite <- Hall, zlen_app. lia.
  - rewrite drop_ge by (unfold zlen in *; lia). reflexivity.
Qed.

(** [append] of a value that converts, with room in the staging chunk. *)
Lemma append_stores (self : t E) (xs : list (elem E)) (v : pyval E) (x : elem E) :
  stores E self xs -> cast E v = Ok x ->
  _indexinchunk _ self < zlen (_data _ self) ->
  exists self1,
    append E v self = (self1, Ok tt)
    /\ stores E self1 (xs ++ [x])
    /\ _indexinchunk _ self1 < zlen (_data _ self1).
Proof.
  intros Hst Hv Hroom.
  pose proof Hst as (Hclass & Hopen & Hdatapos & Hf0 & Hfi & Hiic & Hindex & Hcap
                     & Hdata & Hcontents & Hpos & Hstaged).
  destruct self as [c d i ic f [fc fp fcl] dp lp w]. cbn in *. subst c fcl dp.
  assert (Hic : 0 <= ic) by lia.
  set (s2 := mk E FillableFile_ (<[Z.to_nat ic := x]> d) (i + 1) (ic + 1) f
               (mkfile fc fp false) 0 lp w).
  assert (Hs2 : stores E s2 (xs ++ [x])).
  { unfold stores, s2. cbn. rewrite zlen_app.
    assert (Hlen : zlen (<[Z.to_nat ic := x]> d) = zlen d)
      by (unfold zlen; now rewrite length_insert).
    rewrite Hlen. repeat split; try (unfold zlen in *; cbn; lia).
    - rewrite take_app_le by (unfold zlen in *; lia). exact Hcontents.
    - replace (Z.to_nat (ic + 1)) with (S (Z.to_nat ic)) by lia.
      rewrite (take_S_r _ _ x)
        by (apply list_lookup_insert_eq; unfold zlen in *; lia).
      rewrite take_insert_ge by lia. rewrite Hstaged.
      rewrite drop_app_le by (unfold zlen in *; lia). reflexivity. }
  assert (Hrun : append E v (mk E FillableFile_ d i ic f (mkfile fc fp false) 0 lp w)
                 = (if ic + 1 >=? zlen d then flush E else ret tt) s2).
  { unfold append, bind, get, lift, modify, np_setitem, norm_index,
      set_data, set_index, set_indexinchunk. cbn.
    destruct (Z.ltb_spec ic 0); [lia |].
    destruct (Z.leb_spec 0 ic); [| lia].
    destruct (Z.ltb_spec ic (zlen d)); [| lia]. cbn.
    rewrite Hv. cbn.
    replace (zlen (<[Z.to_nat ic := x]> d)) with (zlen d)
      by (unfold zlen; now rewrite length_insert).
    reflexivity. }
  rewrite Hrun.
  destruct (Z.geb_spec (ic + 1) (zlen d)) as [Hfull | Hnot].
  - destruct (flush_stores s2 _ Hs2) as (self1 & Hflush & Hst1 & Hzero & Hd1 & _).
    exists self1. split; [exact Hflush |]. split; [exact Hst1 |].
    rewrite Hzero. destruct Hst1 as (_ & _ & _ & _ & _ & _ & _ & _ & Hpos1 & _).
    exact Hpos1.
  - exists s2. split; [reflexivity |]. split; [exact Hs2 |].
    unfold s2. cbn. unfold zlen in *. rewrite length_insert. lia.
Qed.

Lemma extend_loop_done (fuel : nat) (i c f : Z) (values : list (pyval E)) (self : t E) :
  zlen values <= 0 -> extend_loop E fuel i c f values self = (self, Ok (i, c, f)).
Proof.
  intros Hnone. destruct (Z.ltb_spec 0 (zlen values)) as [? | Hle]; [lia |].
  destruct fuel; unfold extend_loop; fold (extend_loop E);
    destruct (Z.ltb_spec 0 (zlen values)); try lia; reflexivity.
Qed.

(** The loop of [extend], started with counters under which the object
    stores [xs], consumes all the values and ends with counters under
    which it stores [xs] and the converted values. *)
Lemma extend_loop_stores (fuel : nat) :
  forall (values : list (pyval E)) (vs xs : list (elem E)) (self : t E) (i c f : Z),
    stores E (with_counters E i c f self) xs ->
    np_array E values = Ok vs ->
    (length values + (if (c <? zlen (_data _ self))%Z then 0 else 1) <= fuel)%nat ->
    exists self1 i1 c1 f1,
      extend_loop E fuel i c f values self = (self1, Ok (i1, c1, f1))
      /\ stores E (with_counters E i1 c1 f1 self1) (xs ++ vs).
Proof.
  destruct Hlayout as (Hscalar & Hsize & Hbytes).
  induction fuel as [| fuel IH]; intros values vs xs self i c f Hst Hvs Hfuel.
  - (* no round is left: there is no value left either *)
    assert (values = []) as -> by (destruct values; [reflexivity | cbn in Hfuel; lia]).
    cbn in Hvs. injection Hvs as <-. rewrite app_nil_r.
    exists self, i, c, f. split; [| exact Hst]. reflexivity.
  - destruct (Z.ltb_spec 0 (zlen values)) as [Hsome | Hnone].
    2:{ assert (values = []) as ->
          by (destruct values; [reflexivity | unfold zlen in Hnone; cbn in Hnone; lia]).
        cbn in Hvs. injection Hvs as <-. rewrite app_nil_r.
        exists self, i, c, f. split; [| exact Hst]. reflexivity. }
    pose proof (np_array_length _ _ _ Hvs) as Hlenvs.
    pose proof Hst as (Hclass & Hopen & Hdatapos & Hf0 & Hfi & Hiic & Hindex & Hcap
                       & Hdata & Hcontents & Hpos & Hstaged).
    destruct self as [cl d i0 ic0 f0 [fc fp fcl] dp lp w].
    unfold with_counters, set_index, set_indexinchunk, set_indexflushed in *.
    cbn in Hclass, Hopen, Hdatapos, Hf0, Hfi, Hiic, Hindex, Hcap, Hdata,
      Hcontents, Hpos, Hstaged, Hfuel.
    subst cl fcl dp.
    assert (Hc0 : 0 <= c) by lia.
    set (tofill := Z.min (zlen values) (zlen d - c)).
    assert (Htofill : 0 <= tofill <= zlen values) by (unfold tofill; lia).
    set (src := take (Z.to_nat tofill) vs).
    assert (Hsrc : zlen src = tofill).
    { unfold src, zlen in *. rewrite length_take. lia. }
    set (d1 := take (Z.to_nat c) d ++ src ++ drop (Z.to_nat (c + tofill)) d).
    assert (Hd1 : zlen d1 = zlen d).
    { unfold d1. rewrite !zlen_app, Hsrc. unfold zlen.
      rewrite length_take, length_drop. unfold tofill, zlen in *. lia. }
    assert (Hstaged1 : take (Z.to_nat (c + tofill)) d1
                       = drop (Z.to_nat f) xs ++ src).
    { unfold d1. rewrite app_assoc, take_app_length'.
      - now rewrite Hstaged.
      - rewrite length_app, length_take. unfold zlen in *. lia. }
    (* one round, up to the test on what is left of the values *)
    unfold extend_loop; fold (extend_loop E).
    destruct (Z.ltb_spec 0 (zlen values)) as [_ | ?]; [| lia].
    unfold bind, get, lift, modify, set_data.
    cbn [_data _datapos _file _index _indexinchunk _indexflushed class _lenpos _formatter].
    change (Z.min (zlen values) (zlen d - c)) with tofill.
    rewrite (getslice_to values tofill) by lia. cbn [rbind].
    rewrite (np_array_take _ _ _ (Z.to_nat tofill) Hvs). cbn [rbind]. fold src.
    rewrite (np_setslice_range d src c (c + tofill)) by (unfold tofill in *; lia).
    fold d1. cbn [rbind].
    rewrite (getslice_from values tofill) by lia. cbn [rbind].
    assert (Hfc : zlen fc = f * itemsize E).
    { rewrite Hcontents, zlen_tostring by exact Hbytes.
      rewrite Hscalar. f_equal. unfold zlen in *. rewrite length_take. lia. }
    destruct (Z.ltb_spec 0 (zlen (drop (Z.to_nat tofill) values))) as [Hmore | Hdone].
    + (* values are left: the staged elements go to the file *)
      assert (Hseek : 0 <= 0 + f * itemsize E) by (rewrite <- Hfc; apply zlen_nonneg).
      unfold on_file, fseek, fwrite, set_file.
      cbn [_data _datapos _file _index _indexinchunk _indexflushed class
           _lenpos _formatter contents pos closed].
      destruct (Z.ltb_spec (0 + f * itemsize E) 0) as [? | _]; [lia |].
      rewrite (getslice_to d1 (c + tofill)) by lia. rewrite Hstaged1.
      assert (Hend : Z.to_nat (0 + f * itemsize E) = length fc)
        by (unfold zlen in Hfc; lia).
      rewrite overwrite_at_end by exact Hend.
      destruct (IH (drop (Z.to_nat tofill) values) (drop (Z.to_nat tofill) vs)
                  (xs ++ src)
                  (mk E FillableFile_ d1 i0 ic0 f0
                     (mkfile (fc ++ tostring E (drop (Z.to_nat f) xs ++ src))
                        (0 + f * itemsize E
                         + zlen (tostring E (drop (Z.to_nat f) xs ++ src))) false)
                     0 lp w)
                  (i + tofill) 0 (i + tofill))
        as (self1 & i1 & c1 & f1 & Hloop & Hst1).
      * unfold stores, with_counters, set_index, set_indexinchunk, set_indexflushed.
        cbn. rewrite zlen_app, Hsrc, Hd1.
        repeat split; try lia.
        -- rewrite take_ge by (rewrite length_app; unfold zlen in *; lia).
           rewrite Hcontents, <- tostring_app, app_assoc, take_drop. reflexivity.
        -- rewrite zlen_app. lia.
        -- rewrite drop_ge by (rewrite length_app; unfold zlen in *; lia).
           reflexivity.
      * now apply np_array_drop.
      * cbn [_data]. rewrite length_drop.
        destruct (Z.ltb_spec 0 (zlen d1)); [| lia].
        destruct (Z.ltb_spec c (zlen d)); unfold tofill, zlen in *; lia.
      * exists self1, i1, c1, f1. split; [exact Hloop |].
        unfold src in Hst1. rewrite <- app_assoc, take_drop in Hst1. exact Hst1.
    + (* the values are used up *)
      rewrite extend_loop_done by exact Hdone.
      assert (Hall : tofill = zlen values).
      { unfold zlen in Hdone. rewrite length_drop in Hdone. unfold zlen in *. lia. }
      assert (Hsrcvs : src = vs).
      { unfold src. apply take_ge. unfold zlen in *. lia. }
      eexists _, _, _, _. split; [reflexivity |].
      unfold stores. cbn. rewrite zlen_app, Hd1, <- Hsrcvs, Hsrc.
      repeat split; try lia.
      * rewrite take_app_le by (unfold zlen in *; lia). exact Hcontents.
      * rewrite Hstaged1. rewrite drop_app_le by (unfold zlen in *; lia).
        reflexivity.
Qed.

(** [extend] with values that all convert. *)
Lemma extend_stores (self : t E) (xs vs : list (elem E)) (values : list (pyval E)) :
  stores E self xs -> np_array E values = Ok vs ->
  exists self1,
    extend E values self = (self1, Ok tt) /\ stores E self1 (xs ++ vs).
Proof.
  intros Hst Hvs.
  destruct (extend_loop_stores (S (length values)) values vs xs self
              (_index _ self) (_indexinchunk _ self) (_indexflushed _ self))
    as (self1 & i1 & c1 & f1 & Hloop & Hst1).
  - destruct self. exact Hst.
  - exact Hvs.
  - destruct (_indexinchunk E self <? zlen (_data E self)); lia.
  - exists (with_counters E i1 c1 f1 self1). split; [| exact Hst1].
    unfold extend, bind, get, modify. rewrite Hloop. reflexivity.
Qed.

(** Appending values that convert, one at a time. *)
Lemma each_append_stores (values : list (pyval E)) :
  forall (self : t E) (xs vs : list (elem E)),
    stores E self xs -> _indexinchunk _ self < zlen (_data _ self) ->
    np_array E values = Ok vs ->
    exists self1,
      each (append E) values self = (self1, Ok tt)
      /\ stores E self1 (xs ++ vs)
      /\ _indexinchunk _ self1 < zlen (_data _ self1).
Proof.
  induction values as [| v values IH]; intros self xs vs Hst Hroom Hvs.
  - cbn in Hvs. injection Hvs as <-. rewrite app_nil_r.
    exists self. split; [reflexivity | split; assumption].
  - cbn in Hvs. destruct (cast E v) as [x | |] eqn:Hv; cbn in Hvs; try discriminate.
    destruct (np_array E values) as [vs' | |] eqn:Hvs'; cbn in Hvs; try discriminate.
    injection Hvs as <-.
    destruct (append_stores self xs v x Hst Hv Hroom) as (self1 & Happ & Hst1 & Hroom1).
    destruct (IH self1 (xs ++ [x]) vs' Hst1 Hroom1 eq_refl)
      as (self2 & Heach & Hst2 & Hroom2).
    exists self2. split; [| split; [| exact Hroom2]].
    + cbn [each]. unfold bind. rewrite Happ. exact Heach.
    + rewrite <- app_assoc in Hst2. exact Hst2.
Qed.

(** A new plain file with room for at least one staged element stores
    nothing. *)
Lemma init_stores (descr : string) (flushsize : Z) (lendigits : nat) :
  1 <= flushsize ->
  exists self,
    __init__ E descr FillableFile_ flushsize lendigits = Ok self
    /\ stores E self [] /\ _indexinchunk _ self < zlen (_data _ self).
Proof.
  intros Hsize. unfold __init__, np_empty, _openfile_plain.
  destruct (Z.ltb_spec flushsize 0); [lia |]. cbn.
  eexists. split; [reflexivity |].
  unfold stores. cbn. unfold zlen. rewrite repeat_length.
  repeat split; lia.
Qed.

(** [self[:]] on an object that stores readable elements, at least one,
    returns them. *)
Lemma getitem_all_stores (self : t E) (xs : list (elem E)) :
  stores E self xs -> xs <> [] -> Forall (readable E) xs ->
  outcome (__getitem__ E (Slice sl_all)) self = Ok (Arr xs).
Proof.
  destruct Hlayout as (Hscalar & Hsize & Hbytes).
  intros Hst Hsome Hread.
  destruct (flush_stores self xs Hst) as (self1 & Hflush & Hst1 & _ & _ & Hall).
  destruct Hst as (_ & Hopen & _).
  destruct Hst1 as (_ & _ & Hdatapos & _ & _ & _ & Hindex & _).
  unfold outcome, __getitem__, bind, get, lift, ret. rewrite Hopen. cbn [negb].
  rewrite Hflush. cbn [is_none sl_all start stop step andb].
  unfold memmap, __len__. rewrite Hdatapos, Hindex, Hall.
  rewrite zlen_tostring by exact Hbytes.
  assert (Hpos : 0 < zlen xs)
    by (destruct xs; [congruence | unfold zlen; cbn; lia]).
  destruct (Z.ltb_spec (zlen xs) 0); [lia |].
  destruct (Z.eqb_spec (zlen xs * elsize E) 0); [nia |].
  destruct (Z.ltb_spec (zlen xs * elsize E) (0 + zlen xs * elsize E)); [lia |].
  cbn [snd fst Z.to_nat drop].
  replace (Z.to_nat (zlen xs)) with (length xs) by (unfold zlen; lia).
  change (Z.to_nat 0) with 0%nat. rewrite drop_0.
  rewrite <- (app_nil_r (tostring E xs)).
  rewrite decode_tostring by assumption. reflexivity.
Qed.

(** Appending then extending, on a plain file whose elements take
    [itemsize] bytes: after [append] of each of
    [values1] and [extend(values2)], all values converting, the calls
    have returned, the length is the number of values, the file and the
    staging chunk hold the converted values in order, and [self[:]]
    returns them. *)
Lemma plain_file_append_extend_read (descr : string) (flushsize : Z)
  (lendigits : nat) (values1 values2 : list (pyval E)) (vs1 vs2 : list (elem E)) :
  1 <= flushsize ->
  np_array E values1 = Ok vs1 -> np_array E values2 = Ok vs2 ->
  exists self,
    call (call (__init__ E descr FillableFile_ flushsize lendigits)
               (each (append E) values1))
         (extend E values2) = Ok self
    /\ __len__ _ self = zlen values1 + zlen values2
    /\ stores E self (vs1 ++ vs2)
    /\ (vs1 ++ vs2 <> [] -> Forall (readable E) (vs1 ++ vs2) ->
        outcome (__getitem__ E (Slice sl_all)) self = Ok (Arr (vs1 ++ vs2))).
Proof.
  intros Hsize Hvs1 Hvs2.
  destruct (init_stores descr flushsize lendigits Hsize) as (s0 & Hinit & Hst0 & Hroom0).
  destruct (each_append_stores values1 s0 [] vs1 Hst0 Hroom0 Hvs1)
    as (s1 & Heach & Hst1 & _).
  destruct (extend_stores s1 _ vs2 values2 Hst1 Hvs2) as (s2 & Hext & Hst2).
  cbn [app] in Hst2.
  exists s2. unfold call. rewrite Hinit. cbn [rbind]. rewrite Heach. cbn [rbind].
  rewrite Hext. split; [reflexivity |]. split; [| split; [exact Hst2 |]].
  - destruct Hst2 as (_ & _ & _ & _ & _ & _ & Hindex & _).
    unfold __len__. rewrite Hindex, zlen_app. unfold zlen.
    now rewrite (np_array_length _ _ _ Hvs1), (np_array_length _ _ _ Hvs2).
  - intros Hsome Hread. now apply getitem_all_stores.
Qed.

End PlainFile.

(** The int32 element type of the examples has this layout, and the
    lemma applies to it: two values appended, five more in one [extend],
    with a staging chunk of four. *)
Lemma int32_scalar_layout (junk : Z) : scalar_layout (int32 junk).
Proof. repeat split. Qed.

Lemma plain_int32_file_reads_back :
  ask (call (call (FillableFile.__init__ (int32 0) "int32" FillableFile_ 4 16)
                  (each (FillableFile.append (int32 0)) (ints [1; 2])))
            (FillableFile.extend (int32 0) (ints [3; 4; 5; 6; 7])))
      (FillableFile.__getitem__ (int32 0) (Slice sl_all))
  = Ok (Arr [1; 2; 3; 4; 5; 6; 7]).
Proof.
  destruct (plain_file_append_extend_read (int32 0) (int32_scalar_layout 0)
              "int32" 4 16 (ints [1; 2]) (ints [3; 4; 5; 6; 7])
              [1; 2] [3; 4; 5; 6; 7])
    as (self & Hcalls & _ & _ & Hread); [lia | reflexivity | reflexivity |].
  rewrite Hcalls. apply Hread; [discriminate |].
  repeat constructor.
Defined.

(* ===================================================================== *)
(** * The list-backed fillable                                            *)
(* ===================================================================== *)

Lemma omap_none_seq {X} (f : nat -> option X) (a n : nat) :
  (forall p, (a <= p < a + n)%nat -> f p = None) -> omap f (seq a n) = [].
Proof.
  revert a. induction n as [| n IH]; intros a Hf; [reflexivity |].
  cbn [seq omap list_omap]. rewrite Hf by lia. apply IH. intros p Hp.
  apply Hf. lia.
Qed.

Lemma omap_ext_seq {X} (f g : nat -> option X) (a n : nat) :
  (forall p, (a <= p < a + n)%nat -> f p = g p) ->
  omap f (seq a n) = omap g (seq a n).
Proof.
  revert a. induction n as [| n IH]; intros a Hf; [reflexivity |].
  cbn [seq omap list_omap]. rewrite Hf by lia.
  rewrite (IH (S a)) by (intros p Hp; apply Hf; lia). reflexivity.
Qed.

(** [del l[k:]] for [0 <= k <= len(l)] *)
Lemma delslice_from {X} (l : list X) (k : Z) :
  0 <= k <= zlen l -> delslice l (sl_from k) = Ok (take (Z.to_nat k) l).
Proof.
  intros Hk. unfold delslice, slice_positions, slice_indices, sl_from,
    adjust_bound, slice_length. cbn.
  destruct (Z.ltb_spec k 0); [lia |].
  assert (Hlo : (if zlen l <=? k then zlen l else k) = k)
    by (destruct (Z.leb_spec (zlen l) k); lia).
  rewrite Hlo. cbn. f_equal.
  rewrite positions_from by lia.
  set (n := Z.to_nat (if k <? zlen l then (zlen l - k - 1) `div` 1 + 1 else 0)).
  assert (Hn : (Z.to_nat k + n = length l)%nat).
  { unfold n. destruct (Z.ltb_spec k (zlen l)).
    - rewrite Z.div_1_r. unfold zlen in *. lia.
    - unfold zlen in *. lia. }
  rewrite <- Hn at 1. rewrite seq_app, omap_app.
  rewrite (omap_none_seq _ (0 + Z.to_nat k) n).
  - rewrite app_nil_r.
    rewrite (omap_ext_seq _ (fun p => l !! p) 0 (Z.to_nat k)).
    + rewrite omap_lookup_seq by lia. now rewrite drop_0.
    + intros p Hp. rewrite bool_decide_eq_false_2; [reflexivity |].
      rewrite elem_of_seq. lia.
  - intros p Hp. rewrite bool_decide_eq_true_2; [reflexivity |].
    rewrite elem_of_seq. lia.
Qed.

Section ListFacts.
Context (E : eltype).
Import FillableList.
#[local] Arguments delslice : simpl never.
#[local] Arguments getitem : simpl never.

(** [append] first drops what lies beyond the committed cursor, then
    adds the value and moves the cursor. *)
Lemma list_append_run (self : t E) (value : pyval E) :
  committed E self ->
  append E value self
  = (mk E (take (Z.to_nat (_index _ self)) (_data _ self) ++ [value])
       (_index _ self + 1), Ok tt).
Proof.
  intros [H0 Hlen]. destruct self as [d i]. cbn in H0, Hlen |- *.
  unfold append, bind, get, lift, modify, ret. cbn.
  destruct (Z.ltb_spec i (zlen d)).
  - rewrite delslice_from by lia. reflexivity.
  - rewrite take_ge by (unfold zlen in *; lia). reflexivity.
Qed.

Lemma list_extend_run (self : t E) (values : list (pyval E)) :
  committed E self ->
  extend E values self
  = (mk E (take (Z.to_nat (_index _ self)) (_data _ self) ++ values)
       (_index _ self + zlen values), Ok tt).
Proof.
  intros [H0 Hlen]. destruct self as [d i]. cbn in H0, Hlen |- *.
  unfold extend, bind, get, lift, modify, ret. cbn.
  destruct (Z.ltb_spec i (zlen d)).
  - rewrite delslice_from by lia. reflexivity.
  - rewrite take_ge by (unfold zlen in *; lia). reflexivity.
Qed.

Lemma list_each_append (values : list (pyval E)) : forall self : t E,
  _index _ self = zlen (_data _ self) ->
  each (append E) values self
  = (mk E (_data _ self ++ values) (_index _ self + zlen values), Ok tt).
Proof.
  induction values as [| v values IH]; intros self Hend.
  - destruct self as [d i]. cbn. unfold ret, zlen. cbn.
    now rewrite app_nil_r, Z.add_0_r.
  - cbn [each]. unfold bind.
    rewrite list_append_run by (unfold committed; pose proof (zlen_nonneg (_data _ self)); lia).
    rewrite take_ge by (unfold zlen in *; lia).
    rewrite IH by (cbn; rewrite zlen_app; unfold zlen in *; cbn; lia).
    cbn. rewrite <- app_assoc. do 2 f_equal. unfold zlen. cbn [length]. lia.
Qed.

(** Appending then extending, on the list-backed object: after [append] of
    each of [values1] and [extend(values2)] on a new object, the length
    is the number of values and the object holds them in order; an index
    within the length reads the value at that place. *)
Lemma list_append_extend_read (values1 values2 : list (pyval E)) :
  let self := state_after (each (append E) values1;; extend E values2)%method
                (__init__ E) in
  outcome (each (append E) values1;; extend E values2)%method (__init__ E) = Ok tt
  /\ __len__ _ self = zlen values1 + zlen values2
  /\ _data _ self = values1 ++ values2
  /\ forall (i : nat) (value : pyval E),
       (values1 ++ values2) !! i = Some value ->
       outcome (__getitem__ E (Int (Z.of_nat i))) self = Ok (Item value).
Proof.
  intros self. subst self. unfold state_after, outcome, bind.
  rewrite list_each_append by reflexivity.
  rewrite list_extend_run
    by (unfold committed; cbn; pose proof (zlen_nonneg values1); lia).
  cbn [fst snd _data _index __init__ __len__ app].
  rewrite take_ge by (unfold zlen; lia).
  repeat split; try lia.
  intros i value Hi. unfold __getitem__, getitem, norm_index. cbn [fst snd _data rmap rbind].
  pose proof (lookup_lt_Some _ _ _ Hi) as Hlt.
  destruct (Z.ltb_spec (Z.of_nat i) 0); [lia |].
  destruct (Z.leb_spec 0 (Z.of_nat i)); [| lia].
  destruct (Z.ltb_spec (Z.of_nat i) (zlen (values1 ++ values2)));
    [| unfold zlen in *; lia].
  cbn. rewrite Nat2Z.id, Hi. reflexivity.
Qed.

End ListFacts.

(* ===================================================================== *)
(** * Chunks of one size                                                  *)
(* ===================================================================== *)

Section Chunks.
Context {X : Type} (cs : nat).

Lemma length_concat_uniform (data : list (list X)) :
  uniform cs data -> length (concat data) = (length data * cs)%nat.
Proof.
  induction 1 as [| chunk data Hchunk _ IH]; [reflexivity |].
  cbn. rewrite length_app, IH, Hchunk. reflexivity.
Qed.

(** Slot [k] of chunk [j] is slot [j * cs + k] of the whole. *)
Lemma lookup_concat_uniform (data : list (list X)) :
  uniform cs data ->
  forall (j k : nat) (chunk : list X),
    data !! j = Some chunk -> (k < cs)%nat ->
    chunk !! k = concat data !! (j * cs + k)%nat.
Proof.
  induction 1 as [| chunk0 data Hchunk0 _ IH]; intros j k chunk Hj Hk.
  - discriminate.
  - change (concat (chunk0 :: data)) with (chunk0 ++ concat data).
    destruct j as [| j]; cbn in Hj.
    + injection Hj as <-. now rewrite lookup_app_l by lia.
    + rewrite lookup_app_r by lia.
      rewrite (IH j k chunk Hj Hk). f_equal. lia.
Qed.

(** Writing [src] into chunk [j] from slot [a] on writes it into the
    whole from slot [j * cs + a] on. *)
Lemma concat_splice_uniform (data : list (list X)) :
  uniform cs data ->
  forall (j a : nat) (chunk src : list X),
    data !! j = Some chunk -> (a + length src <= cs)%nat ->
    concat (<[j := take a chunk ++ src ++ drop (a + length src) chunk]> data)
    = take (j * cs + a) (concat data) ++ src
      ++ drop (j * cs + a + length src) (concat data).
Proof.
  induction 1 as [| chunk0 data Hchunk0 _ IH]; intros j a chunk src Hj Ha.
  - discriminate.
  - destruct j as [| j]; cbn in Hj.
    + injection Hj as <-. cbn [insert list_insert concat].
      rewrite take_app_le by lia. rewrite drop_app_le by lia.
      now rewrite <- !app_assoc.
    + change (concat (chunk0 :: data)) with (chunk0 ++ concat data).
      change (concat (<[S j := ?c]> (chunk0 :: data)))
        with (chunk0 ++ concat (<[j := c]> data)).
      rewrite (IH j a chunk src Hj Ha).
      replace (S j * cs + a)%nat with (length chunk0 + (j * cs + a))%nat by lia.
      rewrite take_app_add.
      replace (length chunk0 + (j * cs + a) + length src)%nat
        with (length chunk0 + (j * cs + a + length src))%nat by lia.
      rewrite drop_app_add. now rewrite <- app_assoc.
Qed.

Lemma uniform_insert (data : list (list X)) (j : nat) (chunk : list X) :
  uniform cs data -> length chunk = cs -> uniform cs (<[j := chunk]> data).
Proof.
  intros Hdata Hchunk. unfold uniform in *.
  rewrite Forall_lookup in *. intros i c Hi.
  destruct (decide (i = j)) as [-> | Hne].
  - destruct (decide (j < length data)%nat) as [Hlt | Hge].
    + rewrite list_lookup_insert_eq in Hi by exact Hlt. now injection Hi as <-.
    + rewrite list_insert_ge in Hi by lia. now apply (Hdata j).
  - rewrite list_lookup_insert_ne in Hi by congruence. now apply (Hdata i).
Qed.

End Chunks.

(* ===================================================================== *)
(** * The array-backed fillable                                           *)
(* ===================================================================== *)

Lemma to_nat_cursor (ci cs iic : Z) :
  0 <= ci -> 0 <= cs -> 0 <= iic ->
  Z.to_nat (ci * cs + iic) = (Z.to_nat ci * Z.to_nat cs + Z.to_nat iic)%nat.
Proof.
  intros Hci Hcs Hiic.
  rewrite Z2Nat.inj_add, Z2Nat.inj_mul by nia. reflexivity.
Qed.

Section ArrayFacts.
Context (E : eltype).
Import FillableArray.

(** Writing [src] into chunk [ci] from slot [iic] on, within the chunk,
    adds [src] to the elements before the cursor and moves the cursor
    behind it. *)
Lemma array_write (cs : Z) (data : list (list (elem E))) (ci iic : Z)
  (xs src chunk : list (elem E)) :
  1 <= cs -> uniform (Z.to_nat cs) data -> 0 <= ci < zlen data ->
  0 <= iic -> iic + zlen src <= cs ->
  xs = take (Z.to_nat (ci * cs + iic)) (concat data) ->
  data !! Z.to_nat ci = Some chunk ->
  let data' :=
    <[Z.to_nat ci := take (Z.to_nat iic) chunk ++ src
                     ++ drop (Z.to_nat (iic + zlen src)) chunk]> data in
  uniform (Z.to_nat cs) data' /\ zlen data' = zlen data
  /\ xs ++ src = take (Z.to_nat (ci * cs + (iic + zlen src))) (concat data').
Proof.
  intros Hcs Huni Hci Hiic Hfit -> Hchunk data'.
  assert (Hlenchunk : length chunk = Z.to_nat cs).
  { unfold uniform in Huni. rewrite Forall_lookup in Huni. exact (Huni _ _ Hchunk). }
  pose proof (length_concat_uniform _ _ Huni) as Hlen.
  assert (Hto : Z.to_nat (iic + zlen src) = (Z.to_nat iic + length src)%nat)
    by (unfold zlen in *; lia).
  split; [| split].
  - apply uniform_insert; [exact Huni |].
    rewrite !length_app, length_take, length_drop, Hlenchunk.
    unfold zlen in *. lia.
  - unfold data', zlen. now rewrite length_insert.
  - unfold data'. rewrite Hto.
    rewrite (concat_splice_uniform _ _ Huni _ _ _ _ Hchunk)
      by (unfold zlen in *; lia).
    rewrite !to_nat_cursor by (unfold zlen in *; lia).
    rewrite app_assoc. rewrite take_app_length'; [reflexivity |].
    rewrite length_app, length_take, Hlen.
    unfold zlen in *. nia.
Qed.

(** New chunks behind chunk [ci], whose slots are all taken, leave the
    elements as they are, with the cursor at the head of chunk [ci + 1]. *)
Lemma array_new_chunks (cs : Z) (data : list (list (elem E))) (ci : Z)
  (xs : list (elem E)) (n : nat) :
  1 <= cs -> uniform (Z.to_nat cs) data -> 0 <= ci < zlen data ->
  xs = take (Z.to_nat (ci * cs + cs)) (concat data) ->
  n = Z.to_nat (ci + 2 - zlen data) ->
  let data1 := data ++ repeat (repeat (uninit E) (Z.to_nat cs)) n in
  uniform (Z.to_nat cs) data1 /\ 0 <= ci + 1 < zlen data1
  /\ xs = take (Z.to_nat ((ci + 1) * cs + 0)) (concat data1).
Proof.
  intros Hcs Huni Hci -> -> data1.
  pose proof (length_concat_uniform _ _ Huni) as Hlen.
  split; [| split].
  - unfold data1, uniform. apply Forall_app. split; [exact Huni |].
    apply Forall_forall. intros chunk Hin.
    apply list_elem_of_In, repeat_spec in Hin. subst chunk.
    apply repeat_length.
  - unfold data1. rewrite zlen_app. unfold zlen in *. rewrite repeat_length. lia.
  - unfold data1. rewrite concat_app.
    rewrite take_app_le.
    + f_equal. lia.
    + rewrite Hlen. unfold zlen in *. nia.
Qed.

Lemma add_chunks_run (n : nat) : forall self : t E,
  0 <= chunksize _ self ->
  add_chunks E n self
  = (set_data E (_data _ self
                 ++ repeat (repeat (uninit E) (Z.to_nat (chunksize _ self))) n) self,
     Ok tt).
Proof.
  induction n as [| n IH]; intros self Hcs.
  - destruct self. cbn. unfold ret, set_data. cbn. now rewrite app_nil_r.
  - cbn [add_chunks]. unfold bind, get, lift, modify, np_empty.
    destruct (Z.ltb_spec (chunksize _ self) 0); [lia |].
    rewrite IH by (destruct self; exact Hcs).
    destruct self. unfold set_data. cbn. now rewrite <- app_assoc.
Qed.

Lemma getitem_in_range {X} (l : list X) (i : Z) :
  0 <= i < zlen l ->
  exists x, l !! Z.to_nat i = Some x /\ getitem l i = Ok x.
Proof.
  intros Hi. destruct (lookup_lt_is_Some_2 l (Z.to_nat i)) as [x Hx];
    [unfold zlen in *; lia |].
  exists x. split; [exact Hx |].
  unfold getitem, norm_index.
  destruct (Z.ltb_spec i 0); [lia |].
  destruct (Z.leb_spec 0 i); [| lia].
  destruct (Z.ltb_spec i (zlen l)); [| lia].
  cbn. now rewrite Hx.
Qed.

Lemma setitem_in_range {X} (l : list X) (i : Z) (x : X) :
  0 <= i < zlen l -> setitem l i x = Ok (<[Z.to_nat i := x]> l).
Proof.
  intros Hi. unfold setitem, norm_index.
  destruct (Z.ltb_spec i 0); [lia |].
  destruct (Z.leb_spec 0 i); [| lia].
  destruct (Z.ltb_spec i (zlen l)); [| lia].
  reflexivity.
Qed.



(** The loop of [extend], started at a cursor under which the object
    stores [xs], consumes all the values and ends at a cursor under
    which it stores [xs] and the converted values. *)
Lemma array_extend_loop_stores (fuel : nat) :
  forall (values : list (pyval E)) (vs xs : list (elem E)) (self : t E) (ci iic : Z),
    stores E (with_cursor E ci iic self) xs ->
    np_array E values = Ok vs ->
    (length values <= fuel)%nat ->
    exists self1 ci1 iic1,
      extend_loop E fuel ci iic values self = (self1, Ok (ci1, iic1))
      /\ stores E (with_cursor E ci1 iic1 self1) (xs ++ vs).
Proof.
  induction fuel as [| fuel IH]; intros values vs xs self ci iic Hst Hvs Hfuel.
  - assert (values = []) as -> by (destruct values; [reflexivity | cbn in Hfuel; lia]).
    cbn in Hvs. injection Hvs as <-. rewrite app_nil_r.
    exists self, ci, iic. split; [reflexivity | exact Hst].
  - destruct (Z.ltb_spec 0 (zlen values)) as [Hsome | Hnone].
    2:{ assert (values = []) as ->
          by (destruct values; [reflexivity | unfold zlen in Hnone; cbn in Hnone; lia]).
        cbn in Hvs. injection Hvs as <-. rewrite app_nil_r.
        exists self, ci, iic. split; [reflexivity | exact Hst]. }
    pose proof (np_array_length _ _ _ Hvs) as Hlenvs.
    destruct Hst as (Hcs & Huni & Hci & Hiic & Hxs).
    destruct self as [cs d iic0 ci0].
    unfold __len__, with_cursor, set_indexinchunk, set_chunkindex in *.
    cbn in Hcs, Huni, Hci, Hiic, Hxs.
    destruct (getitem_in_range d ci Hci) as (chunk & Hchunk & Hget).
    assert (Hlenchunk : zlen chunk = cs).
    { unfold uniform in Huni. rewrite Forall_lookup in Huni.
      pose proof (Huni _ _ Hchunk). unfold zlen. lia. }
    (* the cursor after the chunk that is full, if it is, was left *)
    assert (Hprep : exists d1 ci1 iic1,
      (if iic >=? zlen chunk
       then bind (add_chunks E (Z.to_nat (ci + 2 - zlen d)))
                 (fun _ => ret (ci + 1, 0))
       else ret (ci, iic)) (mk E cs d iic0 ci0)
      = (mk E cs d1 iic0 ci0, Ok (ci1, iic1))
      /\ uniform (Z.to_nat cs) d1 /\ 0 <= ci1 < zlen d1 /\ 0 <= iic1 < cs
      /\ xs = take (Z.to_nat (ci1 * cs + iic1)) (concat d1)).
    { rewrite Hlenchunk. destruct (Z.geb_spec iic cs) as [Hfull | Hroom].
      - assert (iic = cs) as -> by lia.
        destruct (array_new_chunks cs d ci xs _ Hcs Huni Hci Hxs eq_refl)
          as (Huni1 & Hci1 & Hxs1).
        eexists _, (ci + 1), 0. unfold bind. rewrite add_chunks_run by (cbn; lia).
        split; [reflexivity |].
        split; [exact Huni1 |]. split; [exact Hci1 |]. split; [lia |].
        exact Hxs1.
      - exists d, ci, iic. split; [reflexivity |]. repeat split; try lia; assumption. }
    destruct Hprep as (d1 & ci1 & iic1 & Hprep & Huni1 & Hci1 & Hiic1 & Hxs1).
    set (tofill := Z.min (zlen values) (cs - iic1)).
    assert (Htofill : 1 <= tofill <= zlen values) by (unfold tofill; lia).
    set (src := take (Z.to_nat tofill) vs).
    assert (Hsrc : zlen src = tofill).
    { unfold src, zlen in *. rewrite length_take. lia. }
    destruct (getitem_in_range d1 ci1 Hci1) as (chunk1 & Hchunk1 & Hget1).
    assert (Hlenchunk1 : zlen chunk1 = cs).
    { unfold uniform in Huni1. rewrite Forall_lookup in Huni1.
      pose proof (Huni1 _ _ Hchunk1). unfold zlen. lia. }
    destruct (array_write cs d1 ci1 iic1 xs src chunk1) as (Huni' & Hlen' & Hxs');
      try assumption; try (unfold tofill in *; lia).
    rewrite Hsrc in Hxs', Huni', Hlen'.
    (* one round *)
    unfold extend_loop; fold (extend_loop E).
    destruct (Z.ltb_spec 0 (zlen values)) as [_ | ?]; [| lia].
    unfold bind at 1. unfold get at 1. unfold bind at 1. unfold lift at 1.
    cbn [_data _chunkindex _indexinchunk chunksize]. rewrite Hget.
    unfold bind at 1.
    rewrite Hprep. clear Hprep.
    unfold bind, get, lift, modify, set_data.
    cbn [_data _chunkindex _indexinchunk chunksize].
    change (Z.min (zlen values) (cs - iic1)) with tofill.
    rewrite (getslice_to values tofill) by lia. cbn [rbind].
    rewrite Hget1.
    rewrite (np_array_take _ _ _ (Z.to_nat tofill) Hvs). cbn [rbind]. fold src.
    rewrite (np_setslice_range chunk1 src iic1 (iic1 + tofill))
      by (unfold tofill in *; lia).
    rewrite setitem_in_range by exact Hci1.
    rewrite (getslice_from values tofill) by lia.
    match goal with
    | |- context [extend_loop E fuel ci1 (iic1 + tofill) _ ?s] =>
        destruct (IH (drop (Z.to_nat tofill) values) (drop (Z.to_nat tofill) vs)
                    (xs ++ src) s ci1 (iic1 + tofill))
          as (self1 & ci2 & iic2 & Hloop & Hst2)
    end.
    + unfold stores, __len__, with_cursor, set_indexinchunk, set_chunkindex.
      cbn [_data _chunkindex _indexinchunk chunksize].
      split; [exact Hcs |]. split; [exact Huni' |].
      split; [lia |]. split; [unfold tofill in *; lia |]. exact Hxs'.
    + now apply np_array_drop.
    + rewrite length_drop. unfold zlen in *. lia.
    + exists self1, ci2, iic2. split; [exact Hloop |].
      unfold src in Hst2. rewrite <- app_assoc, take_drop in Hst2. exact Hst2.
Qed.

(** [extend] with values that all convert. *)
Lemma array_extend_stores (self : t E) (xs vs : list (elem E))
  (values : list (pyval E)) :
  stores E self xs -> np_array E values = Ok vs ->
  exists self1,
    extend E values self = (self1, Ok tt) /\ stores E self1 (xs ++ vs).
Proof.
  intros Hst Hvs.
  destruct (array_extend_loop_stores (length values) values vs xs self
              (_chunkindex _ self) (_indexinchunk _ self))
    as (self1 & ci1 & iic1 & Hloop & Hst1).
  - destruct self. exact Hst.
  - exact Hvs.
  - lia.
  - exists (with_cursor E ci1 iic1 self1). split; [| exact Hst1].
    unfold extend, bind, get, modify. rewrite Hloop. reflexivity.
Qed.


(** A new array with chunks of at least one slot stores nothing. *)
Lemma array_init_stores (chunksize : Z) :
  1 <= chunksize ->
  exists self, __init__ E chunksize = Ok self /\ stores E self [].
Proof.
  intros Hcs. unfold __init__, np_empty.
  destruct (Z.ltb_spec chunksize 0); [lia |]. cbn [rbind].
  eexists. split; [reflexivity |].
  unfold stores, __len__, uniform, zlen. cbn.
  repeat split; try lia.
  repeat constructor. apply repeat_length.
Qed.

(** The length is the number of elements stored. *)
Lemma array_len_stores (self : t E) (xs : list (elem E)) :
  stores E self xs -> __len__ _ self = zlen xs.
Proof.
  intros (Hcs & Huni & Hci & Hiic & ->).
  pose proof (length_concat_uniform _ _ Huni) as Hlen.
  unfold zlen in *. rewrite length_take, Hlen.
  unfold __len__ in *. nia.
Qed.

(** An index from 0 up to the length reads the element at that place. *)
Lemma array_getitem_stores (self : t E) (xs : list (elem E)) (i : nat) (x : elem E) :
  stores E self xs -> xs !! i = Some x ->
  outcome (__getitem__ E (Int (Z.of_nat i))) self = Ok (Item x).
Proof.
  intros Hst Hx. pose proof (array_len_stores _ _ Hst) as Hlenself.
  destruct Hst as (Hcs & Huni & Hci & Hiic & Hxs).
  pose proof (lookup_lt_Some _ _ _ Hx) as Hlt.
  set (cs := chunksize _ self) in *.
  assert (Hdiv : 0 <= Z.of_nat i / cs < zlen (_data _ self)).
  { split; [apply Z.div_pos; lia |].
    apply Z.lt_le_trans with (_chunkindex _ self + 1); [| lia].
    apply Z.div_lt_upper_bound; [lia |].
    unfold __len__, zlen in *. fold cs in Hlenself. nia. }
  assert (Hmod : 0 <= Z.of_nat i mod cs < cs) by (apply Z.mod_pos_bound; lia).
  destruct (getitem_in_range _ _ Hdiv) as (chunk & Hchunk & Hget).
  assert (Hlenchunk : length chunk = Z.to_nat cs).
  { unfold uniform in Huni. rewrite Forall_lookup in Huni. exact (Huni _ _ Hchunk). }
  assert (Hslot : chunk !! Z.to_nat (Z.of_nat i mod cs) = Some x).
  { rewrite (lookup_concat_uniform _ _ Huni _ _ _ Hchunk) by lia.
    replace (Z.to_nat (Z.of_nat i / cs) * Z.to_nat cs
             + Z.to_nat (Z.of_nat i mod cs))%nat with i.
    - rewrite Hxs in Hx. rewrite lookup_take_lt in Hx; [exact Hx |].
      unfold zlen in *. lia.
    - pose proof (Z.div_mod (Z.of_nat i) cs). nia. }
  unfold outcome, __getitem__. cbn [snd]. rewrite Hlenself.
  destruct (Z.geb_spec (Z.of_nat i) 0); [| lia].
  destruct (Z.leb_spec 0 (Z.of_nat i)); [| lia].
  destruct (Z.ltb_spec (Z.of_nat i) (zlen xs)); [| unfold zlen in *; lia].
  cbn [andb negb]. unfold divmod. fold cs.
  destruct (Z.eqb_spec cs 0); [lia |]. cbn [rbind]. rewrite Hget. cbn [rbind].
  destruct (getitem_in_range chunk (Z.of_nat i mod cs)) as (x' & Hx' & ->);
    [unfold zlen; lia |].
  rewrite Hslot in Hx'. now injection Hx' as <-.
Qed.


End ArrayFacts.

(** An [append] whose value does not convert raises and leaves the
    elements as they were, on the array (which may have moved its cursor
    to a new chunk) and on the file. *)
Lemma array_append_failed (E : eltype) (self : FillableArray.t E)
  (xs : list (elem E)) (value : pyval E) (e : exn) :
  FillableArray.stores E self xs -> cast E value = Raise e ->
  exists self1,
    FillableArray.append E value self = (self1, Raise e)
    /\ FillableArray.stores E self1 xs.
Proof.
  intros (Hcs & Huni & Hci & Hiic & Hxs) Hcast.
  destruct self as [cs d iic ci]. unfold FillableArray.__len__ in Hxs.
  cbn in Hcs, Huni, Hci, Hiic, Hxs.
  destruct (getitem_in_range d ci Hci) as (chunk & Hchunk & Hget).
  assert (Hlenchunk : zlen chunk = cs).
  { unfold uniform in Huni. rewrite Forall_lookup in Huni.
    pose proof (Huni _ _ Hchunk). unfold zlen. lia. }
  unfold FillableArray.append, bind, get, lift, modify, FillableArray.set_data,
    FillableArray.set_indexinchunk, FillableArray.set_chunkindex.
  cbn [FillableArray._data FillableArray._chunkindex FillableArray._indexinchunk
       FillableArray.chunksize].
  rewrite Hget, Hlenchunk.
  destruct (Z.geb_spec iic cs) as [Hfull | Hroom].
  - assert (iic = cs) as -> by lia.
    rewrite add_chunks_run by (cbn; lia).
    unfold FillableArray.set_data.
    cbn [FillableArray._data FillableArray._chunkindex FillableArray._indexinchunk
         FillableArray.chunksize].
    destruct (array_new_chunks E cs d ci xs _ Hcs Huni Hci Hxs eq_refl)
      as (Huni1 & Hci1 & Hxs1).
    destruct (getitem_in_range _ _ Hci1) as (chunk1 & Hchunk1 & ->).
    assert (Hlenchunk1 : zlen chunk1 = cs).
    { unfold uniform in Huni1. rewrite Forall_lookup in Huni1.
      pose proof (Huni1 _ _ Hchunk1). unfold zlen. lia. }
    unfold np_setitem, norm_index. rewrite Hlenchunk1. cbn.
    destruct (Z.ltb_spec 0 cs); [| lia]. cbn. rewrite Hcast. cbn.
    eexists. split; [reflexivity |].
    unfold FillableArray.stores, FillableArray.__len__. cbn.
    split; [exact Hcs |]. split; [exact Huni1 |]. split; [exact Hci1 |].
    split; [lia | exact Hxs1].
  - unfold ret.
    cbn [FillableArray._data FillableArray._chunkindex FillableArray._indexinchunk
         FillableArray.chunksize].
    rewrite Hget. unfold np_setitem, norm_index. rewrite Hlenchunk.
    destruct (Z.ltb_spec iic 0); [lia |].
    destruct (Z.leb_spec 0 iic); [| lia].
    destruct (Z.ltb_spec iic cs); [| lia]. cbn. rewrite Hcast. cbn.
    eexists. split; [reflexivity |].
    unfold FillableArray.stores, FillableArray.__len__. cbn.
    repeat split; try lia; assumption.
Qed.

Lemma file_append_failed (E : eltype) (self : FillableFile.t E)
  (value : pyval E) (e : exn) :
  0 <= FillableFile._indexinchunk E self < zlen (FillableFile._data E self) ->
  cast E value = Raise e ->
  FillableFile.append E value self = (self, Raise e).
Proof.
  intros Hroom Hcast.
  unfold FillableFile.append, bind, get, lift, np_setitem, norm_index.
  destruct (Z.ltb_spec (FillableFile._indexinchunk E self) 0); [lia |].
  destruct (Z.leb_spec 0 (FillableFile._indexinchunk E self)); [| lia].
  destruct (Z.ltb_spec (FillableFile._indexinchunk E self)
              (zlen (FillableFile._data E self))); [| lia].
  cbn. rewrite Hcast. reflexivity.
Qed.


(** A count of at least [10 ^ w] takes more than [w] columns. *)
Lemma to_lu_digits_lower (w : nat) : forall n : N,
  (10 ^ N.of_nat w <= n)%N ->
  (S w <= Decimal.nb_digits (DecimalPos.Unsigned.to_lu n))%nat.
Proof.
  induction w as [| w IH]; intros n Hn.
  - destruct n as [| p]; [cbn in Hn; lia |].
    cbn [DecimalPos.Unsigned.to_lu].
    destruct (Pos.to_little_uint p) eqn:Hp; cbn; try lia.
    exfalso. apply (DecimalPos.Unsigned.to_uint_nonnil p).
    unfold Pos.to_uint. now rewrite Hp.
  - replace (N.of_nat (S w)) with (N.succ (N.of_nat w)) in Hn by lia.
    rewrite N.pow_succ_r' in Hn.
    rewrite (N.div_mod n 10) by discriminate.
    assert (Hq : (10 ^ N.of_nat w <= n / 10)%N)
      by (apply N.div_le_lower_bound; [discriminate | lia]).
    destruct (n / 10)%N as [| p] eqn:Hdiv.
    + pose proof (N.pow_nonzero 10 (N.of_nat w)). lia.
    + rewrite to_lu_digit by now apply N.mod_lt.
      apply le_n_S. now apply IH.
Qed.

(** The placeholder [10 ** w - 1] of the header takes [w] columns or
    more. *)
Lemma repr_int_placeholder (w : nat) :
  (w <= String.length (repr_int (10 ^ Z.of_nat w - 1)))%nat.
Proof.
  destruct w as [| w]; [lia |].
  assert (Hpos : 0 < 10 ^ Z.of_nat (S w) - 1).
  { pose proof (Z.pow_le_mono_r 10 1 (Z.of_nat (S w))). lia. }
  destruct (10 ^ Z.of_nat (S w) - 1) as [| p | p] eqn:Hp; try lia.
  unfold repr_int. cbn [Z.to_int NilZero.string_of_int].
  unfold NilZero.string_of_uint.
  assert (Hdigits : (S w <= Decimal.nb_digits (Pos.to_uint p))%nat).
  { unfold Pos.to_uint. rewrite DecimalFacts.nb_digits_rev.
    change (Pos.to_little_uint p) with (DecimalPos.Unsigned.to_lu (N.pos p)).
    apply to_lu_digits_lower.
    apply N2Z.inj_le. rewrite N2Z.inj_pow, nat_N_Z.
    change (Z.of_N (N.pos p)) with (Z.pos p). rewrite <- Hp.
    replace (Z.of_nat (S w)) with (Z.succ (Z.of_nat w)) by lia.
    rewrite Z.pow_succ_r by lia.
    pose proof (Z.pow_pos_nonneg 10 (Z.of_nat w)). lia. }
  destruct (Pos.to_uint p) eqn:Hd; try (rewrite <- Hd, length_string_of_uint, Hd; exact Hdigits).
  cbn in Hdigits. lia.
Qed.

(* ===================================================================== *)
(** * Every object a program holds is well formed                         *)
(* ===================================================================== *)

(** ** Calls that returned, taken apart *)

Lemma bind_returned {S X Y} (c : method S X) (k : X -> method S Y)
  (s s2 : S) (y : Y) :
  bind c k s = (s2, Ok y) ->
  exists s1 x, c s = (s1, Ok x) /\ k x s1 = (s2, Ok y).
Proof.
  unfold bind. destruct (c s) as [s1 [x | e |]]; intros H; try discriminate.
  now exists s1, x.
Qed.

Lemma lift_returned {S X} (r : result X) (s s1 : S) (x : X) :
  lift r s = (s1, Ok x) -> r = Ok x /\ s1 = s.
Proof. unfold lift. now intros [= -> ->]. Qed.

Lemma on_file_returned (E : eltype) (op : pyfile -> result pyfile)
  (s s1 : FillableFile.t E) (u : unit) :
  FillableFile.on_file E op s = (s1, Ok u) ->
  exists f, op (FillableFile._file E s) = Ok f /\ s1 = FillableFile.set_file E f s.
Proof.
  unfold FillableFile.on_file.
  destruct (op (FillableFile._file E s)) as [f | e |]; intros [= <-]; eauto.
Qed.

Lemma fseek_returned (p : Z) (f f1 : pyfile) :
  fseek p f = Ok f1 ->
  contents f1 = contents f /\ closed f1 = closed f /\ closed f = false.
Proof.
  unfold fseek. destruct (closed f) eqn:Hc; [discriminate |].
  destruct (p <? 0); [discriminate |]. now intros [= <-].
Qed.

Lemma fwrite_returned (bs : list byte) (f f1 : pyfile) :
  fwrite bs f = Ok f1 ->
  zlen (contents f) <= zlen (contents f1) /\ closed f1 = closed f
  /\ closed f = false.
Proof.
  unfold fwrite. destruct (closed f) eqn:Hc; [discriminate |].
  intros [= <-]. cbn. repeat split.
  pose proof (length_overwrite (contents f) bs (Z.to_nat (pos f))).
  unfold zlen. lia.
Qed.

(** A write at the end of the file appends and leaves the handle at the
    end. *)
Lemma fwrite_at_end (bs : list byte) (f : pyfile) :
  closed f = false -> pos f = zlen (contents f) ->
  exists f1,
    fwrite bs f = Ok f1 /\ contents f1 = contents f ++ bs
    /\ pos f1 = zlen (contents f1) /\ closed f1 = false.
Proof.
  intros Hopen Hpos. unfold fwrite. rewrite Hopen.
  eexists. split; [reflexivity |]. cbn.
  rewrite overwrite_at_end by (unfold zlen in Hpos; lia).
  rewrite zlen_app. repeat split. lia.
Qed.

Lemma length_write_at {X} (src : list X) : forall (arr : list X) (ps : list nat),
  length (write_at arr ps src) = length arr.
Proof.
  induction src as [| x src IH]; intros arr ps; destruct ps as [| p ps];
    cbn; try reflexivity.
  now rewrite IH, length_insert.
Qed.

Lemma np_setslice_length {X} (arr src arr1 : list X) (s : slice) :
  np_setslice arr s src = Ok arr1 -> zlen arr1 = zlen arr.
Proof.
  unfold np_setslice.
  destruct (slice_positions s (zlen arr)) as [ps | |]; cbn; try discriminate.
  destruct (broadcast src (length ps)) as [src' | |]; cbn; try discriminate.
  intros [= <-]. unfold zlen. now rewrite length_write_at.
Qed.

(** ** The constructor *)

Lemma header2_length (x : Z) (dims : list Z) :
  (String.length (repr_int x)
   <= length (drop 1 (encode_ascii (repr_tuple (x :: dims) ++ ", }"))))%nat.
Proof.
  rewrite length_drop, length_encode_ascii, length_string_app.
  destruct dims as [| y dims]; cbn [repr_tuple].
  - change (String.length ("(" ++ repr_int x ++ ",)"))
      with (S (String.length (repr_int x ++ ",)"))).
    rewrite length_string_app. lia.
  - match goal with
    | |- context [String.length ("(" ++ repr_int x ++ ?rest)%string] =>
        change (String.length ("(" ++ repr_int x ++ rest))
          with (S (String.length (repr_int x ++ rest)))
    end.
    rewrite length_string_app. lia.
Qed.

Lemma length_format_width_ge (w : nat) (n : Z) :
  (w <= String.length (format_width w n))%nat.
Proof.
  unfold format_width. rewrite length_string_app, length_spaces. lia.
Qed.

Lemma pack_H_length (n : Z) (bs : list byte) : pack_H n = Ok bs -> zlen bs = 2.
Proof.
  unfold pack_H. destruct ((0 <=? n) && (n <? 65536)); [| discriminate].
  now intros [= <-].
Qed.

Lemma init_wellformed (E : eltype) (descr : string) (c : cls) (flushsize : Z)
  (lendigits : nat) (self : FillableFile.t E) :
  FillableFile.__init__ E descr c flushsize lendigits = Ok self ->
  FillableFile.wellformed E self.
Proof.
  unfold FillableFile.__init__, np_empty.
  destruct (Z.ltb_spec flushsize 0); [discriminate |]. cbn [rbind].
  destruct c.
  - (* a plain file *)
    cbn. intros [= <-]. unfold FillableFile.wellformed, zlen. cbn.
    rewrite repeat_length. lia.
  - (* a file with a header *)
    unfold FillableFile._openfile_numpy.
    set (header1 := encode_ascii _).
    set (header2 := drop 1 _).
    set (unpaddedlen := zlen magic + 2 + zlen header1 + zlen header2).
    destruct (itemsize E =? 0); [discriminate |].
    set (header2' := header2 ++ repeat x20 _).
    destruct (negb _); [discriminate |].
    destruct (fwrite_at_end magic fopen_truncated eq_refl eq_refl)
      as (f1 & -> & Hc1 & Hp1 & Ho1). cbn [rbind].
    destruct (pack_H (zlen header1 + zlen header2')) as [packed | |] eqn:Hpack;
      cbn [rbind]; try discriminate.
    destruct (fwrite_at_end packed f1 Ho1 Hp1) as (f2 & -> & Hc2 & Hp2 & Ho2).
    cbn [rbind].
    destruct (fwrite_at_end header1 f2 Ho2 Hp2) as (f3 & -> & Hc3 & Hp3 & Ho3).
    cbn [rbind].
    destruct (fwrite_at_end (encode_ascii (format_width lendigits 0)) f3 Ho3 Hp3)
      as (f4 & -> & Hc4 & Hp4 & Ho4). cbn [rbind].
    destruct (fwrite_at_end (drop lendigits header2') f4 Ho4 Hp4)
      as (f5 & -> & Hc5 & Hp5 & Ho5). cbn [rbind].
    intros [= <-]. unfold FillableFile.wellformed. cbn.
    rewrite Hc5, Hc4, Hc3, Hc2, Hc1. cbn [contents fopen_truncated app].
    rewrite !zlen_app, (pack_H_length _ _ Hpack).
    assert (Hw : Z.of_nat lendigits <= zlen header2').
    { unfold header2', header2. rewrite zlen_app.
      pose proof (header2_length (10 ^ Z.of_nat lendigits - 1) (dims E)).
      pose proof (repr_int_placeholder lendigits).
      pose proof (zlen_nonneg (repeat x20 (Z.to_nat
        (- (- unpaddedlen `div` itemsize E) * itemsize E - unpaddedlen)))).
      unfold zlen in *. lia. }
    pose proof (length_format_width_ge lendigits 0) as Hcount.
    rewrite <- length_encode_ascii in Hcount.
    pose proof (zlen_nonneg header1).
    unfold zlen in *. rewrite length_drop, repeat_length. cbn [length magic].
    lia.
Qed.

(** ** The calls *)

Section Wellformed.
Context (E : eltype).
Import FillableFile.
#[local] Arguments getslice : simpl never.
#[local] Arguments np_setslice : simpl never.
#[local] Arguments overwrite : simpl never.
#[local] Arguments format_width : simpl never.
#[local] Arguments tostring : simpl never.

(** What a flush that returned has changed. *)
Lemma flush_returned (self self1 : t E) :
  flush E self = (self1, Ok tt) ->
  exists file1,
    self1 = mk E (class _ self) (_data _ self) (_index _ self) 0 (_index _ self)
              file1 (_datapos _ self) (_lenpos _ self) (_formatter _ self)
    /\ closed file1 = false
    /\ zlen (contents (_file _ self)) <= zlen (contents file1).
Proof.
  destruct (getslice_to_returns (_data _ self) (_indexinchunk _ self)) as [staged Hst].
  unfold flush, flush_plain, flush_numpy, bind, get, lift, modify, on_file,
    set_file, set_indexinchunk, set_indexflushed.
  destruct self as [c d i ic ifl f dp lp w]. cbn in Hst |- *.
  destruct c; rewrite ?Hst; cbn.
  - destruct (fwrite (tostring E staged) f) as [f1 | |] eqn:Hw; try discriminate.
    intros [= <-]. apply fwrite_returned in Hw as (Hlen & Hc & Hopen).
    exists f1. repeat split; [congruence | exact Hlen].
  - destruct (fseek (dp + ifl * itemsize E) f) as [f1 | |] eqn:Hs1; try discriminate.
    cbn. rewrite ?Hst. cbn.
    destruct (fwrite (tostring E staged) f1) as [f2 | |] eqn:Hw1; try discriminate.
    cbn.
    destruct (fseek lp f2) as [f3 | |] eqn:Hs2; try discriminate. cbn.
    destruct (fwrite (encode_ascii (format_width w i)) f3) as [f4 | |] eqn:Hw2;
      try discriminate.
    intros [= <-].
    apply fseek_returned in Hs1 as (Hc1 & Ho1 & Hopen).
    apply fwrite_returned in Hw1 as (Hl2 & Ho2 & _).
    apply fseek_returned in Hs2 as (Hc3 & Ho3 & _).
    apply fwrite_returned in Hw2 as (Hl4 & Ho4 & _).
    exists f4. repeat split; [congruence |]. cbn.
    rewrite <- Hc1. rewrite Hc3 in Hl4. lia.
Qed.

Lemma flush_wellformed (self self1 : t E) :
  flush E self = (self1, Ok tt) -> wellformed E self -> wellformed E self1.
Proof.
  intros Hflush (Hlp & Hfield & Hdp & Hcount & Hstaged).
  apply flush_returned in Hflush as (file1 & -> & _ & Hlen).
  unfold wellformed. cbn. repeat split; lia.
Qed.

Lemma append_wellformed (value : pyval E) (self self1 : t E) :
  append E value self = (self1, Ok tt) -> wellformed E self -> wellformed E self1.
Proof.
  intros Happ (Hlp & Hfield & Hdp & Hcount & Hstaged).
  unfold append, bind, get, lift, modify, np_setitem, norm_index,
    set_data, set_index, set_indexinchunk in Happ.
  destruct self as [c d i ic ifl f dp lp w]. cbn in *.
  destruct (Z.ltb_spec ic 0); [lia |].
  destruct ((0 <=? ic) && (ic <? zlen d)) eqn:Hin; cbn in Happ; [| discriminate].
  apply andb_true_iff in Hin as [_ Hlt%Z.ltb_lt].
  destruct (cast E value) as [x | |]; cbn in Happ; try discriminate.
  assert (Hlen : zlen (<[Z.to_nat ic := x]> d) = zlen d)
    by (unfold zlen; now rewrite length_insert).
  rewrite Hlen in Happ.
  destruct (ic + 1 >=? zlen d).
  - apply flush_wellformed in Happ; [exact Happ |].
    unfold wellformed. cbn. rewrite Hlen. repeat split; lia.
  - unfold ret in Happ. injection Happ as <-.
    unfold wellformed. cbn. rewrite Hlen. repeat split; lia.
Qed.

(** The loop of [extend], when it returned: the object but for the
    staging chunk and the file, which has not shrunk, is as it was, and
    the counters it returns are in order if those it started with
    were. *)
Lemma extend_loop_returned (fuel : nat) :
  forall (values : list (pyval E)) (self self1 : t E) (i c f i1 c1 f1 : Z),
    extend_loop E fuel i c f values self = (self1, Ok (i1, c1, f1)) ->
    0 <= f <= i -> 0 <= c <= zlen (_data _ self) ->
    exists data1 file1,
      self1 = mk E (class _ self) data1 (_index _ self)
                (_indexinchunk _ self) (_indexflushed _ self) file1
                (_datapos _ self) (_lenpos _ self) (_formatter _ self)
      /\ zlen data1 = zlen (_data _ self)
      /\ zlen (contents (_file _ self)) <= zlen (contents file1)
      /\ 0 <= f1 <= i1 /\ 0 <= c1 <= zlen data1.
Proof.
  induction fuel as [| fuel IH]; intros values self self1 i c f i1 c1 f1 Hloop Hf Hc.
  - cbn in Hloop. destruct (0 <? zlen values); [discriminate |].
    unfold ret in Hloop. injection Hloop as <- <- <- <-.
    destruct self as [cl d i0 ic0 f0 fl dp lp w]. exists d, fl. cbn in *.
    repeat split; lia.
  - unfold extend_loop in Hloop; fold (extend_loop E) in Hloop.
    destruct (Z.ltb_spec 0 (zlen values)) as [Hsome | Hnone].
    2:{ unfold ret in Hloop. injection Hloop as <- <- <- <-.
        destruct self as [cl d i0 ic0 f0 fl dp lp w]. exists d, fl. cbn in *.
        repeat split; lia. }
    apply bind_returned in Hloop as (s1 & self0 & Hget & Hloop).
    unfold get in Hget. injection Hget as <- <-.
    set (tofill := Z.min (zlen values) (zlen (_data _ self) - c)) in *.
    assert (Htofill : 0 <= tofill) by (unfold tofill; lia).
    apply bind_returned in Hloop as (s2 & head & Hhead & Hloop).
    apply lift_returned in Hhead as (_ & ->).
    apply bind_returned in Hloop as (s3 & src & Hsrc & Hloop).
    apply lift_returned in Hsrc as (_ & ->).
    apply bind_returned in Hloop as (s4 & data' & Hset & Hloop).
    apply lift_returned in Hset as (Hset & ->).
    apply np_setslice_length in Hset.
    apply bind_returned in Hloop as (s5 & [] & Hmod & Hloop).
    unfold modify in Hmod. injection Hmod as <-.
    apply bind_returned in Hloop as (s6 & values' & Hvalues' & Hloop).
    apply lift_returned in Hvalues' as (_ & ->).
    destruct (0 <? zlen values').
    + apply bind_returned in Hloop as (s7 & self7 & Hget & Hloop).
      unfold get in Hget. injection Hget as <- <-.
      apply bind_returned in Hloop as (s8 & [] & Hseek & Hloop).
      apply on_file_returned in Hseek as (f8 & Hseek & ->).
      apply fseek_returned in Hseek as (Hc8 & Ho8 & _).
      apply bind_returned in Hloop as (s9 & staged & Hstaged & Hloop).
      apply lift_returned in Hstaged as (_ & ->).
      apply bind_returned in Hloop as (s10 & [] & Hwrite & Hloop).
      apply on_file_returned in Hwrite as (f10 & Hwrite & ->).
      apply fwrite_returned in Hwrite as (Hl10 & Ho10 & _).
      cbn [set_file _file] in Hl10. rewrite Hc8 in Hl10.
      apply IH in Hloop as (data1 & file1 & Hself1 & Hd1 & Hc1 & Hf1 & Hc1');
        [| lia | destruct self; cbn in *; lia].
      destruct self as [cl d i0 ic0 f0 fl dp lp w].
      unfold set_file, set_data in *. cbn in *.
      exists data1, file1. repeat split; try assumption; lia.
    + apply IH in Hloop as (data1 & file1 & Hself1 & Hd1 & Hc1 & Hf1 & Hc1');
        [| lia | destruct self; cbn in *; unfold tofill in *; lia].
      destruct self as [cl d i0 ic0 f0 fl dp lp w].
      unfold set_file, set_data in *. cbn in *.
      exists data1, file1. repeat split; try assumption; lia.
Qed.

Lemma extend_wellformed (values : list (pyval E)) (self self1 : t E) :
  extend E values self = (self1, Ok tt) -> wellformed E self -> wellformed E self1.
Proof.
  intros Hext (Hlp & Hfield & Hdp & Hcount & Hstaged).
  unfold extend in Hext.
  apply bind_returned in Hext as (s1 & self0 & Hget & Hext).
  unfold get in Hget. injection Hget as <- <-.
  apply bind_returned in Hext as (s2 & [[i1 c1] f1] & Hloop & Hext).
  apply extend_loop_returned in Hloop
    as (data1 & file1 & -> & Hd2 & Hc2 & Hf1 & Hc1); [| lia | lia].
  unfold bind, modify, set_index, set_indexinchunk, set_indexflushed in Hext.
  injection Hext as <-. unfold wellformed. cbn.
  repeat split; lia.
Qed.

Lemma getitem_wellformed (value : pyindex) (r : got (elem E) (elem E))
  (self self1 : t E) :
  __getitem__ E value self = (self1, Ok r) -> wellformed E self ->
  wellformed E self1.
Proof.
  intros Hget Hwf. unfold __getitem__ in Hget.
  apply bind_returned in Hget as (s1 & self0 & Hg & Hget).
  unfold get in Hg. injection Hg as <- <-.
  apply bind_returned in Hget as (s2 & [] & Hflush & Hget).
  assert (Hwf2 : wellformed E s2).
  { destruct (negb (closed (_file _ self))).
    - now apply (flush_wellformed self).
    - unfold ret in Hflush. now injection Hflush as <-. }
  apply bind_returned in Hget as (s3 & self3 & Hg & Hget).
  unfold get in Hg. injection Hg as <- <-.
  destruct value as [i | s]; [discriminate |].
  apply bind_returned in Hget as (s4 & array & Harray & Hget).
  apply lift_returned in Harray as (_ & ->).
  destruct (is_none (start s) && is_none (stop s) && is_none (step s)).
  - unfold ret in Hget. now injection Hget as <- _.
  - apply bind_returned in Hget as (s5 & picked & Hpicked & Hget).
    apply lift_returned in Hpicked as (_ & ->).
    unfold ret in Hget. now injection Hget as <- _.
Qed.

Lemma close_wellformed (self self1 : t E) :
  close E self = (self1, Ok tt) -> wellformed E self -> wellformed E self1.
Proof.
  intros Hclose Hwf. unfold close in Hclose.
  apply bind_returned in Hclose as (s1 & [] & Hflush & Hclose).
  apply flush_wellformed in Hflush; [| exact Hwf].
  unfold modify in Hclose. injection Hclose as <-.
  destruct s1. exact Hflush.
Qed.

(** Every object a program holds is well formed. *)
Lemma reachable_wellformed (descr : string) (self : t E) :
  reachable E descr self -> wellformed E self.
Proof.
  induction 1 as [c flushsize lendigits self Hinit
                 | value self self' _ IH Hcall
                 | values self self' _ IH Hcall
                 | self self' _ IH Hcall
                 | value r self self' _ IH Hcall
                 | self self' _ IH Hcall].
  - exact (init_wellformed E descr c flushsize lendigits self Hinit).
  - exact (append_wellformed value self self' Hcall IH).
  - exact (extend_wellformed values self self' Hcall IH).
  - exact (flush_wellformed self self' Hcall IH).
  - exact (getitem_wellformed value r self self' Hcall IH).
  - exact (close_wellformed self self' Hcall IH).
Qed.

End Wellformed.

(* ===================================================================== *)
(** * The count field after a flush                                       *)
(* ===================================================================== *)

(** A flush of a [FillableNumpyFile] whose header is in place and whose
    count fits the field. *)
Lemma flush_count_in_layout (E : eltype) (self : FillableFile.t E) :
  let w := FillableFile._formatter E self in
  let lenpos := FillableFile._lenpos E self in
  let datapos := FillableFile._datapos E self in
  let dataend := datapos + FillableFile._indexflushed E self * itemsize E in
  let c := contents (FillableFile._file E self) in
  let infield (i : nat) := (Z.to_nat lenpos <= i < Z.to_nat lenpos + w)%nat in
  FillableFile.class E self = FillableNumpyFile_ ->
  closed (FillableFile._file E self) = false ->
  0 <= itemsize E ->
  0 <= FillableFile._indexflushed E self ->
  0 <= lenpos ->
  lenpos + Z.of_nat w <= datapos ->
  datapos <= zlen c ->
  (1 <= w)%nat ->
  0 <= FillableFile._index E self < 10 ^ Z.of_nat w ->
  let self' := state_after (FillableFile.flush E) self in
  let c' := contents (FillableFile._file E self') in
  outcome (FillableFile.flush E) self = Ok tt
  /\ FillableFile.__len__ E self' = FillableFile.__len__ E self
  /\ header_count c' (FillableFile._lenpos E self') (FillableFile._formatter E self')
     = Some (FillableFile.__len__ E self')
  /\ (forall i : nat,
        (i < Z.to_nat dataend)%nat -> (i < length c)%nat -> ~ infield i ->
        c' !! i = c !! i)
  /\ (exists staged,
        getslice (FillableFile._data E self)
          (sl_to (FillableFile._indexinchunk E self)) = Ok staged
        /\ forall i : nat,
            ~ infield i ->
            c' !! i = overwrite c (Z.to_nat dataend) (tostring E staged) !! i).
Proof.
  intros w lenpos datapos dataend c infield
    Hclass Hopen Hitem Hflushed Hlenpos Hfield Hdatapos Hw Hindex self' c'.
  assert (Hmul : 0 <= FillableFile._indexflushed E self * itemsize E)
    by (apply Z.mul_nonneg_nonneg; assumption).
  assert (Hend : 0 <= dataend) by (unfold dataend; lia).
  destruct (flush_numpy_run E self Hopen Hend Hlenpos) as (staged & Hstaged & Hrun).
  assert (Hflush : FillableFile.flush E self = FillableFile.flush_numpy E self)
    by (unfold FillableFile.flush; now rewrite Hclass).
  subst self' c'. unfold state_after, outcome. rewrite Hflush, Hrun.
  cbn [fst snd FillableFile._file FillableFile._lenpos FillableFile._formatter
       FillableFile.__len__ FillableFile._index contents].
  fold w lenpos datapos dataend c.
  set (count := encode_ascii (format_width w (FillableFile._index E self))).
  set (c1 := overwrite c (Z.to_nat dataend) (tostring E staged)).
  assert (Hcount : length count = w).
  { unfold count. rewrite length_encode_ascii. apply length_format_width.
    now apply repr_int_fits. }
  assert (Hc1 : (length c <= length c1)%nat) by apply length_overwrite.
  assert (Hlen : (Z.to_nat lenpos <= length c1)%nat)
    by (unfold zlen in Hdatapos; lia).
  split; [reflexivity |]. split; [reflexivity |]. split; [| split].
  - apply header_count_of_format. rewrite <- Hcount at 1.
    apply overwrite_field.
  - intros i Hi Hic Hout.
    rewrite overwrite_lookup_outside; [| exact Hlen | rewrite Hcount; exact Hout].
    unfold c1. now apply overwrite_lookup_before.
  - exists staged. split; [exact Hstaged |].
    intros i Hout.
    apply overwrite_lookup_outside; [exact Hlen | rewrite Hcount; exact Hout].
Qed.


(** A call of [flush] on a [FillableNumpyFile] made by the constructor
    and changed by calls that returned, with an open handle, a dtype
    whose [itemsize] is not negative, [lendigits >= 1] and fewer than
    [10 ^ lendigits] elements: [flush] returns, and afterwards the count
    read back from the header is [len(self)], which [flush] did not
    change; every byte that was in the file below the offset of the
    write of the staged elements, the header and the data flushed
    before, is as it was, but for the count field; and the rewrite of
    the count changed no byte outside the field. *)
Theorem numpy_flush_count (E : eltype) (descr : string) (self : FillableFile.t E) :
  let w := FillableFile._formatter E self in
  let lenpos := FillableFile._lenpos E self in
  let datapos := FillableFile._datapos E self in
  let dataend := datapos + FillableFile._indexflushed E self * itemsize E in
  let c := contents (FillableFile._file E self) in
  let infield (i : nat) := (Z.to_nat lenpos <= i < Z.to_nat lenpos + w)%nat in
  FillableFile.reachable E descr self ->
  FillableFile.class E self = FillableNumpyFile_ ->
  closed (FillableFile._file E self) = false ->
  0 <= itemsize E ->
  (1 <= w)%nat ->
  FillableFile._index E self < 10 ^ Z.of_nat w ->
  let self' := state_after (FillableFile.flush E) self in
  let c' := contents (FillableFile._file E self') in
  outcome (FillableFile.flush E) self = Ok tt
  /\ FillableFile.__len__ E self' = FillableFile.__len__ E self
  /\ header_count c' (FillableFile._lenpos E self') (FillableFile._formatter E self')
     = Some (FillableFile.__len__ E self')
  /\ (forall i : nat,
        (i < Z.to_nat dataend)%nat -> (i < length c)%nat -> ~ infield i ->
        c' !! i = c !! i)
  /\ (exists staged,
        getslice (FillableFile._data E self)
          (sl_to (FillableFile._indexinchunk E self)) = Ok staged
        /\ forall i : nat,
            ~ infield i ->
            c' !! i = overwrite c (Z.to_nat dataend) (tostring E staged) !! i).
Proof.
  intros w lenpos datapos dataend c infield Hreach Hclass Hopen Hitem Hw Hindex.
  destruct (reachable_wellformed E descr self Hreach)
    as (Hlenpos & Hfield & Hdatapos & Hcount & _).
  subst w lenpos datapos c.
  apply flush_count_in_layout; try assumption; lia.
Qed.

(** A [FillableNumpyFile] after one [extend] on a new object is an
    object a program holds. *)
Lemma numpyfile_reachable (junk : Z) (w : nat) (values : list Z)
    (self : FillableFile.t (int32 junk)) :
  numpyfile junk w values = Ok self ->
  FillableFile.reachable (int32 junk) "int32" self.
Proof.
  unfold numpyfile, call, rbind.
  destruct (FillableFile.__init__ (int32 junk) "int32" FillableNumpyFile_ 4 w)
    as [new | e |] eqn:Hinit; try discriminate.
  destruct (FillableFile.extend (int32 junk) (ints values) new)
    as [self' [[] | e |]] eqn:Hextend; try discriminate.
  intros [= <-].
  eapply FillableFile.reach_extend; [| exact Hextend].
  eapply FillableFile.reach_init. exact Hinit.
Qed.

(** An example: [numpyfile6], with four elements in the file and two
    staged. *)
Lemma numpyfile6_reachable : FillableFile.reachable (int32 0) "int32" numpyfile6.
Proof.
  assert (Hreturns : rmap (fun _ => tt) (numpyfile 0 16 [1; 2; 3; 4; 5; 6]) = Ok tt)
    by (vm_compute; reflexivity).
  unfold numpyfile6.
  destruct (numpyfile 0 16 [1; 2; 3; 4; 5; 6]) as [self | e |] eqn:Hself;
    try discriminate Hreturns.
  now apply numpyfile_reachable in Hself.
Qed.

(** On that object the flush returns and the header then counts six. *)
Lemma numpy_flush_count_witness :
  outcome (FillableFile.flush (int32 0)) numpyfile6 = Ok tt
  /\ header_count
       (contents (FillableFile._file _ (state_after (FillableFile.flush (int32 0)) numpyfile6)))
       63 16
     = Some 6.
Proof.
  destruct (numpy_flush_count (int32 0) "int32" numpyfile6) as (Hok & _ & Hcount & _).
  - exact numpyfile6_reachable.
  - reflexivity.
  - reflexivity.
  - vm_compute. discriminate.
  - vm_compute. lia.
  - vm_compute. reflexivity.
  - split; [exact Hok | exact Hcount].
Defined.

(** With [lendigits = 1] and ten elements the count does not fit its
    column.  Before the flush the byte after the field, at offset 64 of
    the header, is the comma of the shape tuple; the flush writes the two
    digits of 10 at offset 63, so that byte becomes the digit 0 and the
    one-column field reads 1 while the length is 10. *)
Lemma one_digit_count_overflows :
  rmap (fun f => (FillableFile._lenpos _ f, FillableFile._formatter _ f,
                  FillableFile._datapos _ f, contents (FillableFile._file _ f) !! 64%nat))
       numpyfile10
    = Ok (63, 1%nat, 72, Some x2c)
  /\ rmap (fun f => (FillableFile.__len__ _ f,
                     contents (FillableFile._file _ f) !! 64%nat,
                     header_count (contents (FillableFile._file _ f))
                       (FillableFile._lenpos _ f) (FillableFile._formatter _ f)))
          (call numpyfile10 (FillableFile.flush (int32 0)))
    = Ok (10, Some x30, Some 1).
Proof.
  split; vm_compute; reflexivity.
Qed.

(* ===================================================================== *)
(** * The count field and the writes of [extend]                          *)
(* ===================================================================== *)

(** C7.  On a [FillableNumpyFile] of dtype int32 with [flushsize = 4]
    and [lendigits = 16], [extend([1, 2, 3, 4, 5, 6])] flushes the first
    four elements to the data region and leaves the count field as the
    constructor wrote it: the length is 6, four elements are flushed,
    the header counts 0.  [extend([7, 8, 9])] flushes four more at a
    time when the length is 6: the length is then 9, eight elements are
    in the data region, and the header still counts 0.  [extend] writes
    the filled buffer itself and never rewrites the count; only
    [flush] does, and after a call of it the header counts 9. *)
Theorem numpy_extend_leaves_count : forall junk : Z,
  rmap file_report (numpyfile junk 16 [1; 2; 3; 4; 5; 6])
  = Ok (6, 4, Some 0, tostring (int32 junk) [1; 2; 3; 4])
  /\ rmap file_report (numpyfile9 junk)
     = Ok (9, 8, Some 0, tostring (int32 junk) [1; 2; 3; 4; 5; 6; 7; 8])
  /\ rmap file_report (call (numpyfile9 junk) (FillableFile.flush (int32 junk)))
     = Ok (9, 9, Some 9, tostring (int32 junk) [1; 2; 3; 4; 5; 6; 7; 8; 9]).
Proof.
  intros junk. repeat split; vm_compute; reflexivity.
Qed.

(* ===================================================================== *)
(** * A slice with a zero step on a file of rows                          *)
(* ===================================================================== *)

(** C10.  On a [FillableNumpyFile] of dtype int32 with [dims = (2,)] and
    [flushsize = 4] that holds five rows, four in the file and the
    fifth staged, [self[::0]] raises [ValueError] and the length stays
    5, but the content does not stay: the flush that starts the read
    seeks to [_datapos + 4 * dtype.itemsize], sixteen bytes into the
    thirty-two of the four rows, and writes the staged row [[9, 10]]
    over the row [[5, 6]]. *)
Theorem zero_step_overwrites_row : forall junk : Z,
  zero_step_script junk
  = Ok ((5, 4, Some 4, tostring (int32x2 junk) [(1, 2); (3, 4); (5, 6); (7, 8)]),
        [(9, 10)],
        Raise ValueError,
        (5, 5, Some 5, tostring (int32x2 junk) [(1, 2); (3, 4); (9, 10); (7, 8)]),
        []).
Proof.
  intros junk. vm_compute. reflexivity.
Qed.

(* ===================================================================== *)
(** * Reading a plain file by slices, and closing it                      *)
(* ===================================================================== *)

(** [l[:]] *)
Lemma getslice_all {X} (l : list X) : getslice l sl_all = Ok l.
Proof.
  pose proof (zlen_nonneg l) as Hl.
  unfold getslice, slice_positions, slice_indices, sl_all, slice_length. cbn.
  f_equal. rewrite positions_from by lia. cbn [Z.to_nat].
  destruct (Z.ltb_spec 0 (zlen l)).
  - rewrite Z.div_1_r. rewrite omap_lookup_seq by (unfold zlen in *; lia).
    rewrite drop_0. apply take_ge. unfold zlen in *. lia.
  - destruct l; [reflexivity | unfold zlen in *; cbn in *; lia].
Qed.

(** A slice with its three components omitted is [sl_all]. *)
Lemma is_none_sl_all (s : slice) :
  FillableFile.is_none (start s) && FillableFile.is_none (stop s)
  && FillableFile.is_none (step s) = true ->
  s = sl_all.
Proof.
  destruct s as [[a |] [b |] [c |]]; cbn; try discriminate. reflexivity.
Qed.

Section PlainFileReads.
Context (E : eltype) (Hlayout : scalar_layout E).
Import FillableFile.
#[local] Arguments getslice : simpl never.
#[local] Arguments flush : simpl never.
#[local] Arguments tostring : simpl never.
#[local] Arguments Z.mul : simpl never.
#[local] Arguments Z.add : simpl never.

(** What [numpy.memmap] finds in a file that holds the bytes of [xs]
    from offset 0 on: nothing to map when [xs] is empty, [xs]
    otherwise. *)
Lemma memmap_tostring (f : pyfile) (xs : list (elem E)) :
  contents f = tostring E xs -> Forall (readable E) xs ->
  memmap E f 0 (zlen xs)
  = match xs with [] => Raise ValueError | _ => Ok xs end.
Proof.
  destruct Hlayout as (Hscalar & Hsize & Hbytes).
  intros Hall Hread. unfold memmap. rewrite Hall.
  rewrite zlen_tostring by exact Hbytes.
  pose proof (zlen_nonneg xs) as Hnn.
  destruct (Z.ltb_spec (zlen xs) 0); [lia |].
  destruct xs as [| x xs'] eqn:Hxs.
  - reflexivity.
  - rewrite <- Hxs in *.
    assert (Hpos : 0 < zlen xs) by (subst xs; unfold zlen; cbn; lia).
    destruct (Z.eqb_spec (zlen xs * elsize E) 0); [nia |].
    destruct (Z.ltb_spec (zlen xs * elsize E) (0 + zlen xs * elsize E)); [lia |].
    replace (Z.to_nat (zlen xs)) with (length xs) by (unfold zlen; lia).
    change (Z.to_nat 0) with 0%nat. rewrite drop_0.
    rewrite <- (app_nil_r (tostring E xs)).
    rewrite decode_tostring by assumption. reflexivity.
Qed.

(** Every slice of a plain file reads what the same slice of the
    stored elements is, a zero step and its [ValueError] included; when
    nothing is stored there is no byte to map and every slice raises
    [ValueError]. *)
Theorem plain_file_slice (self : t E) (xs : list (elem E)) (s : slice) :
  stores E self xs -> Forall (readable E) xs ->
  outcome (__getitem__ E (Slice s)) self
  = match xs with
    | [] => Raise ValueError
    | _ => rmap Arr (getslice xs s)
    end.
Proof.
  intros Hst Hread.
  destruct (flush_stores E self xs Hst)
    as (self1 & Hflush & Hst1 & _ & _ & Hall).
  assert (Hopen : closed (_file _ self) = false) by apply Hst.
  destruct Hst1 as (_ & _ & Hdatapos & _ & _ & _ & Hindex & _).
  unfold outcome, __getitem__, bind, get, lift, ret. rewrite Hopen. cbn [negb].
  rewrite Hflush. unfold __len__.
  rewrite Hdatapos, Hindex, (memmap_tostring _ xs Hall Hread).
  destruct xs as [| x xs']; [reflexivity |].
  destruct (is_none (start s) && is_none (stop s) && is_none (step s)) eqn:Hnone.
  - apply is_none_sl_all in Hnone. subst s. rewrite getslice_all. reflexivity.
  - cbn [snd]. destruct (getslice (x :: xs') s); reflexivity.
Qed.

(** [close] on an object that stores [xs]: the handle is closed on a
    file that holds the bytes of [xs]. *)
Lemma close_stores (self : t E) (xs : list (elem E)) :
  stores E self xs ->
  exists self1,
    close E self = (self1, Ok tt)
    /\ closed (_file _ self1) = true
    /\ contents (_file _ self1) = tostring E xs
    /\ _index _ self1 = zlen xs /\ _datapos _ self1 = 0.
Proof.
  intros Hst.
  destruct (flush_stores E self xs Hst)
    as (self1 & Hflush & Hst1 & _ & _ & Hall).
  destruct Hst1 as (_ & _ & Hdatapos & _ & _ & _ & Hindex & _).
  unfold close, bind, modify. rewrite Hflush.
  eexists. split; [reflexivity |].
  destruct self1 as [c d i ic f [fc fp fcl] dp lp w].
  cbn in Hdatapos, Hindex, Hall |- *. repeat split; assumption.
Qed.

(** [close] writes the staged elements and closes the handle: the file
    then holds the bytes of all the elements, in order, and nothing
    else; the length is as before; and every slice still reads what the
    same slice of the elements is (the read maps the file by its name,
    the closed handle is left alone). *)
Theorem plain_file_close (self : t E) (xs : list (elem E)) :
  stores E self xs -> Forall (readable E) xs ->
  exists self1,
    close E self = (self1, Ok tt)
    /\ closed (_file _ self1) = true
    /\ contents (_file _ self1) = tostring E xs
    /\ __len__ _ self1 = zlen xs
    /\ forall s : slice,
         __getitem__ E (Slice s) self1
         = (self1, match xs with
                   | [] => Raise ValueError
                   | _ => rmap Arr (getslice xs s)
                   end).
Proof.
  intros Hst Hread.
  destruct (close_stores self xs Hst)
    as (self1 & Hclose & Hclosed & Hall & Hindex & Hdatapos).
  exists self1. split; [exact Hclose |]. split; [exact Hclosed |].
  split; [exact Hall |]. split; [exact Hindex |].
  intros s. unfold __getitem__, bind, get, lift, ret, __len__.
  rewrite Hclosed. cbn [negb].
  rewrite Hdatapos, Hindex, (memmap_tostring _ xs Hall Hread).
  destruct xs as [| x xs']; [reflexivity |].
  destruct (is_none (start s) && is_none (stop s) && is_none (step s)) eqn:Hnone.
  - apply is_none_sl_all in Hnone. subst s. rewrite getslice_all. reflexivity.
  - destruct (getslice (x :: xs') s); reflexivity.
Qed.

End PlainFileReads.

(* ===================================================================== *)
(** * The counters and the staging chunk of a file-backed object          *)
(* ===================================================================== *)

Section FileCounters.
Context (E : eltype).
Import FillableFile.
#[local] Arguments getslice : simpl never.
#[local] Arguments np_setslice : simpl never.
#[local] Arguments overwrite : simpl never.
#[local] Arguments format_width : simpl never.
#[local] Arguments tostring : simpl never.

(** The loop of [extend] keeps the staged count equal to the distance
    between the two other counters. *)
Lemma extend_loop_counters (fuel : nat) :
  forall (values : list (pyval E)) (self self1 : t E) (i c f i1 c1 f1 : Z),
    extend_loop E fuel i c f values self = (self1, Ok (i1, c1, f1)) ->
    i - f = c -> i1 - f1 = c1.
Proof.
  induction fuel as [| fuel IH]; intros values self self1 i c f i1 c1 f1 Hloop Hc.
  - cbn in Hloop. destruct (0 <? zlen values); [discriminate |].
    unfold ret in Hloop. injection Hloop as _ <- <- <-. exact Hc.
  - unfold extend_loop in Hloop; fold (extend_loop E) in Hloop.
    destruct (Z.ltb_spec 0 (zlen values)) as [Hsome | Hnone].
    2:{ unfold ret in Hloop. injection Hloop as _ <- <- <-. exact Hc. }
    apply bind_returned in Hloop as (s1 & self0 & Hget & Hloop).
    unfold get in Hget. injection Hget as <- <-.
    apply bind_returned in Hloop as (s2 & head & _ & Hloop).
    apply bind_returned in Hloop as (s3 & src & _ & Hloop).
    apply bind_returned in Hloop as (s4 & data' & _ & Hloop).
    apply bind_returned in Hloop as (s5 & [] & _ & Hloop).
    apply bind_returned in Hloop as (s6 & values' & _ & Hloop).
    destruct (0 <? zlen values').
    + apply bind_returned in Hloop as (s7 & self7 & _ & Hloop).
      apply bind_returned in Hloop as (s8 & [] & _ & Hloop).
      apply bind_returned in Hloop as (s9 & staged & _ & Hloop).
      apply bind_returned in Hloop as (s10 & [] & _ & Hloop).
      apply IH in Hloop; [exact Hloop | lia].
    + apply IH in Hloop; [exact Hloop | lia].
Qed.

(** On every object a program holds, of either class and whatever the
    dtype and dims: the flushed count is at most the length, the staged
    count is their difference, and it is at most the capacity of the
    staging chunk. *)
Theorem reachable_counters (descr : string) (self : t E) :
  reachable E descr self ->
  0 <= _indexflushed _ self <= _index _ self
  /\ _index _ self - _indexflushed _ self = _indexinchunk _ self
  /\ _indexinchunk _ self <= zlen (_data _ self).
Proof.
  intros Hreach.
  pose proof (reachable_wellformed E descr self Hreach) as (_ & _ & _ & Hcount & Hcap).
  split; [exact Hcount |]. split; [| lia].
  clear Hcount Hcap.
  induction Hreach as [c flushsize lendigits self Hinit
                      | value self self' _ IH Hcall
                      | values self self' _ IH Hcall
                      | self self' _ IH Hcall
                      | value r self self' _ IH Hcall
                      | self self' _ IH Hcall].
  - unfold __init__ in Hinit.
    destruct (np_empty E flushsize); try discriminate. cbn [rbind] in Hinit.
    match type of Hinit with
    | rbind ?opened _ = _ => destruct opened as [[[[f dp] lp] w] | |]
    end; try discriminate.
    cbn in Hinit. injection Hinit as <-. reflexivity.
  - unfold append in Hcall.
    apply bind_returned in Hcall as (s1 & self0 & Hget & Hcall).
    unfold get in Hget. injection Hget as <- <-.
    apply bind_returned in Hcall as (s2 & data' & Hset & Hcall).
    apply lift_returned in Hset as (_ & ->).
    apply bind_returned in Hcall as (s3 & [] & Hmod & Hcall).
    unfold modify in Hmod. injection Hmod as <-.
    apply bind_returned in Hcall as (s4 & [] & Hmod & Hcall).
    unfold modify in Hmod. injection Hmod as <-.
    apply bind_returned in Hcall as (s5 & [] & Hmod & Hcall).
    unfold modify in Hmod. injection Hmod as <-.
    apply bind_returned in Hcall as (s6 & self6 & Hget & Hcall).
    unfold get in Hget. injection Hget as <- <-.
    destruct (_ >=? _).
    + apply flush_returned in Hcall as (file1 & -> & _). cbn. lia.
    + unfold ret in Hcall. injection Hcall as <-.
      destruct self. cbn in *. lia.
  - unfold extend in Hcall.
    apply bind_returned in Hcall as (s1 & self0 & Hget & Hcall).
    unfold get in Hget. injection Hget as <- <-.
    apply bind_returned in Hcall as (s2 & [[i1 c1] f1] & Hloop & Hcall).
    apply extend_loop_counters in Hloop; [| exact IH].
    unfold bind, modify, set_index, set_indexinchunk, set_indexflushed in Hcall.
    injection Hcall as <-. cbn. exact Hloop.
  - apply flush_returned in Hcall as (file1 & -> & _). cbn. lia.
  - unfold __getitem__ in Hcall.
    apply bind_returned in Hcall as (s1 & self0 & Hg & Hcall).
    unfold get in Hg. injection Hg as <- <-.
    apply bind_returned in Hcall as (s2 & [] & Hflush & Hcall).
    assert (Hs2 : _index _ s2 - _indexflushed _ s2 = _indexinchunk _ s2).
    { destruct (negb (closed (_file _ self))).
      - apply flush_returned in Hflush as (file1 & -> & _). cbn. lia.
      - unfold ret in Hflush. now injection Hflush as <-. }
    apply bind_returned in Hcall as (s3 & self3 & Hg & Hcall).
    unfold get in Hg. injection Hg as <- <-.
    destruct value as [i | s]; [discriminate |].
    apply bind_returned in Hcall as (s4 & array & Harray & Hcall).
    apply lift_returned in Harray as (_ & ->).
    destruct (is_none (start s) && is_none (stop s) && is_none (step s)).
    + unfold ret in Hcall. now injection Hcall as <- _.
    + apply bind_returned in Hcall as (s5 & picked & Hpicked & Hcall).
      apply lift_returned in Hpicked as (_ & ->).
      unfold ret in Hcall. now injection Hcall as <- _.
  - unfold close in Hcall.
    apply bind_returned in Hcall as (s1 & [] & Hflush & Hcall).
    apply flush_returned in Hflush as (file1 & -> & _).
    unfold modify in Hcall. injection Hcall as <-. cbn. lia.
Qed.

(** A second [flush] right after one that returned changes nothing, not
    the file and not the position of its handle. *)
Theorem flush_idempotent (descr : string) (self : t E) :
  reachable E descr self -> closed (_file _ self) = false -> 0 <= itemsize E ->
  exists self1,
    flush E self = (self1, Ok tt)
    /\ flush E self1 = (self1, Ok tt)
    /\ __len__ _ self1 = __len__ _ self.
Proof.
  intros Hreach Hopen Hitem.
  assert (Hseek : seekable E self).
  { destruct (reachable_wellformed E descr self Hreach)
      as (Hlenpos & Hfield & _ & Hcount & _).
    unfold seekable. repeat split; lia. }
  destruct (flush_twice E self Hopen Hseek) as (Hok & Hagain & _ & Hlen).
  unfold state_after, outcome in *.
  destruct (flush E self) as [self1 r]. cbn [fst snd] in *. subst r.
  exists self1. repeat split; assumption.
Qed.


(** Once the handle is closed, [flush] and [close] raise [ValueError]
    and leave the object as it is, for either class; and a [close] that
    returned has closed the handle. *)
Theorem closed_handle (self : t E) :
  (closed (_file _ self) = true ->
   flush E self = (self, Raise ValueError)
   /\ close E self = (self, Raise ValueError))
  /\ (forall self1, close E self = (self1, Ok tt) ->
      closed (_file _ self1) = true
      /\ contents (_file _ self1) = contents (_file _ (state_after (flush E) self))).
Proof.
  split.
  - intros Hclosed.
    assert (Hflush : flush E self = (self, Raise ValueError)).
    { destruct (getslice_to_returns (_data _ self) (_indexinchunk _ self))
        as [staged Hst].
      unfold flush, flush_plain, flush_numpy, bind, get, lift, modify, on_file,
        fseek, fwrite.
      destruct self as [c d i ic ifl [fc fp fcl] dp lp w]. cbn in Hclosed, Hst |- *.
      subst fcl. destruct c; cbn; rewrite ?Hst; reflexivity. }
    split; [exact Hflush |].
    unfold close, bind. rewrite Hflush. reflexivity.
  - intros self1 Hclose. unfold close, state_after in *.
    apply bind_returned in Hclose as (s1 & [] & Hflush & Hclose).
    rewrite Hflush. unfold modify in Hclose. injection Hclose as <-.
    split; reflexivity.
Qed.

(** [append] on an object whose handle is closed, with a free slot and
    a value that converts: the value is staged and the length grows by
    one, the file is not touched; the call returns unless it has filled
    the staging chunk, and then it raises [ValueError], the length
    grown all the same. *)
Theorem append_after_close (self : t E) (value : pyval E) (x : elem E) :
  closed (_file _ self) = true -> cast E value = Ok x ->
  0 <= _indexinchunk _ self < zlen (_data _ self) ->
  let self1 := state_after (append E value) self in
  outcome (append E value) self
  = (if _indexinchunk _ self + 1 >=? zlen (_data _ self)
     then Raise ValueError else Ok tt)
  /\ __len__ _ self1 = __len__ _ self + 1
  /\ _data _ self1 = <[Z.to_nat (_indexinchunk _ self) := x]> (_data _ self)
  /\ _file _ self1 = _file _ self.
Proof.
  intros Hclosed Hcast Hroom self1. subst self1.
  unfold state_after, outcome, append, bind, get, lift, modify, np_setitem,
    norm_index.
  destruct (Z.ltb_spec (_indexinchunk _ self) 0); [lia |].
  destruct (Z.leb_spec 0 (_indexinchunk _ self)); [| lia].
  destruct (Z.ltb_spec (_indexinchunk _ self) (zlen (_data _ self))); [| lia].
  cbn [andb rbind]. rewrite Hcast. cbn [rbind].
  destruct self as [c d i ic ifl [fc fp fcl] dp lp w].
  cbn in Hclosed, Hroom |- *. subst fcl.
  assert (Hlen : zlen (<[Z.to_nat ic := x]> d) = zlen d)
    by (unfold zlen; now rewrite length_insert).
  rewrite Hlen.
  destruct (ic + 1 >=? zlen d) eqn:Hfull.
  - destruct (getslice_to_returns (<[Z.to_nat ic := x]> d) (ic + 1)) as [staged Hst].
    unfold flush, flush_plain, flush_numpy, bind, get, lift, modify, on_file,
      fseek, fwrite.
    destruct c; cbn; rewrite ?Hst; cbn; repeat split.
  - cbn. repeat split.
Qed.

(** With [flushsize=0] the staging chunk has no slot: [append] raises
    [IndexError] on the new object and changes nothing, and, for
    [dims = ()], the loop of [extend] with at least one value stages
    none in any round, so it is still running when any number of rounds
    is over and [extend] does not return. *)
Theorem zero_flushsize (descr : string) (c : cls) (lendigits : nat) (self : t E) :
  __init__ E descr c 0 lendigits = Ok self ->
  (forall value : pyval E, append E value self = (self, Raise IndexError))
  /\ (dims E = [] ->
      forall values : list (pyval E),
        values <> [] ->
        (forall fuel : nat,
            outcome (extend_loop E fuel (_index _ self) (_indexinchunk _ self)
                       (_indexflushed _ self) values) self
            = OutOfFuel)
        /\ outcome (extend E values) self = OutOfFuel).
Proof.
  intros Hinit.
  pose proof (init_wellformed E descr c 0 lendigits self Hinit)
    as (Hlp & Hfield & Hdp & _ & _).
  assert (Hself : _data _ self = [] /\ _index _ self = 0
                  /\ _indexinchunk _ self = 0 /\ _indexflushed _ self = 0).
  { unfold __init__ in Hinit. cbn [np_empty Z.ltb Z.compare rbind] in Hinit.
    match type of Hinit with
    | rbind ?opened _ = _ => destruct opened as [[[[f dp] lp] w] | |]
    end; try discriminate.
    cbn in Hinit. injection Hinit as <-. repeat split. }
  destruct Hself as (Hdata & Hindex & Hiic & Hflushed).
  assert (Hopen : closed (_file _ self) = false).
  { unfold __init__ in Hinit. cbn in Hinit.
    destruct c; cbn in Hinit.
    - injection Hinit as <-. reflexivity.
    - unfold _openfile_numpy in Hinit.
      destruct (itemsize E =? 0); [discriminate |].
      destruct (negb _); [discriminate |].
      unfold fwrite at 5 in Hinit. cbn in Hinit.
      destruct (pack_H _) as [packed | |]; try discriminate.
      cbn in Hinit. injection Hinit as <-. reflexivity. }
  assert (Hloop : forall (values : list (pyval E)) (fuel : nat) (s : t E),
             values <> [] -> _data _ s = [] -> closed (_file _ s) = false ->
             0 <= _datapos _ s ->
             snd (extend_loop E fuel 0 0 0 values s) = OutOfFuel).
  { intros values fuel. induction fuel as [| fuel IH]; intros s Hsome Hd Ho Hp.
    - assert (0 < zlen values)
        by (destruct values; [congruence | unfold zlen; cbn; lia]).
      cbn. destruct (Z.ltb_spec 0 (zlen values)); [reflexivity | lia].
    - assert (Hpos : 0 < zlen values)
        by (destruct values; [congruence | unfold zlen; cbn; lia]).
      cbn [extend_loop]. destruct (Z.ltb_spec 0 (zlen values)); [| lia].
      unfold bind at 1. unfold get at 1. rewrite Hd.
      change (zlen (@nil (elem E)) - 0) with 0.
      replace (Z.min (zlen values) 0) with 0 by lia.
      unfold bind at 1. unfold lift at 1. rewrite getslice_to by lia.
      change (take (Z.to_nat 0) values) with (@nil (pyval E)).
      unfold bind at 1. unfold lift at 1. cbn [np_array].
      unfold bind at 1. unfold lift at 1.
      rewrite np_setslice_range by (unfold zlen; cbn; lia).
      cbn [take drop app Z.to_nat].
      unfold bind at 1. unfold modify at 1.
      unfold bind at 1. unfold lift at 1. rewrite getslice_from by lia.
      change (drop (Z.to_nat 0) values) with values.
      destruct (Z.ltb_spec 0 (zlen values)); [| lia].
      unfold bind at 1. unfold get at 1.
      unfold bind at 1. unfold on_file at 1, fseek.
      destruct s as [cl d i ic ifl [fc fp fcl] dp lp w].
      cbn in Hd, Ho, Hp |- *. subst d fcl.
      replace (dp + 0 * itemsize E) with dp by lia.
      destruct (Z.ltb_spec dp 0); [lia |]. cbn.
      rewrite getslice_to by lia. cbn.
      change (0 + 0) with 0.
      apply IH; [exact Hsome | reflexivity | reflexivity | exact Hp]. }
  split; [| intros _ values Hsome; split].
  - intros value. unfold append, bind, get, lift, np_setitem, norm_index.
    rewrite Hdata, Hiic. reflexivity.
  - intros fuel. unfold outcome.
    rewrite Hindex, Hiic, Hflushed. apply Hloop; [assumption .. | lia].
  - unfold outcome, extend, bind, get.
    rewrite Hindex, Hiic, Hflushed.
    pose proof (Hloop values (S (length values)) self Hsome Hdata Hopen
                  ltac:(lia)) as Hrun.
    destruct (extend_loop E (S (length values)) 0 0 0 values self) as [s r].
    cbn [snd] in Hrun. subst r. reflexivity.
Qed.

End FileCounters.

(* ===================================================================== *)
(** * Reads of the list and of the chunked array                          *)
(* ===================================================================== *)

(** The positions of [a:b:k] for [0 <= a <= b <= len] and a stride
    [k >= 1] that divides [b - a]: [(b - a) // k] of them. *)
Lemma slice_positions_stride (a b k len : Z) :
  0 <= a <= b -> b <= len -> 1 <= k -> (b - a) mod k = 0 ->
  slice_positions (sl3 a b k) len
  = Ok (map (fun j : nat => Z.to_nat (a + Z.of_nat j * k))
            (seq 0 (Z.to_nat ((b - a) / k)))).
Proof.
  intros Hab Hb Hk Hdiv.
  unfold slice_positions, slice_indices, sl3, adjust_bound. cbn.
  destruct (Z.eqb_spec k 0); [lia |].
  destruct (Z.ltb_spec k 0); [lia |].
  destruct (Z.ltb_spec a 0); [lia |].
  destruct (Z.ltb_spec b 0); [lia |].
  assert (Ha' : (if len <=? a then len else a) = a)
    by (destruct (Z.leb_spec len a); lia).
  assert (Hb' : (if len <=? b then len else b) = b)
    by (destruct (Z.leb_spec len b); lia).
  rewrite Ha', Hb'. cbn [rbind]. do 3 f_equal.
  unfold slice_length. destruct (Z.ltb_spec k 0); [lia |].
  apply Z.mod_divide in Hdiv; [| lia]. destruct Hdiv as [q Hq].
  rewrite Hq, Z.div_mul by lia.
  destruct (Z.ltb_spec a b).
  - assert (1 <= q) by nia.
    replace (q * k - 1) with ((q - 1) * k + (k - 1)) by nia.
    rewrite Z.div_add_l by lia. rewrite Z.div_small by lia. lia.
  - assert (q = 0) by nia. lia.
Qed.



Section Reads.
Context (E : eltype).


(** A slice whose bounds lie within the length but in the wrong order
    for its stride (the defaults for omitted bounds are [0] and the
    length, whatever the sign of the stride) raises [ValueError] on the
    list and on the array: the count [(stop - start) // step] is
    negative and no array of that size can be made.  [self[3:1]] and,
    on an object that is not empty, [self[::-1]] are such slices. *)
Theorem slice_out_of_order (s : slice) (len : Z) :
  let a := default 0 (start s) in
  let b := default len (stop s) in
  let k := default 1 (step s) in
  0 <= a <= len -> 0 <= b <= len -> (b - a) * k < 0 ->
  (forall self : FillableList.t E,
      FillableList.__len__ E self = len ->
      FillableList.__getitem__ E (Slice s) self = (self, Raise ValueError))
  /\ (forall self : FillableArray.t E,
      FillableArray.__len__ E self = len ->
      FillableArray.__getitem__ E (Slice s) self = (self, Raise ValueError)).
Proof.
  intros a b k Ha Hb Hsign.
  assert (Hneg : (b - a) / k < 0).
  { destruct (Z.lt_trichotomy k 0) as [Hk | [Hk | Hk]]; [| nia |].
    - rewrite <- Z.div_opp_opp by lia. apply Z.div_lt_upper_bound; nia.
    - apply Z.div_lt_upper_bound; nia. }
  assert (Hk0 : k <> 0) by nia.
  split; intros self Hlen.
  - unfold FillableList.__getitem__. rewrite Hlen. fold a b k.
    destruct (Z.ltb_spec a 0); [lia |]. destruct (Z.ltb_spec b 0); [lia |].
    replace (Z.min len (Z.max 0 a)) with a by lia.
    replace (Z.min len (Z.max 0 b)) with b by lia.
    destruct (Z.eqb_spec k 0); [lia |].
    unfold np_empty. destruct (Z.ltb_spec ((b - a) / k) 0); [reflexivity | lia].
  - unfold FillableArray.__getitem__. rewrite Hlen. fold a b k.
    destruct (Z.ltb_spec a 0); [lia |]. destruct (Z.ltb_spec b 0); [lia |].
    replace (Z.min len (Z.max 0 a)) with a by lia.
    replace (Z.min len (Z.max 0 b)) with b by lia.
    destruct (Z.eqb_spec k 0); [lia |].
    unfold np_empty. destruct (Z.ltb_spec ((b - a) / k) 0); [reflexivity | lia].
Qed.

(** An index that is not negative, on the chunked array: the element at
    that place when there is one, [IndexError] otherwise. *)
Theorem array_index_not_negative (self : FillableArray.t E)
  (xs : list (elem E)) (i : Z) :
  FillableArray.stores E self xs -> 0 <= i ->
  FillableArray.__getitem__ E (Int i) self
  = (self, match xs !! Z.to_nat i with
           | Some x => Ok (Item x)
           | None => Raise IndexError
           end).
Proof.
  intros Hst Hi.
  assert (Hsame : FillableArray.__getitem__ E (Int i) self
                  = (self, outcome (FillableArray.__getitem__ E (Int i)) self))
    by reflexivity.
  destruct (xs !! Z.to_nat i) as [x |] eqn:Hx.
  - rewrite Hsame. f_equal.
    rewrite <- (Z2Nat.id i) by lia.
    now apply (array_getitem_stores E self xs).
  - apply lookup_ge_None in Hx.
    pose proof (array_len_stores E self xs Hst) as Hlen.
    apply array_index_out_of_range.
    destruct (Z.geb_spec i 0); [| lia].
    rewrite Hlen. unfold zlen. lia.
Qed.

(** With [chunksize=0] no chunk has a slot.  [append] adds a chunk,
    moves to it and raises [IndexError]; the length stays 0 and the
    next [append] finds the object in the same condition.  The loop of
    [extend] with at least one value, for [dims = ()], adds a chunk in
    every round and fills nothing, so it is still running when any
    number of rounds is over. *)
Theorem zero_chunksize (self : FillableArray.t E) :
  FillableArray.chunksize E self = 0 ->
  uniform 0 (FillableArray._data E self) ->
  0 <= FillableArray._chunkindex E self < zlen (FillableArray._data E self) ->
  FillableArray._indexinchunk E self = 0 ->
  (forall value : pyval E,
      let self1 := state_after (FillableArray.append E value) self in
      outcome (FillableArray.append E value) self = Raise IndexError
      /\ FillableArray.__len__ E self1 = 0
      /\ FillableArray.chunksize E self1 = 0
      /\ uniform 0 (FillableArray._data E self1)
      /\ 0 <= FillableArray._chunkindex E self1 < zlen (FillableArray._data E self1)
      /\ FillableArray._indexinchunk E self1 = 0)
  /\ (dims E = [] ->
      forall (values : list (pyval E)) (fuel : nat),
        values <> [] ->
        outcome (FillableArray.extend_loop E fuel (FillableArray._chunkindex E self)
                   (FillableArray._indexinchunk E self) values) self
        = OutOfFuel).
Proof.
  intros Hcs Huni Hci Hiic.
  assert (Hchunk : forall (d : list (list (elem E))) (ci : Z),
             uniform 0 d -> 0 <= ci < zlen d -> getitem d ci = Ok []).
  { intros d ci Hu Hc. destruct (getitem_in_range d ci Hc) as (chunk & Hl & ->).
    unfold uniform in Hu. rewrite Forall_lookup in Hu.
    apply Hu in Hl. destruct chunk; [reflexivity | discriminate]. }
  assert (Hgrow : forall (d : list (list (elem E))) (ci : Z),
             uniform 0 d -> 0 <= ci < zlen d ->
             let d1 := d ++ repeat (repeat (uninit E) (Z.to_nat 0))
                                   (Z.to_nat (ci + 2 - zlen d)) in
             uniform 0 d1 /\ 0 <= ci + 1 < zlen d1).
  { intros d ci Hu Hc d1. split.
    - apply Forall_app. split; [exact Hu |].
      apply Forall_forall. intros c Hin. apply list_elem_of_In, repeat_spec in Hin.
      now subst c.
    - subst d1. unfold zlen in *. rewrite length_app, repeat_length. lia. }
  split.
  - intros value self1. subst self1.
    destruct self as [cs d iic ci]. cbn in Hcs, Huni, Hci, Hiic. subst cs iic.
    destruct (Hgrow d ci Huni Hci) as (Huni1 & Hci1).
    unfold state_after, outcome, FillableArray.append, bind, get, lift, modify.
    cbn [FillableArray._data FillableArray._chunkindex FillableArray._indexinchunk
         FillableArray.chunksize].
    rewrite (Hchunk d ci Huni Hci).
    change (0 >=? zlen (@nil (elem E))) with true. cbn iota.
    cbn beta. rewrite add_chunks_run by (cbn; lia).
    unfold FillableArray.set_data, FillableArray.set_indexinchunk,
      FillableArray.set_chunkindex.
    cbn [FillableArray._data FillableArray._chunkindex FillableArray._indexinchunk
         FillableArray.chunksize].
    rewrite (Hchunk _ (ci + 1) Huni1 Hci1).
    change (np_setitem E [] 0 value) with (@Raise (list (elem E)) IndexError).
    cbn [fst snd].
    unfold FillableArray.__len__.
    cbn [FillableArray._data FillableArray._chunkindex FillableArray._indexinchunk
         FillableArray.chunksize].
    repeat split; try assumption; lia.
  - intros _ values fuel Hsome.
    assert (Hpos : 0 < zlen values)
      by (destruct values; [congruence | unfold zlen; cbn; lia]).
    rewrite Hiic. unfold outcome.
    assert (Hloop : forall (n : nat) (s : FillableArray.t E) (ci : Z),
               FillableArray.chunksize E s = 0 ->
               uniform 0 (FillableArray._data E s) ->
               0 <= ci < zlen (FillableArray._data E s) ->
               snd (FillableArray.extend_loop E n ci 0 values s) = OutOfFuel).
    { clear self Hcs Huni Hci Hiic fuel.
      induction n as [| n IH]; intros s ci Hcs Huni Hci.
      - cbn. destruct (Z.ltb_spec 0 (zlen values)); [reflexivity | lia].
      - destruct s as [cs d iic0 ci0]. cbn in Hcs, Huni, Hci. subst cs.
        destruct (Hgrow d ci Huni Hci) as (Huni1 & Hci1).
        cbn [FillableArray.extend_loop].
        destruct (Z.ltb_spec 0 (zlen values)); [| lia].
        unfold bind at 1. unfold get at 1.
        unfold bind at 1. unfold lift at 1.
        cbn [FillableArray._data]. rewrite (Hchunk d ci Huni Hci).
        change (0 >=? zlen (@nil (elem E))) with true. cbn iota.
        unfold bind at 1. unfold bind at 1.
        rewrite add_chunks_run by (cbn; lia).
        unfold ret at 1. unfold bind at 1. unfold get at 1.
        unfold FillableArray.set_data.
        cbn [FillableArray._data FillableArray._chunkindex
             FillableArray._indexinchunk FillableArray.chunksize].
        replace (Z.min (zlen values) (0 - 0)) with 0 by lia.
        unfold bind at 1. unfold lift at 1. rewrite getslice_to by lia.
        change (take (Z.to_nat 0) values) with (@nil (pyval E)).
        unfold bind at 1. unfold lift at 1. rewrite (Hchunk _ (ci + 1) Huni1 Hci1).
        unfold bind at 1. unfold lift at 1. cbn [np_array].
        unfold bind at 1. unfold lift at 1.
        rewrite np_setslice_range by (unfold zlen; cbn; lia).
        cbn [take drop app Z.to_nat].
        unfold bind at 1. unfold lift at 1.
        rewrite setitem_in_range by exact Hci1.
        unfold bind at 1. unfold modify at 1.
        unfold bind at 1. unfold lift at 1. rewrite getslice_from by lia.
        change (drop (Z.to_nat 0) values) with values.
        change (0 + 0) with 0.
        unfold FillableArray.set_data.
        cbn [FillableArray._data FillableArray._chunkindex
             FillableArray._indexinchunk FillableArray.chunksize].
        apply IH; cbn [FillableArray._data FillableArray.chunksize].
        + reflexivity.
        + apply uniform_insert; [exact Huni1 | reflexivity].
        + unfold zlen in *. rewrite length_insert. lia. }
    apply Hloop; assumption.
Qed.

End Reads.

(* ===================================================================== *)
(** * The schema walk on any generator                                    *)
(* ===================================================================== *)

(** Induction on a generator, its sub-generators in lists included. *)
Lemma Generator_induction (P : Generator -> Prop) :
  (forall mask data dtype dims, P (PrimitiveGenerator mask data dtype dims)) ->
  (forall mask starts stops dtype content,
      P content -> P (ListGenerator mask starts stops dtype content)) ->
  (forall mask tags offsets dtype possibilities,
      Forall P possibilities ->
      P (UnionGenerator mask tags offsets dtype possibilities)) ->
  (forall mask fields,
      Forall (fun field => P (snd field)) fields -> P (RecordGenerator mask fields)) ->
  (forall mask types, Forall P types -> P (TupleGenerator mask types)) ->
  (forall mask positions dtype _internal target,
      P target -> P (PointerGenerator mask positions dtype _internal target)) ->
  (forall mask, P (OtherGenerator mask)) ->
  forall generator, P generator.
Proof.
  intros Hprim Hlist Hunion Hrecord Htuple Hpointer Hother.
  fix IH 1. intros [mask data dtype dims | mask starts stops dtype content
                   | mask tags offsets dtype possibilities | mask fields
                   | mask types | mask positions dtype _internal target | mask].
  - apply Hprim.
  - apply Hlist, IH.
  - apply Hunion. induction possibilities as [| g gs IHgs]; constructor;
      [apply IH | exact IHgs].
  - apply Hrecord. induction fields as [| [name g] gs IHgs]; constructor;
      [apply IH | exact IHgs].
  - apply Htuple. induction types as [| g gs IHgs]; constructor;
      [apply IH | exact IHgs].
  - apply Hpointer, IH.
  - apply Hother.
Qed.

(** Inserting one key on both sides keeps an inclusion of key sets. *)
Lemma dom_insert_mono {F F'} (m : gmap string F) (m' : gmap string F')
  (k : string) (v : F) (v' : F') :
  dom m ⊆ dom m' -> dom (<[k := v]> m) ⊆ dom (<[k := v']> m').
Proof. rewrite !dom_insert. set_solver. Qed.

(** Inserting a key on the larger side keeps an inclusion of key sets. *)
Lemma dom_insert_right {F F'} (m : gmap string F) (m' : gmap string F')
  (k : string) (v' : F') :
  dom m ⊆ dom m' -> dom m ⊆ dom (<[k := v']> m').
Proof. rewrite dom_insert. set_solver. Qed.

(** The keys the walk leaves depend on the generator, on the keys it
    started with and on the two flags, and on nothing else; more keys
    to start with, or a flag switched on, leave at least the same
    keys; and whether the walk raises, and what, depends on the
    generator alone. *)
Lemma walk_keys_mono (generator : Generator) :
  forall (F F' : Type) (fillables : gmap string F) (fillables' : gmap string F')
    (makefillable : string -> npdtype -> list Z -> F)
    (makefillable' : string -> npdtype -> list Z -> F')
    (liststarts liststarts' unionoffsets unionoffsets' : bool),
    dom fillables ⊆ dom fillables' ->
    (liststarts = true -> liststarts' = true) ->
    (unionoffsets = true -> unionoffsets' = true) ->
    alike (fun after after' => dom after ⊆ dom after')
      (_makefillables generator fillables makefillable liststarts unionoffsets)
      (_makefillables generator fillables' makefillable' liststarts' unionoffsets').
Proof.
  induction generator as [mask data dtype dims
                         | mask starts stops dtype content IH
                         | mask tags offsets dtype possibilities IH
                         | mask fields IH
                         | mask types IH
                         | mask positions dtype _internal target IH
                         | mask] using Generator_induction;
    intros F F' m m' f f' ls ls' uo uo' Hdom Hls Huo; cbn [_makefillables mask_of].
  all: set (m1 := match mask with Some k => <[k := f k numpy_bool_ []]> m | None => m end).
  all: set (m1' := match mask with Some k => <[k := f' k numpy_bool_ []]> m' | None => m' end).
  all: assert (Hdom1 : dom m1 ⊆ dom m1')
         by (subst m1 m1'; destruct mask; [now apply dom_insert_mono | exact Hdom]).
  all: clearbody m1 m1'; clear m m' Hdom.
  - destruct dtype, dims; cbn; try reflexivity. now apply dom_insert_mono.
  - apply IH; try assumption.
    apply dom_insert_mono.
    destruct ls; [rewrite (Hls eq_refl); now apply dom_insert_mono |].
    destruct ls'; [now apply dom_insert_right | exact Hdom1].
  - assert (Hdom2 :
      dom (if uo then <[offsets := f offsets dtype []]> (<[tags := f tags dtype []]> m1)
           else <[tags := f tags dtype []]> m1)
      ⊆ dom (if uo' then <[offsets := f' offsets dtype []]> (<[tags := f' tags dtype []]> m1')
             else <[tags := f' tags dtype []]> m1')).
    { destruct uo; [rewrite (Huo eq_refl); now do 2 apply dom_insert_mono |].
      destruct uo'; [apply dom_insert_right |]; now apply dom_insert_mono. }
    revert Hdom2. generalize (if uo then <[offsets := f offsets dtype []]> (<[tags := f tags dtype []]> m1)
           else <[tags := f tags dtype []]> m1).
    generalize (if uo' then <[offsets := f' offsets dtype []]> (<[tags := f' tags dtype []]> m1')
             else <[tags := f' tags dtype []]> m1').
    clear m1 m1' Hdom1.
    induction IH as [| g gs Hg _ IHgs]; intros m' m Hdom; [exact Hdom |].
    specialize (Hg F F' m m' f f' ls ls' uo uo' Hdom Hls Huo).
    destruct (_makefillables g m f ls uo), (_makefillables g m' f' ls' uo');
      cbn in Hg |- *; try contradiction; try exact Hg.
    now apply IHgs.
  - revert Hdom1. generalize m1 m1'. clear m1 m1'.
    induction IH as [| [name g] gs Hg _ IHgs]; intros m m' Hdom; [exact Hdom |].
    cbn [snd] in Hg.
    specialize (Hg F F' m m' f f' ls ls' uo uo' Hdom Hls Huo).
    destruct (_makefillables g m f ls uo), (_makefillables g m' f' ls' uo');
      cbn in Hg |- *; try contradiction; try exact Hg.
    now apply IHgs.
  - revert Hdom1. generalize m1 m1'. clear m1 m1'.
    induction IH as [| g gs Hg _ IHgs]; intros m m' Hdom; [exact Hdom |].
    specialize (Hg F F' m m' f f' ls ls' uo uo' Hdom Hls Huo).
    destruct (_makefillables g m f ls uo), (_makefillables g m' f' ls' uo');
      cbn in Hg |- *; try contradiction; try exact Hg.
    now apply IHgs.
  - destruct _internal; cbn [negb].
    + now apply dom_insert_mono.
    + apply IH; try assumption. now apply dom_insert_mono.
  - reflexivity.
Qed.

(** Which keys the walk fills in does not depend on what the factory
    makes: for the same generator and flags, two factories that return
    on every call leave the same keys, or the walk raises the same
    exception with both.  The backing strategy decides what the
    fillables are, not which there are. *)
Theorem walk_keys_any_factory {F F' : Type} (generator : Generator)
  (makefillable : string -> npdtype -> list Z -> F)
  (makefillable' : string -> npdtype -> list Z -> F')
  (liststarts unionoffsets : bool) :
  rmap dom (_makefillables generator ∅ makefillable liststarts unionoffsets)
  = rmap (dom (D := gset string))
      (_makefillables generator ∅ makefillable' liststarts unionoffsets).
Proof.
  pose proof (walk_keys_mono generator _ _ ∅ ∅ makefillable makefillable'
                liststarts liststarts unionoffsets unionoffsets
                ltac:(now rewrite !dom_empty) ltac:(tauto) ltac:(tauto)) as H1.
  pose proof (walk_keys_mono generator _ _ ∅ ∅ makefillable' makefillable
                liststarts liststarts unionoffsets unionoffsets
                ltac:(now rewrite !dom_empty) ltac:(tauto) ltac:(tauto)) as H2.
  destruct (_makefillables generator ∅ makefillable liststarts unionoffsets),
    (_makefillables generator ∅ makefillable' liststarts unionoffsets);
    cbn in H1, H2 |- *; try contradiction; [| congruence].
  f_equal. apply set_eq. set_solver.
Qed.

(** Asking for list starts and union offsets only adds keys: the walk
    raises with them exactly when it raises without, the same
    exception, and when it returns, every key of the walk without them
    is a key of the walk with them. *)
Theorem flags_only_add_keys (generator : Generator)
  (liststarts unionoffsets : bool) :
  alike (fun without with_ => dom without ⊆ dom with_)
    (fillablelists generator false false)
    (fillablelists generator liststarts unionoffsets).
Proof.
  unfold fillablelists. apply walk_keys_mono; [reflexivity | discriminate ..].
Qed.

(** [made_by] is reflexive, kept by an insertion of what the
    constructor makes, and transitive. *)
Lemma made_by_refl {F} (f : string -> npdtype -> list Z -> F) (m : gmap string F) :
  made_by f m m.
Proof. intros k v Hv. now left. Qed.

(** An entry made by the constructor under its own key. *)
Lemma made_by_insert {F} (f : string -> npdtype -> list Z -> F)
  (m m1 : gmap string F) (k : string) (dtype : npdtype) (dims : list Z) :
  made_by f m m1 -> made_by f m (<[k := f k dtype dims]> m1).
Proof.
  intros H k' v Hv. destruct (decide (k = k')) as [<- | Hne].
  - rewrite lookup_insert_eq in Hv. injection Hv as <-. right. eauto.
  - rewrite lookup_insert_ne in Hv by exact Hne. now apply H.
Qed.

(** Two walks in a row. *)
Lemma made_by_trans {F} (f : string -> npdtype -> list Z -> F)
  (m m1 m2 : gmap string F) :
  made_by f m m1 -> made_by f m1 m2 -> made_by f m m2.
Proof.
  intros H1 H2 k v Hv. destruct (H2 k v Hv) as [Hv1 | Hnew]; [| now right].
  now apply H1.
Qed.

(** Every fillable the walk has put in the dictionary was made by
    [makefillable] under the name it is stored at. *)
Lemma walk_made_by {F} (makefillable : string -> npdtype -> list Z -> F)
  (liststarts unionoffsets : bool) (generator : Generator) :
  forall fillables after : gmap string F,
    _makefillables generator fillables makefillable liststarts unionoffsets
    = Ok after ->
    made_by makefillable fillables after.
Proof.
  set (f := makefillable).
  induction generator as [mask data dtype dims
                         | mask starts stops dtype content IH
                         | mask tags offsets dtype possibilities IH
                         | mask fields IH
                         | mask types IH
                         | mask positions dtype _internal target IH
                         | mask] using Generator_induction;
    intros m after; cbn [_makefillables mask_of].
  all: set (m1 := match mask with Some k => <[k := f k numpy_bool_ []]> m | None => m end).
  all: assert (Hm1 : made_by f m m1)
         by (subst m1; destruct mask;
             [apply made_by_insert |]; apply made_by_refl).
  all: clearbody m1.
  - destruct dtype, dims; try discriminate. intros [= <-].
    now apply made_by_insert.
  - intros Hwalk. apply IH in Hwalk.
    refine (made_by_trans f _ _ _ _ Hwalk).
    apply made_by_insert. destruct liststarts; [apply made_by_insert |]; exact Hm1.
  - assert (Hm2 : made_by f m
               (if unionoffsets
                then <[offsets := f offsets dtype []]> (<[tags := f tags dtype []]> m1)
                else <[tags := f tags dtype []]> m1))
      by (destruct unionoffsets; repeat apply made_by_insert; exact Hm1).
    revert Hm2.
    generalize (if unionoffsets
                then <[offsets := f offsets dtype []]> (<[tags := f tags dtype []]> m1)
                else <[tags := f tags dtype []]> m1).
    clear m1 Hm1.
    induction IH as [| g gs Hg _ IHgs]; intros m2 Hm2.
    + now intros [= <-].
    + destruct (_makefillables g m2 f liststarts unionoffsets) as [m3 | |] eqn:Hwalk;
        cbn [rbind]; try discriminate.
      apply IHgs. exact (made_by_trans f _ _ _ Hm2 (Hg _ _ Hwalk)).
  - revert Hm1. generalize m1. clear m1.
    induction IH as [| [name g] gs Hg _ IHgs]; intros m2 Hm2.
    + now intros [= <-].
    + cbn [snd] in Hg.
      destruct (_makefillables g m2 f liststarts unionoffsets) as [m3 | |] eqn:Hwalk;
        cbn [rbind]; try discriminate.
      apply IHgs. exact (made_by_trans f _ _ _ Hm2 (Hg _ _ Hwalk)).
  - revert Hm1. generalize m1. clear m1.
    induction IH as [| g gs Hg _ IHgs]; intros m2 Hm2.
    + now intros [= <-].
    + destruct (_makefillables g m2 f liststarts unionoffsets) as [m3 | |] eqn:Hwalk;
        cbn [rbind]; try discriminate.
      apply IHgs. exact (made_by_trans f _ _ _ Hm2 (Hg _ _ Hwalk)).
  - destruct _internal; cbn [negb].
    + intros [= <-]. now apply made_by_insert.
    + intros Hwalk. apply IH in Hwalk.
      refine (made_by_trans f _ _ _ _ Hwalk). now apply made_by_insert.
  - discriminate.
Qed.

(** Every fillable of the dictionary that the walk returns, when it
    started on an empty one, is what the factory made when it was
    called with the key of that entry as its name. *)
Theorem walk_entries_made_for_key {F : Type}
  (makefillable : string -> npdtype -> list Z -> F) (generator : Generator)
  (liststarts unionoffsets : bool) (fillables : gmap string F)
  (name : string) (made : F) :
  _makefillables generator ∅ makefillable liststarts unionoffsets = Ok fillables ->
  fillables !! name = Some made ->
  exists dtype dims, made = makefillable name dtype dims.
Proof.
  intros Hwalk Hmade. apply walk_made_by in Hwalk.
  destruct (Hwalk name made Hmade) as [Hbefore | Hnew]; [| exact Hnew].
  rewrite lookup_empty in Hbefore. discriminate.
Qed.

(* ===================================================================== *)
(** * The header of a new FillableNumpyFile                               *)
(* ===================================================================== *)

(** What the constructor of [FillableNumpyFile] leaves, for
    [lendigits >= 1]. *)
Lemma numpy_init_returned (E : eltype) (descr : string) (flushsize : Z)
  (lendigits : nat) (self : FillableFile.t E) :
  FillableFile.__init__ E descr FillableNumpyFile_ flushsize lendigits = Ok self ->
  (1 <= lendigits)%nat ->
  (FillableFile.class E self = FillableNumpyFile_
   /\ FillableFile._data E self = repeat (uninit E) (Z.to_nat flushsize)
   /\ 0 <= flushsize
   /\ FillableFile._index E self = 0
   /\ FillableFile._indexinchunk E self = 0
   /\ FillableFile._indexflushed E self = 0
   /\ FillableFile._formatter E self = lendigits
   /\ 0 <= FillableFile._lenpos E self
   /\ FillableFile._lenpos E self + Z.of_nat lendigits
      <= FillableFile._datapos E self)
  /\ zlen (contents (FillableFile._file E self)) = FillableFile._datapos E self
  /\ pos (FillableFile._file E self) = FillableFile._datapos E self
  /\ closed (FillableFile._file E self) = false
  /\ FillableFile._datapos E self mod itemsize E = 0
  /\ take 8 (contents (FillableFile._file E self)) = magic
  /\ pack_H (FillableFile._datapos E self - 10)
     = Ok (take 2 (drop 8 (contents (FillableFile._file E self))))
  /\ header_count (contents (FillableFile._file E self))
       (FillableFile._lenpos E self) (FillableFile._formatter E self)
     = Some 0.
Proof.
  unfold FillableFile.__init__, np_empty.
  destruct (Z.ltb_spec flushsize 0); [discriminate |]. cbn [rbind].
  unfold FillableFile._openfile_numpy.
  set (header1 := encode_ascii _).
  set (header2 := drop 1 _).
  set (unpaddedlen := zlen magic + 2 + zlen header1 + zlen header2).
  destruct (itemsize E =? 0); [discriminate |].
  set (header2' := header2 ++ repeat x20 _).
  destruct ((zlen magic + 2 + zlen header1 + zlen header2') mod itemsize E =? 0)
    eqn:Hmod; [| discriminate]. cbn [negb].
  apply Z.eqb_eq in Hmod.
  destruct (fwrite_at_end magic fopen_truncated eq_refl eq_refl)
    as (f1 & -> & Hc1 & Hp1 & Ho1). cbn [rbind].
  destruct (pack_H (zlen header1 + zlen header2')) as [packed | |] eqn:Hpack;
    cbn [rbind]; try discriminate.
  destruct (fwrite_at_end packed f1 Ho1 Hp1) as (f2 & -> & Hc2 & Hp2 & Ho2).
  cbn [rbind].
  destruct (fwrite_at_end header1 f2 Ho2 Hp2) as (f3 & -> & Hc3 & Hp3 & Ho3).
  cbn [rbind].
  destruct (fwrite_at_end (encode_ascii (format_width lendigits 0)) f3 Ho3 Hp3)
    as (f4 & -> & Hc4 & Hp4 & Ho4). cbn [rbind].
  destruct (fwrite_at_end (drop lendigits header2') f4 Ho4 Hp4)
    as (f5 & -> & Hc5 & Hp5 & Ho5). cbn [rbind].
  intros [= <-] Hw.
  cbn [FillableFile._file FillableFile._datapos FillableFile._lenpos
       FillableFile._formatter FillableFile.__len__ FillableFile._index
       FillableFile.class FillableFile._data FillableFile._indexinchunk
       FillableFile._indexflushed].
  assert (Hcount : length (encode_ascii (format_width lendigits 0)) = lendigits).
  { rewrite length_encode_ascii. apply length_format_width.
    apply repr_int_fits; [exact Hw |].
    split; [lia |]. apply Z.pow_pos_nonneg; lia. }
  assert (Hfield : (lendigits <= length header2')%nat).
  { unfold header2', header2. rewrite length_app.
    pose proof (header2_length (10 ^ Z.of_nat lendigits - 1) (dims E)).
    pose proof (repr_int_placeholder lendigits). lia. }
  assert (Hpacked : length packed = 2%nat)
    by (pose proof (pack_H_length _ _ Hpack); unfold zlen in *; lia).
  assert (Hall : contents f5
                 = magic ++ packed ++ header1
                   ++ encode_ascii (format_width lendigits 0)
                   ++ drop lendigits header2').
  { rewrite Hc5, Hc4, Hc3, Hc2, Hc1. cbn [contents fopen_truncated].
    rewrite <- !app_assoc. reflexivity. }
  assert (Hlen : zlen (contents f5) = zlen magic + 2 + zlen header1 + zlen header2').
  { rewrite Hall. unfold zlen. rewrite !length_app, length_drop, Hcount, Hpacked.
    lia. }
  split.
  { repeat split; try reflexivity; try assumption.
    - pose proof (zlen_nonneg header1). change (zlen magic) with 8. lia.
    - unfold zlen. lia. }
  split; [exact Hlen |]. split; [now rewrite Hp5 |]. split; [exact Ho5 |].
  split; [exact Hmod |]. split; [| split].
  - rewrite Hall. reflexivity.
  - rewrite Hall.
    replace (zlen magic + 2 + zlen header1 + zlen header2' - 10)
      with (zlen header1 + zlen header2')
      by (change (zlen magic) with 8; lia).
    rewrite Hpack. f_equal.
    change (drop 8 (magic ++ packed ++ header1
                    ++ encode_ascii (format_width lendigits 0)
                    ++ drop lendigits header2'))
      with (packed ++ header1 ++ encode_ascii (format_width lendigits 0)
            ++ drop lendigits header2').
    rewrite take_app_length' by (symmetry; exact Hpacked). reflexivity.
  - apply header_count_of_format.
    rewrite Hall, !app_assoc, <- (app_assoc _ (encode_ascii _)).
    rewrite drop_app_length'.
    + rewrite take_app_length' by (symmetry; exact Hcount). reflexivity.
    + rewrite !length_app, Hpacked. unfold zlen. cbn [length magic]. lia.
Qed.

(** A new [FillableNumpyFile] made with [lendigits >= 1]: the file is
    its header and nothing else, and the handle is at its end, which is
    the data offset, a multiple of the itemsize; the header starts with
    the magic string and the two bytes that give, little-endian, the
    length of what follows them; and the count field reads 0, the
    length of the new object. *)
Theorem numpy_file_new (E : eltype) (descr : string) (flushsize : Z)
  (lendigits : nat) (self : FillableFile.t E) :
  FillableFile.__init__ E descr FillableNumpyFile_ flushsize lendigits = Ok self ->
  (1 <= lendigits)%nat ->
  let c := contents (FillableFile._file E self) in
  let datapos := FillableFile._datapos E self in
  zlen c = datapos
  /\ pos (FillableFile._file E self) = datapos
  /\ closed (FillableFile._file E self) = false
  /\ datapos mod itemsize E = 0
  /\ take 8 c = magic
  /\ pack_H (datapos - 10) = Ok (take 2 (drop 8 c))
  /\ header_count c (FillableFile._lenpos E self) (FillableFile._formatter E self)
     = Some (FillableFile.__len__ E self)
  /\ FillableFile.__len__ E self = 0.
Proof.
  intros Hinit Hw c datapos. subst c datapos.
  destruct (numpy_init_returned E descr flushsize lendigits self Hinit Hw)
    as ((_ & _ & _ & Hindex & _) & Hlen & Hpos & Hopen & Hmod & Hmagic & Hpack
        & Hcount).
  unfold FillableFile.__len__. rewrite Hindex.
  repeat split; assumption.
Qed.

(* ===================================================================== *)
(** * Contiguous slices of the chunked array                              *)
(* ===================================================================== *)

(** [l[a:b:1]] for [0 <= a <= b <= len(l)] *)
Lemma getslice_range_1 {X} (l : list X) (a b : Z) :
  0 <= a <= b -> b <= zlen l ->
  getslice l (sl3 a b 1) = Ok (take (Z.to_nat (b - a)) (drop (Z.to_nat a) l)).
Proof.
  intros Hab Hb. unfold getslice.
  rewrite slice_positions_stride by (rewrite ?Z.mod_1_r; lia || reflexivity).
  cbn [rbind]. rewrite positions_from by lia. rewrite Z.div_1_r.
  rewrite omap_lookup_seq by (unfold zlen in *; lia). reflexivity.
Qed.

(** A stretch of one chunk is the same stretch of the chunks laid end
    to end. *)
Lemma chunk_stretch {X} (cs : nat) (data : list (list X)) (j : nat)
  (chunk : list X) (lo n : nat) :
  uniform cs data -> data !! j = Some chunk -> (lo + n <= cs)%nat ->
  take n (drop lo chunk) = take n (drop (j * cs + lo) (concat data)).
Proof.
  intros Huni Hchunk Hfit.
  assert (Hlen : length chunk = cs).
  { unfold uniform in Huni. rewrite Forall_lookup in Huni. exact (Huni _ _ Hchunk). }
  pose proof (length_concat_uniform cs data Huni) as HlenC.
  pose proof (lookup_lt_Some _ _ _ Hchunk) as Hj.
  apply list_eq. intros i.
  destruct (decide (i < n)%nat) as [Hi | Hi].
  - rewrite !lookup_take_lt by exact Hi. rewrite !lookup_drop.
    rewrite (lookup_concat_uniform cs data Huni j (lo + i) chunk Hchunk) by lia.
    f_equal. lia.
  - rewrite !lookup_take_ge by lia. reflexivity.
Qed.

(** Dropping from a constant list. *)
Lemma drop_repeat {X} (x : X) (n m : nat) :
  drop n (repeat x m) = repeat x (m - n).
Proof.
  revert m. induction n as [| n IH]; intros m.
  - now rewrite Nat.sub_0_r.
  - destruct m as [| m]; [reflexivity | apply IH].
Qed.

Section ArraySlices.
Context (E : eltype).
Import FillableArray.
#[local] Arguments getslice : simpl never.
#[local] Arguments np_setslice : simpl never.
#[local] Arguments getitem : simpl never.

(** The walk over the chunks for a stride of one: from the chunk [ci]
    on, with the elements before it already in [out], it fills [out]
    with the elements from [a] up to [b]. *)
Lemma slice_loop_contiguous (self : t E) (a b : Z) :
  let cs := chunksize _ self in
  let whole := concat (_data _ self) in
  1 <= cs -> uniform (Z.to_nat cs) (_data _ self) ->
  0 <= a < b -> b <= zlen (_data _ self) * cs ->
  forall (n : nat) (ci : Z) (out : list (elem E)) (outi offset : Z),
    ci + Z.of_nat n = b / cs + 1 -> a / cs <= ci ->
    let p := if ci =? a / cs then a else ci * cs in
    p < b -> outi = p - a ->
    out = take (Z.to_nat outi) (drop (Z.to_nat a) whole)
          ++ repeat (uninit E) (Z.to_nat (b - a - outi)) ->
    (ci <> a / cs -> offset = 0) ->
    slice_loop E self 1 (a / cs) (a mod cs) (b / cs + 1) (b mod cs)
      (map (fun k : nat => ci + Z.of_nat k) (seq 0 n)) offset out outi
    = Ok (take (Z.to_nat (b - a)) (drop (Z.to_nat a) whole)).
Proof.
  intros cs whole Hcs Huni Ha Hb.
  pose proof (length_concat_uniform _ _ Huni) as Hwhole. fold whole in Hwhole.
  assert (Hwz : Z.of_nat (length whole) = zlen (_data _ self) * cs)
    by (rewrite Hwhole, Nat2Z.inj_mul, Z2Nat.id by lia; reflexivity).
  clear Hwhole.
  induction n as [| n IH]; intros ci out outi offset Hn Hci p Hp Houti Hout Hoff.
  - exfalso. subst p.
    assert (Hbcs : b < (b / cs + 1) * cs).
    { pose proof (Z.div_mod b cs ltac:(lia)).
      pose proof (Z.mod_pos_bound b cs ltac:(lia)). nia. }
    assert (a / cs <= b / cs) by (apply Z.div_le_mono; lia).
    destruct (Z.eqb_spec ci (a / cs)) as [Heq | Hne].
    + clear - Hn Heq H. lia.
    + assert (Hci' : ci = b / cs + 1) by lia. rewrite Hci' in Hp. lia.
  - assert (Hdiva : a = cs * (a / cs) + a mod cs) by (apply Z.div_mod; lia).
    assert (Hdivb : b = cs * (b / cs) + b mod cs) by (apply Z.div_mod; lia).
    pose proof (Z.mod_pos_bound a cs ltac:(lia)) as Hmoda.
    pose proof (Z.mod_pos_bound b cs ltac:(lia)) as Hmodb.
    assert (Hci0 : 0 <= ci) by (pose proof (Z.div_pos a cs); lia).
    assert (Hcib : ci <= b / cs) by lia.
    (* the first position of this round, and its bounds in the chunk *)
    set (begin_ := if ci =? a / cs then a mod cs else offset).
    set (end_ := if ci =? b / cs + 1 - 1 then b mod cs else cs).
    assert (Hbegin : p = ci * cs + begin_ /\ 0 <= begin_).
    { subst p begin_. destruct (Z.eqb_spec ci (a / cs)) as [-> | Hne].
      - lia.
      - rewrite (Hoff Hne). lia. }
    destruct Hbegin as (Hpbegin & Hbegin0).
    assert (Hpa : a <= p).
    { subst p. destruct (Z.eqb_spec ci (a / cs)); [lia | nia]. }
    assert (Hend : begin_ < end_ <= cs /\ ci * cs + end_ <= b
                   /\ (ci <> b / cs -> end_ = cs)).
    { subst end_. destruct (Z.eqb_spec ci (b / cs + 1 - 1)) as [Heq | Hne].
      - assert (ci = b / cs) by lia. subst ci. nia.
      - assert (ci + 1 <= b / cs) by lia. split; [| split; [nia | reflexivity]].
        split; [| lia].
        assert (p < (ci + 1) * cs); [| lia].
        subst p. destruct (Z.eqb_spec ci (a / cs)) as [-> | _]; nia. }
    destruct Hend as (Hbe & Hendb & Hendcs).
    assert (Hcilen : 0 <= ci < zlen (_data _ self)) by nia.
    destruct (getitem_in_range _ _ Hcilen) as (chunk & Hchunk & Hget).
    assert (Hlenchunk : zlen chunk = cs).
    { unfold uniform in Huni. rewrite Forall_lookup in Huni.
      pose proof (Huni _ _ Hchunk). unfold zlen. lia. }
    cbn [seq map slice_loop]. rewrite Z.add_0_r.
    change (1 >? 0) with true. cbn iota.
    fold cs begin_ end_. rewrite Hget. cbn [rbind].
    rewrite getslice_range_1 by lia. cbn [rbind].
    set (array := take (Z.to_nat (end_ - begin_)) (drop (Z.to_nat begin_) chunk)).
    assert (Hlenarray : zlen array = end_ - begin_).
    { subst array. unfold zlen in *. rewrite length_take, length_drop. lia. }
    assert (Harray : array = take (Z.to_nat (end_ - begin_))
                               (drop (Z.to_nat p) whole)).
    { subst array whole.
      rewrite (chunk_stretch (Z.to_nat cs) (_data _ self) (Z.to_nat ci) chunk
                 (Z.to_nat begin_) (Z.to_nat (end_ - begin_)) Huni Hchunk)
        by lia.
      do 2 f_equal. nia. }
    assert (Hlenout : zlen out = b - a).
    { rewrite Hout. unfold zlen. rewrite length_app, length_take, length_drop,
        repeat_length. lia. }
    rewrite np_setslice_range by lia. cbn [rbind].
    set (out' := take (Z.to_nat outi) out ++ array
                 ++ drop (Z.to_nat (outi + zlen array)) out).
    assert (Hout' : out' = take (Z.to_nat (outi + zlen array))
                             (drop (Z.to_nat a) whole)
                           ++ repeat (uninit E)
                                (Z.to_nat (b - a - (outi + zlen array)))).
    { subst out'. rewrite Hout at 1 2.
      assert (Hlt : length (take (Z.to_nat outi) (drop (Z.to_nat a) whole))
                    = Z.to_nat outi).
      { rewrite length_take, length_drop. lia. }
      rewrite take_app_length' by (symmetry; exact Hlt).
      replace (Z.to_nat (outi + zlen array))
        with (length (take (Z.to_nat outi) (drop (Z.to_nat a) whole))
              + Z.to_nat (zlen array))%nat by lia.
      rewrite drop_app_add. rewrite drop_repeat, Hlt.
      rewrite app_assoc. f_equal.
      - rewrite Hlenarray, Harray, <- take_take_drop. do 2 f_equal.
        rewrite drop_drop. f_equal. lia.
      - f_equal. lia. }
    assert (Hlenout' : zlen out' = b - a).
    { subst out'. unfold zlen in *.
      rewrite !length_app, length_take, length_drop. lia. }
    rewrite Hlenout'.
    destruct (Z.geb_spec (outi + zlen array) (b - a)) as [Hdone | Hmore].
    + rewrite Hout'. f_equal.
      replace (Z.to_nat (b - a - (outi + zlen array))) with 0%nat by lia.
      cbn [repeat]. rewrite app_nil_r. f_equal. lia.
    + assert (Hne : ci <> b / cs).
      { intros Heq.
        assert (Hlast : end_ = b mod cs)
          by (subst end_; destruct (Z.eqb_spec ci (b / cs + 1 - 1)); lia).
        nia. }
      assert (Hendcs' : end_ = cs) by (apply Hendcs; exact Hne).
      rewrite <- seq_shift, map_map.
      rewrite (map_ext _ (fun k : nat => ci + 1 + Z.of_nat k))
        by (intros k; lia).
      apply IH; try lia.
      * assert (a / cs <= b / cs) by (apply Z.div_le_mono; lia).
        destruct (Z.eqb_spec (ci + 1) (a / cs)); lia.
      * destruct (Z.eqb_spec (ci + 1) (a / cs)); lia.
      * exact Hout'.
      * intros _. rewrite Z.mod_1_r. reflexivity.
Qed.

(** A slice with a stride of one (or none given) whose bounds lie
    within the length, the first below the second: the elements from
    the one up to the other, whatever chunk boundaries lie between
    them. *)
Theorem array_slice_contiguous (self : t E) (xs : list (elem E)) (s : slice) :
  stores E self xs ->
  step s = None \/ step s = Some 1 ->
  let a := default 0 (start s) in
  let b := default (zlen xs) (stop s) in
  0 <= a < b -> b <= zlen xs ->
  __getitem__ E (Slice s) self
  = (self, Ok (Arr (take (Z.to_nat (b - a)) (drop (Z.to_nat a) xs)))).
Proof.
  intros Hst Hstep a b Hab Hb.
  pose proof (array_len_stores E self xs Hst) as Hlen.
  destruct Hst as (Hcs & Huni & Hci & Hiic & Hxs).
  pose proof (length_concat_uniform _ _ Huni) as Hwhole.
  unfold __getitem__. rewrite Hlen. fold a b.
  assert (Hstep0 : default 1 (step s) = 1) by (destruct Hstep as [-> | ->]; reflexivity).
  rewrite Hstep0.
  destruct (Z.ltb_spec a 0); [lia |]. destruct (Z.ltb_spec b 0); [lia |].
  replace (Z.min (zlen xs) (Z.max 0 a)) with a by lia.
  replace (Z.min (zlen xs) (Z.max 0 b)) with b by lia.
  change (1 =? 0) with false. cbn iota. rewrite Z.div_1_r.
  unfold np_empty. destruct (Z.ltb_spec (b - a) 0); [lia |]. cbn [rbind].
  unfold divmod. destruct (Z.eqb_spec (chunksize _ self) 0); [lia |].
  cbn [rbind]. change (1 >? 0) with true. cbn iota.
  set (cs := chunksize _ self) in *.
  assert (Hblen : b <= zlen (_data _ self) * cs).
  { unfold __len__ in Hlen. fold cs in Hlen. nia. }
  assert (Hdiv : a / cs <= b / cs) by (apply Z.div_le_mono; lia).
  unfold xrange. subst cs.
  rewrite (slice_loop_contiguous self a b Hcs Huni Hab Hblen
             (Z.to_nat (b / chunksize _ self + 1 - a / chunksize _ self))
             (a / chunksize _ self)
             (repeat (uninit E) (Z.to_nat (b - a))) 0 0).
  - cbn [rbind]. do 3 f_equal.
    apply list_eq. intros i.
    destruct (decide (i < Z.to_nat (b - a))%nat) as [Hi | Hi].
    + rewrite !lookup_take_lt by exact Hi. rewrite !lookup_drop.
      assert (Hin : (Z.to_nat a + i < Z.to_nat (__len__ _ self))%nat)
        by (rewrite Hlen; unfold zlen in *; lia).
      rewrite Hxs. rewrite lookup_take_lt by exact Hin. reflexivity.
    + rewrite !lookup_take_ge by lia. reflexivity.
  - lia.
  - lia.
  - rewrite Z.eqb_refl. lia.
  - rewrite Z.eqb_refl. lia.
  - rewrite take_0. cbn [app]. do 2 f_equal. lia.
  - intros Hne. now contradiction Hne.
Qed.

(** A slice with a stride of one (or none given) whose two bounds are
    the same place [a] within the length: the empty array when the
    chunk [a // chunksize] has been allocated, [IndexError] when it has
    not, which is the case at the end of an array whose chunks are all
    full. *)
Theorem array_slice_empty (self : t E) (xs : list (elem E)) (s : slice) :
  stores E self xs ->
  step s = None \/ step s = Some 1 ->
  let a := default 0 (start s) in
  let b := default (zlen xs) (stop s) in
  0 <= a <= zlen xs -> b = a ->
  __getitem__ E (Slice s) self
  = (self, if a / chunksize _ self <? zlen (_data _ self)
           then Ok (Arr []) else Raise IndexError).
Proof.
  intros Hst Hstep a b Ha Hb.
  pose proof (array_len_stores E self xs Hst) as Hlen.
  destruct Hst as (Hcs & Huni & Hci & Hiic & Hxs).
  unfold __getitem__. rewrite Hlen. fold a b. rewrite Hb.
  assert (Hstep0 : default 1 (step s) = 1) by (destruct Hstep as [-> | ->]; reflexivity).
  rewrite Hstep0.
  destruct (Z.ltb_spec a 0); [lia |].
  replace (Z.min (zlen xs) (Z.max 0 a)) with a by lia.
  change (1 =? 0) with false. cbn iota. rewrite Z.sub_diag.
  change (0 / 1) with 0. change (np_empty E 0) with (@Ok (list (elem E)) []).
  cbn [rbind].
  unfold divmod. destruct (Z.eqb_spec (chunksize _ self) 0); [lia |].
  cbn [rbind]. change (1 >? 0) with true. cbn iota.
  unfold xrange.
  replace (Z.to_nat (a / chunksize _ self + 1 - a / chunksize _ self))
    with 1%nat by lia.
  cbn [seq map slice_loop]. rewrite Z.add_0_r, Z.eqb_refl.
  change (1 >? 0) with true. cbn iota.
  replace (a / chunksize _ self + 1 - 1) with (a / chunksize _ self) by lia.
  rewrite Z.eqb_refl.
  assert (Hdiv : 0 <= a / chunksize _ self) by (apply Z.div_pos; lia).
  destruct (Z.ltb_spec (a / chunksize _ self) (zlen (_data _ self))) as [Hin | Hout].
  - destruct (getitem_in_range (_data _ self) (a / chunksize _ self))
      as (chunk & Hchunk & ->); [lia |].
    assert (Hlenchunk : zlen chunk = chunksize _ self).
    { unfold uniform in Huni. rewrite Forall_lookup in Huni.
      pose proof (Huni _ _ Hchunk). unfold zlen. lia. }
    pose proof (Z.mod_pos_bound a (chunksize _ self) ltac:(lia)).
    cbn [rbind]. rewrite getslice_range_1 by lia.
    rewrite Z.sub_diag. change (Z.to_nat 0) with 0%nat. rewrite take_0.
    cbn [rbind]. change (0 + zlen (@nil (elem E))) with 0.
    rewrite np_setslice_range by (unfold zlen; cbn; lia).
    reflexivity.
  - unfold getitem, norm_index.
    destruct (Z.ltb_spec (a / chunksize _ self) 0); [lia |].
    destruct (Z.ltb_spec (a / chunksize _ self) (zlen (_data _ self))); [lia |].
    rewrite andb_false_r. reflexivity.
Qed.

End ArraySlices.

(* ===================================================================== *)
(** * A file-backed object as a context manager                           *)
(* ===================================================================== *)

Section WithBlock.
Context (E : eltype).

(** A [with] block on a plain file, whatever its body returned or
    raised, as long as the body left the elements [xs] stored: the
    block ends as the body did, with the handle closed and the file
    holding the bytes of [xs] and nothing else, the staged elements
    included.  The [close] that [__del__] makes later finds the handle
    closed and raises [ValueError]. *)
Theorem with_block_closes {X} (body : method (FillableFile.t E) X)
  (self self1 : FillableFile.t E) (r : result X) (xs : list (elem E)) :
  body self = (self1, r) -> FillableFile.stores E self1 xs ->
  exists self2,
    with_block body self = (self2, r)
    /\ closed (FillableFile._file E self2) = true
    /\ contents (FillableFile._file E self2) = tostring E xs
    /\ FillableFile.__len__ E self2 = zlen xs
    /\ __del__ E self2 = (self2, Raise ValueError).
Proof.
  intros Hbody Hst.
  destruct (close_stores E self1 xs Hst)
    as (self2 & Hclose & Hclosed & Hbytes & Hlen & _).
  exists self2. unfold with_block, __enter__, __exit__, get.
  rewrite Hbody, Hclose.
  repeat split; try assumption.
  unfold __del__. now apply close_on_closed_handle.
Qed.

End WithBlock.

(* ===================================================================== *)
(** * Values that do not convert, and [extend] against a loop of [append] *)
(* ===================================================================== *)

(** For [dims = ()], where a value is one scalar and the assignment
    writes nothing when the scalar does not convert: [append] of a
    value that does not convert to the dtype raises what the conversion
    raised.  The chunked array keeps its elements and its length (it
    may have moved its cursor to a new chunk first); the file-backed
    object, with a free slot in its staging chunk, is left exactly as
    it was. *)
Theorem append_unconverted (E : eltype) (value : pyval E) (e : exn) :
  dims E = [] ->
  cast E value = Raise e ->
  (forall (self : FillableArray.t E) (xs : list (elem E)),
      FillableArray.stores E self xs ->
      exists self1,
        FillableArray.append E value self = (self1, Raise e)
        /\ FillableArray.stores E self1 xs
        /\ FillableArray.__len__ E self1 = FillableArray.__len__ E self)
  /\ (forall self : FillableFile.t E,
      0 <= FillableFile._indexinchunk E self < zlen (FillableFile._data E self) ->
      FillableFile.append E value self = (self, Raise e)).
Proof.
  intros _ Hcast. split.
  - intros self xs Hst.
    destruct (array_append_failed E self xs value e Hst Hcast) as (self1 & Hcall & Hst1).
    exists self1. split; [exact Hcall |]. split; [exact Hst1 |].
    now rewrite (array_len_stores E self1 xs Hst1), (array_len_stores E self xs Hst).
  - intros self Hroom. now apply file_append_failed.
Qed.


(* ===================================================================== *)
(** * Filling and reading a FillableNumpyFile                             *)
(* ===================================================================== *)

(** A write right behind the data appends to the file. *)
Lemma write_behind (c bs body : list byte) (dp : nat) :
  (dp <= length c)%nat -> drop dp c = body ->
  overwrite c (dp + length body) bs = c ++ bs
  /\ drop dp (c ++ bs) = body ++ bs.
Proof.
  intros Hdp Hbody.
  assert (Hlen : length c = (dp + length body)%nat)
    by (rewrite <- Hbody, length_drop; lia).
  split.
  - apply overwrite_at_end. lia.
  - rewrite drop_app_le by exact Hdp. now rewrite Hbody.
Qed.

(** A write that ends within the header changes nothing behind it. *)
Lemma write_in_header (c count : list byte) (lp dp : nat) :
  (lp + length count <= dp)%nat -> (dp <= length c)%nat ->
  drop dp (overwrite c lp count) = drop dp c
  /\ (dp <= length (overwrite c lp count))%nat.
Proof.
  intros Hfield Hdp. split.
  - apply list_eq. intros i. rewrite !lookup_drop.
    apply overwrite_lookup_after. lia.
  - pose proof (length_overwrite c count lp). lia.
Qed.

Section NumpyFile.
Context (E : eltype) (Hlayout : scalar_layout E).
Import FillableFile.
#[local] Arguments getslice : simpl never.
#[local] Arguments append : simpl never.
#[local] Arguments extend : simpl never.
#[local] Arguments extend_loop : simpl never.
#[local] Arguments flush : simpl never.
#[local] Arguments __getitem__ : simpl never.
#[local] Arguments np_setslice : simpl never.
#[local] Arguments overwrite : simpl never.
#[local] Arguments tostring : simpl never.
#[local] Arguments format_width : simpl never.
#[local] Arguments Z.mul : simpl never.
#[local] Arguments Z.add : simpl never.
#[local] Arguments Z.sub : simpl never.
#[local] Arguments Z.pow : simpl never.

(** [flush] writes the staged elements behind the flushed ones and the
    count into its field. *)
Lemma flush_behind_header (self : t E) (xs : list (elem E)) :
  stores_behind_header E self xs ->
  _index _ self < 10 ^ Z.of_nat (_formatter _ self) ->
  exists self1,
    flush E self = (self1, Ok tt)
    /\ stores_behind_header E self1 xs
    /\ _indexinchunk _ self1 = 0
    /\ _data _ self1 = _data _ self
    /\ _formatter _ self1 = _formatter _ self
    /\ drop (Z.to_nat (_datapos _ self1)) (contents (_file _ self1))
       = tostring E xs.
Proof.
  destruct Hlayout as (Hscalar & Hsize & Hbytes).
  intros (Hclass & Hopen & Hlp & Hfield & Hw & Hf0 & Hfi & Hiic & Hindex & Hcap
          & Hdata & Hdp & Hcontents & Hstaged) Hfits.
  assert (Hbody : zlen (tostring E (take (Z.to_nat (_indexflushed _ self)) xs))
                  = _indexflushed _ self * itemsize E).
  { rewrite zlen_tostring by exact Hbytes. rewrite Hscalar. f_equal.
    unfold zlen in *. rewrite length_take. lia. }
  destruct (flush_numpy_run E self Hopen ltac:(nia) Hlp) as (staged & Hstaged' & Hrun).
  rewrite getslice_to in Hstaged' by lia. injection Hstaged' as <-.
  unfold flush. rewrite Hclass, Hrun. eexists. split; [reflexivity |].
  destruct self as [c d i ic f [fc fp fcl] dp lp w].
  cbn [class _data _index _indexinchunk _indexflushed _file _datapos _lenpos
       _formatter contents pos closed] in *.
  subst c fcl.
  destruct (write_behind fc (tostring E (take (Z.to_nat ic) d)) _ (Z.to_nat dp)
              ltac:(unfold zlen in *; lia) Hcontents) as (Hwrite & Hdrop).
  replace (Z.to_nat (dp + f * itemsize E))
    with (Z.to_nat dp + length (tostring E (take (Z.to_nat f) xs)))%nat
    by (unfold zlen in Hbody; lia).
  rewrite Hwrite.
  assert (Hcount : length (encode_ascii (format_width w i)) = w).
  { rewrite length_encode_ascii. apply length_format_width.
    apply repr_int_fits; [exact Hw | lia]. }
  destruct (write_in_header (fc ++ tostring E (take (Z.to_nat ic) d))
              (encode_ascii (format_width w i)) (Z.to_nat lp) (Z.to_nat dp))
    as (Hkept & Hlong).
  { rewrite Hcount. lia. }
  { rewrite length_app. unfold zlen in *. lia. }
  assert (Hall : tostring E (take (Z.to_nat f) xs) ++ tostring E (take (Z.to_nat ic) d)
                 = tostring E xs).
  { rewrite Hstaged, <- tostring_app, take_drop. reflexivity. }
  unfold stores_behind_header.
  cbn [class _data _index _indexinchunk _indexflushed _file _datapos _lenpos
       _formatter contents pos closed].
  rewrite Hkept, Hdrop, Hall.
  repeat split; try lia.
  - unfold zlen in *. lia.
  - rewrite take_ge by (unfold zlen in *; lia). reflexivity.
  - rewrite drop_ge by (unfold zlen in *; lia). reflexivity.
Qed.

(** [append] of a value that converts, with room in the staging chunk. *)
Lemma append_behind_header (self : t E) (xs : list (elem E)) (v : pyval E)
  (x : elem E) :
  stores_behind_header E self xs -> cast E v = Ok x ->
  _indexinchunk _ self < zlen (_data _ self) ->
  zlen xs + 1 < 10 ^ Z.of_nat (_formatter _ self) ->
  exists self1,
    append E v self = (self1, Ok tt)
    /\ stores_behind_header E self1 (xs ++ [x])
    /\ _indexinchunk _ self1 < zlen (_data _ self1)
    /\ _formatter _ self1 = _formatter _ self.
Proof.
  intros Hst Hv Hroom Hfits.
  pose proof Hst as (Hclass & Hopen & Hlp & Hfield & Hw & Hf0 & Hfi & Hiic & Hindex
                     & Hcap & Hdata & Hdp & Hcontents & Hstaged).
  destruct self as [c d i ic f [fc fp fcl] dp lp w].
  cbn [class _data _index _indexinchunk _indexflushed _file _datapos _lenpos
       _formatter contents pos closed] in *.
  subst c fcl.
  assert (Hic : 0 <= ic) by lia.
  set (s2 := mk E FillableNumpyFile_ (<[Z.to_nat ic := x]> d) (i + 1) (ic + 1) f
               (mkfile fc fp false) dp lp w).
  assert (Hlen : zlen (<[Z.to_nat ic := x]> d) = zlen d)
    by (unfold zlen; now rewrite length_insert).
  assert (Hs2 : stores_behind_header E s2 (xs ++ [x])).
  { unfold stores_behind_header, s2.
    cbn [class _data _index _indexinchunk _indexflushed _file _datapos _lenpos
         _formatter contents pos closed].
    rewrite zlen_app, Hlen.
    repeat split; try (unfold zlen in *; cbn; lia).
    - rewrite take_app_le by (unfold zlen in *; lia). exact Hcontents.
    - replace (Z.to_nat (ic + 1)) with (S (Z.to_nat ic)) by lia.
      rewrite (take_S_r _ _ x)
        by (apply list_lookup_insert_eq; unfold zlen in *; lia).
      rewrite take_insert_ge by lia. rewrite Hstaged.
      rewrite drop_app_le by (unfold zlen in *; lia). reflexivity. }
  assert (Hrun : append E v (mk E FillableNumpyFile_ d i ic f (mkfile fc fp false) dp lp w)
                 = (if ic + 1 >=? zlen d then flush E else ret tt) s2).
  { unfold append, bind, get, lift, modify, np_setitem, norm_index,
      set_data, set_index, set_indexinchunk.
    cbn [class _data _index _indexinchunk _indexflushed _file _datapos _lenpos
         _formatter].
    destruct (Z.ltb_spec ic 0); [lia |].
    destruct (Z.leb_spec 0 ic); [| lia].
    destruct (Z.ltb_spec ic (zlen d)); [| lia]. cbn [andb rbind].
    rewrite Hv. cbn [rbind]. rewrite Hlen. reflexivity. }
  rewrite Hrun.
  destruct (Z.geb_spec (ic + 1) (zlen d)) as [Hfull | Hnot].
  - destruct (flush_behind_header s2 _ Hs2) as (self1 & Hflush & Hst1 & Hzero & Hd1 & Hw1 & _).
    { unfold s2. cbn [_index _formatter]. unfold zlen in *. lia. }
    exists self1. split; [exact Hflush |]. split; [exact Hst1 |].
    split; [| exact Hw1].
    rewrite Hzero. apply Hst1.
  - exists s2. split; [reflexivity |]. split; [exact Hs2 |].
    split; [| reflexivity].
    unfold s2. cbn [_indexinchunk _data]. lia.
Qed.

(** Appending values that convert, one at a time. *)
Lemma each_append_behind_header (values : list (pyval E)) :
  forall (self : t E) (xs vs : list (elem E)),
    stores_behind_header E self xs -> _indexinchunk _ self < zlen (_data _ self) ->
    np_array E values = Ok vs ->
    zlen xs + zlen values < 10 ^ Z.of_nat (_formatter _ self) ->
    exists self1,
      each (append E) values self = (self1, Ok tt)
      /\ stores_behind_header E self1 (xs ++ vs)
      /\ _indexinchunk _ self1 < zlen (_data _ self1)
      /\ _formatter _ self1 = _formatter _ self.
Proof.
  induction values as [| v values IH]; intros self xs vs Hst Hroom Hvs Hfits.
  - cbn in Hvs. injection Hvs as <-. rewrite app_nil_r.
    exists self. split; [reflexivity |].
    split; [exact Hst |]. split; [exact Hroom | reflexivity].
  - cbn in Hvs. destruct (cast E v) as [x | |] eqn:Hv; cbn in Hvs; try discriminate.
    destruct (np_array E values) as [vs' | |] eqn:Hvs'; cbn in Hvs; try discriminate.
    injection Hvs as <-.
    assert (Hcons : zlen (v :: values) = zlen values + 1)
      by (unfold zlen; cbn [length]; lia).
    pose proof (zlen_nonneg values).
    destruct (append_behind_header self xs v x Hst Hv Hroom ltac:(lia))
      as (self1 & Happ & Hst1 & Hroom1 & Hw1).
    destruct (IH self1 (xs ++ [x]) vs' Hst1 Hroom1 eq_refl)
      as (self2 & Heach & Hst2 & Hroom2 & Hw2).
    { rewrite Hw1, zlen_app. unfold zlen in *. cbn [length] in *. lia. }
    exists self2. split; [| split; [| split; [exact Hroom2 | congruence]]].
    + cbn [each]. unfold bind. rewrite Happ. exact Heach.
    + rewrite <- app_assoc in Hst2. exact Hst2.
Qed.

(** The loop of [extend], started with counters under which the object
    stores [xs], consumes all the values and ends with counters under
    which it stores [xs] and the converted values. *)
Lemma extend_loop_behind_header (fuel : nat) :
  forall (values : list (pyval E)) (vs xs : list (elem E)) (self : t E) (i c f : Z),
    stores_behind_header E (with_counters E i c f self) xs ->
    np_array E values = Ok vs ->
    (length values + (if (c <? zlen (_data _ self))%Z then 0 else 1) <= fuel)%nat ->
    exists self1 i1 c1 f1,
      extend_loop E fuel i c f values self = (self1, Ok (i1, c1, f1))
      /\ stores_behind_header E (with_counters E i1 c1 f1 self1) (xs ++ vs)
      /\ _formatter _ self1 = _formatter _ self.
Proof.
  destruct Hlayout as (Hscalar & Hsize & Hbytes).
  induction fuel as [| fuel IH]; intros values vs xs self i c f Hst Hvs Hfuel.
  - assert (values = []) as -> by (destruct values; [reflexivity | cbn in Hfuel; lia]).
    cbn in Hvs. injection Hvs as <-. rewrite app_nil_r.
    exists self, i, c, f. split; [reflexivity |]. split; [exact Hst | reflexivity].
  - destruct (Z.ltb_spec 0 (zlen values)) as [Hsome | Hnone].
    2:{ assert (values = []) as ->
          by (destruct values; [reflexivity | unfold zlen in Hnone; cbn in Hnone; lia]).
        cbn in Hvs. injection Hvs as <-. rewrite app_nil_r.
        exists self, i, c, f. split; [reflexivity |]. split; [exact Hst | reflexivity]. }
    pose proof (np_array_length _ _ _ Hvs) as Hlenvs.
    pose proof Hst as (Hclass & Hopen & Hlp & Hfield & Hw & Hf0 & Hfi & Hiic & Hindex
                       & Hcap & Hdata & Hdp & Hcontents & Hstaged).
    destruct self as [cl d i0 ic0 f0 [fc fp fcl] dp lp w].
    unfold with_counters, set_index, set_indexinchunk, set_indexflushed in *.
    cbn [class _data _index _indexinchunk _indexflushed _file _datapos _lenpos
         _formatter contents pos closed] in *.
    subst cl fcl.
    assert (Hc0 : 0 <= c) by lia.
    set (tofill := Z.min (zlen values) (zlen d - c)).
    assert (Htofill : 0 <= tofill <= zlen values) by (unfold tofill; lia).
    set (src := take (Z.to_nat tofill) vs).
    assert (Hsrc : zlen src = tofill).
    { unfold src, zlen in *. rewrite length_take. lia. }
    set (d1 := take (Z.to_nat c) d ++ src ++ drop (Z.to_nat (c + tofill)) d).
    assert (Hd1 : zlen d1 = zlen d).
    { unfold d1. rewrite !zlen_app, Hsrc. unfold zlen.
      rewrite length_take, length_drop. unfold tofill, zlen in *. lia. }
    assert (Hstaged1 : take (Z.to_nat (c + tofill)) d1
                       = drop (Z.to_nat f) xs ++ src).
    { unfold d1. rewrite app_assoc, take_app_length'.
      - now rewrite Hstaged.
      - rewrite length_app, length_take. unfold zlen in *. lia. }
    unfold extend_loop; fold (extend_loop E).
    destruct (Z.ltb_spec 0 (zlen values)) as [_ | ?]; [| lia].
    unfold bind, get, lift, modify, set_data.
    cbn [_data _datapos _file _index _indexinchunk _indexflushed class _lenpos _formatter].
    change (Z.min (zlen values) (zlen d - c)) with tofill.
    rewrite (getslice_to values tofill) by lia. cbn [rbind].
    rewrite (np_array_take _ _ _ (Z.to_nat tofill) Hvs). cbn [rbind]. fold src.
    rewrite (np_setslice_range d src c (c + tofill)) by (unfold tofill in *; lia).
    fold d1. cbn [rbind].
    rewrite (getslice_from values tofill) by lia. cbn [rbind].
    assert (Hbody : zlen (tostring E (take (Z.to_nat f) xs)) = f * itemsize E).
    { rewrite zlen_tostring by exact Hbytes.
      rewrite Hscalar. f_equal. unfold zlen in *. rewrite length_take. lia. }
    destruct (Z.ltb_spec 0 (zlen (drop (Z.to_nat tofill) values))) as [Hmore | Hdone].
    + assert (Hseek : 0 <= dp + f * itemsize E) by nia.
      unfold on_file, fseek, fwrite, set_file.
      cbn [_data _datapos _file _index _indexinchunk _indexflushed class
           _lenpos _formatter contents pos closed].
      destruct (Z.ltb_spec (dp + f * itemsize E) 0) as [? | _]; [lia |].
      rewrite (getslice_to d1 (c + tofill)) by lia. rewrite Hstaged1.
      destruct (write_behind fc (tostring E (drop (Z.to_nat f) xs ++ src)) _
                  (Z.to_nat dp) ltac:(unfold zlen in *; lia) Hcontents)
        as (Hwrite & Hdrop).
      cbn [_data _datapos _file _index _indexinchunk _indexflushed class
           _lenpos _formatter contents pos closed rbind].
      replace (Z.to_nat (dp + f * itemsize E))
        with (Z.to_nat dp + length (tostring E (take (Z.to_nat f) xs)))%nat
        by (unfold zlen in Hbody; lia).
      rewrite Hwrite.
      destruct (IH (drop (Z.to_nat tofill) values) (drop (Z.to_nat tofill) vs)
                  (xs ++ src)
                  (mk E FillableNumpyFile_ d1 i0 ic0 f0
                     (mkfile (fc ++ tostring E (drop (Z.to_nat f) xs ++ src))
                        (dp + f * itemsize E
                         + zlen (tostring E (drop (Z.to_nat f) xs ++ src))) false)
                     dp lp w)
                  (i + tofill) 0 (i + tofill))
        as (self1 & i1 & c1 & f1 & Hloop & Hst1 & Hw1).
      * unfold stores_behind_header, with_counters, set_index, set_indexinchunk,
          set_indexflushed.
        cbn [class _data _index _indexinchunk _indexflushed _file _datapos _lenpos
             _formatter contents pos closed].
        rewrite zlen_app, Hsrc, Hd1, Hdrop.
        repeat split; try lia.
        -- rewrite zlen_app.
           pose proof (zlen_nonneg (tostring E (drop (Z.to_nat f) xs ++ src))).
           lia.
        -- rewrite (take_ge (xs ++ src))
             by (rewrite length_app; unfold zlen in *; lia).
           rewrite <- tostring_app, app_assoc, take_drop. reflexivity.
        -- rewrite drop_ge by (rewrite length_app; unfold zlen in *; lia).
           reflexivity.
      * now apply np_array_drop.
      * cbn [_data]. rewrite length_drop.
        destruct (Z.ltb_spec 0 (zlen d1)); [| lia].
        destruct (Z.ltb_spec c (zlen d)); unfold tofill, zlen in *; lia.
      * exists self1, i1, c1, f1. split; [exact Hloop |]. split; [| exact Hw1].
        unfold src in Hst1. rewrite <- app_assoc, take_drop in Hst1. exact Hst1.
    + rewrite extend_loop_done by exact Hdone.
      assert (Hall : tofill = zlen values).
      { unfold zlen in Hdone. rewrite length_drop in Hdone. unfold zlen in *. lia. }
      assert (Hsrcvs : src = vs).
      { unfold src. apply take_ge. unfold zlen in *. lia. }
      eexists _, _, _, _. split; [reflexivity |]. split; [| reflexivity].
      unfold stores_behind_header.
      cbn [class _data _index _indexinchunk _indexflushed _file _datapos _lenpos
           _formatter contents pos closed].
      rewrite zlen_app, Hd1, <- Hsrcvs, Hsrc.
      repeat split; try lia.
      * rewrite take_app_le by (unfold zlen in *; lia). exact Hcontents.
      * rewrite Hstaged1. rewrite drop_app_le by (unfold zlen in *; lia).
        reflexivity.
Qed.

(** [extend] with values that all convert. *)
Lemma extend_behind_header (self : t E) (xs vs : list (elem E))
  (values : list (pyval E)) :
  stores_behind_header E self xs -> np_array E values = Ok vs ->
  exists self1,
    extend E values self = (self1, Ok tt)
    /\ stores_behind_header E self1 (xs ++ vs)
    /\ _formatter _ self1 = _formatter _ self.
Proof.
  intros Hst Hvs.
  destruct (extend_loop_behind_header (S (length values)) values vs xs self
              (_index _ self) (_indexinchunk _ self) (_indexflushed _ self))
    as (self1 & i1 & c1 & f1 & Hloop & Hst1 & Hw1).
  - destruct self. exact Hst.
  - exact Hvs.
  - destruct (_indexinchunk E self <? zlen (_data E self)); lia.
  - exists (with_counters E i1 c1 f1 self1). split; [| split; [exact Hst1 |]].
    + unfold extend, bind, get, modify. rewrite Hloop. reflexivity.
    + destruct self1. exact Hw1.
Qed.

(** Every slice reads what the same slice of the stored elements is;
    the header makes the file mappable even when nothing is stored. *)
Lemma getitem_behind_header (self : t E) (xs : list (elem E)) (s : slice) :
  stores_behind_header E self xs -> Forall (readable E) xs ->
  zlen xs < 10 ^ Z.of_nat (_formatter _ self) ->
  outcome (__getitem__ E (Slice s)) self = rmap Arr (getslice xs s).
Proof.
  intros Hst Hread Hfits.
  assert (Hopen : closed (_file _ self) = false) by apply Hst.
  assert (Hi : _index _ self = zlen xs) by apply Hst.
  destruct (flush_behind_header self xs Hst ltac:(lia))
    as (self1 & Hflush & Hst1 & _ & _ & _ & Hall).
  destruct Hlayout as (Hscalar & Hsize & Hbytes).
  destruct Hst1 as (_ & _ & Hlp & Hfield & Hw & _ & _ & _ & Hindex & _ & _ & Hdp & _).
  unfold outcome, __getitem__, bind, get, lift, ret. rewrite Hopen. cbn [negb].
  rewrite Hflush. unfold __len__, memmap. rewrite Hindex.
  pose proof (zlen_nonneg xs) as Hnn.
  assert (Hlen : zlen (contents (_file _ self1))
                 = _datapos _ self1 + zlen xs * elsize E).
  { rewrite <- (take_drop (Z.to_nat (_datapos _ self1)) (contents (_file _ self1))).
    rewrite zlen_app, Hall, zlen_tostring by exact Hbytes.
    unfold zlen. rewrite length_take. unfold zlen in Hdp. lia. }
  destruct (Z.ltb_spec (zlen xs) 0); [lia |].
  destruct (Z.eqb_spec (zlen (contents (_file _ self1))) 0); [nia |].
  destruct (Z.ltb_spec (zlen (contents (_file _ self1)))
              (_datapos _ self1 + zlen xs * elsize E)); [lia |].
  rewrite Hall.
  replace (Z.to_nat (zlen xs)) with (length xs) by (unfold zlen; lia).
  rewrite <- (app_nil_r (tostring E xs)).
  rewrite decode_tostring by assumption.
  destruct (is_none (start s) && is_none (stop s) && is_none (step s)) eqn:Hnone.
  - apply is_none_sl_all in Hnone. subst s. rewrite getslice_all. reflexivity.
  - cbn [snd]. destruct (getslice xs s); reflexivity.
Qed.

(** A new [FillableNumpyFile] with room for at least one staged
    element stores nothing. *)
Lemma init_behind_header (descr : string) (flushsize : Z) (lendigits : nat)
  (self : t E) :
  __init__ E descr FillableNumpyFile_ flushsize lendigits = Ok self ->
  1 <= flushsize -> (1 <= lendigits)%nat ->
  stores_behind_header E self []
  /\ _indexinchunk _ self < zlen (_data _ self)
  /\ _formatter _ self = lendigits.
Proof.
  intros Hinit Hsize Hw.
  destruct (numpy_init_returned E descr flushsize lendigits self Hinit Hw)
    as ((Hclass & Hdata & _ & Hindex & Hiic & Hflushed & Hfmt & Hlp & Hfield)
        & Hlen & _ & Hopen & _).
  assert (Hcap : zlen (_data _ self) = flushsize)
    by (rewrite Hdata; unfold zlen; rewrite repeat_length; lia).
  split; [| split; [lia | exact Hfmt]].
  unfold stores_behind_header.
  rewrite Hclass, Hopen, Hindex, Hiic, Hflushed, Hfmt, Hcap, Hlen.
  repeat split; try lia.
  rewrite drop_ge by (unfold zlen in Hlen; lia). reflexivity.
Qed.

(** A [FillableNumpyFile] of scalars, made with [flushsize >= 1] and
    [lendigits >= 1]: after [append] of each of [values1] and
    [extend(values2)], all values converting and fewer than
    [10 ** lendigits] of them, the calls have returned, the length is
    the number of values, and every slice reads what the same slice of
    the converted values is, in input order. *)
Theorem numpy_file_append_extend_read (descr : string) (flushsize : Z)
  (lendigits : nat) (new : t E) (values1 values2 : list (pyval E))
  (vs1 vs2 : list (elem E)) :
  __init__ E descr FillableNumpyFile_ flushsize lendigits = Ok new ->
  1 <= flushsize -> (1 <= lendigits)%nat ->
  np_array E values1 = Ok vs1 -> np_array E values2 = Ok vs2 ->
  zlen values1 + zlen values2 < 10 ^ Z.of_nat lendigits ->
  Forall (readable E) (vs1 ++ vs2) ->
  exists self,
    (each (append E) values1;; extend E values2)%method new = (self, Ok tt)
    /\ __len__ _ self = zlen values1 + zlen values2
    /\ forall s : slice,
         outcome (__getitem__ E (Slice s)) self
         = rmap Arr (getslice (vs1 ++ vs2) s).
Proof.
  intros Hinit Hsize Hw Hvs1 Hvs2 Hfits Hread.
  pose proof (zlen_nonneg values1). pose proof (zlen_nonneg values2).
  destruct (init_behind_header descr flushsize lendigits new Hinit Hsize Hw)
    as (Hst0 & Hroom0 & Hw0).
  destruct (each_append_behind_header values1 new [] vs1 Hst0 Hroom0 Hvs1)
    as (s1 & Heach & Hst1 & _ & Hw1).
  { rewrite Hw0. change (zlen (@nil (elem E))) with 0. lia. }
  destruct (extend_behind_header s1 _ vs2 values2 Hst1 Hvs2) as (s2 & Hext & Hst2 & Hw2).
  cbn [app] in Hst2.
  assert (Hlen : zlen (vs1 ++ vs2) = zlen values1 + zlen values2).
  { rewrite zlen_app. unfold zlen.
    now rewrite (np_array_length _ _ _ Hvs1), (np_array_length _ _ _ Hvs2). }
  exists s2. split; [| split].
  - unfold bind. rewrite Heach. exact Hext.
  - unfold __len__. destruct Hst2 as (_ & _ & _ & _ & _ & _ & _ & _ & Hindex & _).
    now rewrite Hindex.
  - intros s. apply getitem_behind_header; [exact Hst2 | exact Hread |].
    rewrite Hw2, Hw1, Hw0, Hlen. exact Hfits.
Qed.

End NumpyFile.

(* ===================================================================== *)
(** * Negative indices                                                    *)
(* ===================================================================== *)

Section NegativeIndex.
Context (E : eltype).

(** A single index on the list-backed object that holds [values]: an
    index from [-len] up to [len] reads the value it designates,
    counting from the end when it is negative; any other raises
    [IndexError]. *)
Theorem list_index (values : list (pyval E)) (i : Z) :
  let self := FillableList.mk E values (zlen values) in
  FillableList.__getitem__ E (Int i) self
  = (self,
     if (- zlen values <=? i) && (i <? zlen values) then
       match values !! Z.to_nat (i mod zlen values) with
       | Some value => Ok (Item value)
       | None => Raise IndexError
       end
     else Raise IndexError).
Proof.
  intros self. subst self. unfold FillableList.__getitem__. f_equal.
  cbn [FillableList._data]. unfold getitem, norm_index.
  pose proof (zlen_nonneg values) as Hnn.
  destruct (Z.leb_spec (- zlen values) i) as [Hlo | Hlo];
    destruct (Z.ltb_spec i (zlen values)) as [Hhi | Hhi]; cbn [andb].
  - destruct (Z.ltb_spec i 0) as [Hneg | Hpos].
    + destruct (Z.leb_spec 0 (i + zlen values)); [| lia].
      destruct (Z.ltb_spec (i + zlen values) (zlen values)); [| lia].
      cbn [andb rbind rmap].
      replace (i mod zlen values) with (i + zlen values).
      * destruct (values !! Z.to_nat (i + zlen values)); reflexivity.
      * apply Z.mod_unique with (-1); lia.
    + destruct (Z.leb_spec 0 i); [| lia].
      destruct (Z.ltb_spec i (zlen values)); [| lia].
      cbn [andb rbind rmap]. rewrite Z.mod_small by lia.
      destruct (values !! Z.to_nat i); reflexivity.
  - destruct (Z.ltb_spec i 0); [lia |].
    destruct (Z.leb_spec 0 i); [| lia].
    destruct (Z.ltb_spec i (zlen values)); [lia |]. reflexivity.
  - destruct (Z.ltb_spec i 0); [| lia].
    destruct (Z.leb_spec 0 (i + zlen values)); [lia |]. reflexivity.
  - lia.
Qed.

(** A negative index within the length, on the chunked array: it passes
    the bounds check and then reads the slot that far from the end of
    the allocated chunks, not from the end of the elements.  The two
    agree only when every allocated chunk is full. *)
Theorem array_index_negative (self : FillableArray.t E) (xs : list (elem E))
  (i : Z) :
  FillableArray.stores E self xs -> - zlen xs <= i < 0 ->
  let capacity := zlen (FillableArray._data E self) * FillableArray.chunksize E self in
  exists x,
    concat (FillableArray._data E self) !! Z.to_nat (capacity + i) = Some x
    /\ FillableArray.__getitem__ E (Int i) self = (self, Ok (Item x))
    /\ (capacity = zlen xs -> xs !! Z.to_nat (zlen xs + i) = Some x).
Proof.
  intros Hst Hi capacity.
  pose proof (array_len_stores E self xs Hst) as Hlen.
  destruct Hst as (Hcs & Huni & Hci & Hiic & Hxs).
  set (cs := FillableArray.chunksize E self) in *.
  set (m := zlen (FillableArray._data E self)) in *.
  assert (Hcap : zlen xs <= m * cs).
  { rewrite <- Hlen. unfold FillableArray.__len__. fold cs. nia. }
  assert (Hdm : i = cs * (i / cs) + i mod cs) by (apply Z.div_mod; lia).
  pose proof (Z.mod_pos_bound i cs ltac:(lia)) as Hmod.
  assert (Hdiv : - m <= i / cs < 0).
  { split; [apply Z.div_le_lower_bound; nia | apply Z.div_lt_upper_bound; lia]. }
  assert (Hj : 0 <= i / cs + m < m) by lia.
  destruct (getitem_in_range (FillableArray._data E self) (i / cs + m) Hj)
    as (chunk & Hchunk & _).
  assert (Hlenchunk : length chunk = Z.to_nat cs).
  { unfold uniform in Huni. rewrite Forall_lookup in Huni. exact (Huni _ _ Hchunk). }
  destruct (lookup_lt_is_Some_2 chunk (Z.to_nat (i mod cs)) ltac:(lia)) as [x Hx].
  assert (Hwhole : concat (FillableArray._data E self) !! Z.to_nat (capacity + i)
                   = Some x).
  { rewrite <- Hx.
    rewrite (lookup_concat_uniform _ _ Huni _ _ _ Hchunk) by lia.
    f_equal. unfold capacity. fold cs m. nia. }
  exists x. split; [exact Hwhole |]. split.
  - unfold FillableArray.__getitem__. rewrite Hlen. f_equal.
    destruct (Z.geb_spec i 0); [lia |].
    destruct (Z.leb_spec 0 (i + zlen xs)); [| lia].
    destruct (Z.ltb_spec (i + zlen xs) (zlen xs)); [| lia].
    cbn [andb negb]. unfold divmod. fold cs.
    destruct (Z.eqb_spec cs 0); [lia |]. cbn [rbind].
    unfold getitem at 1. unfold norm_index. fold m.
    destruct (Z.ltb_spec (i / cs) 0); [| lia].
    destruct (Z.leb_spec 0 (i / cs + m)); [| lia].
    destruct (Z.ltb_spec (i / cs + m) m); [| lia].
    cbn [andb rbind]. rewrite Hchunk. cbn [rbind].
    unfold getitem, norm_index.
    destruct (Z.ltb_spec (i mod cs) 0); [lia |].
    destruct (Z.leb_spec 0 (i mod cs)); [| lia].
    destruct (Z.ltb_spec (i mod cs) (zlen chunk)); [| unfold zlen in *; lia].
    cbn [andb rbind rmap]. rewrite Hx. reflexivity.
  - intros Hfull. rewrite <- Hfull.
    assert (Hin : (Z.to_nat (capacity + i) < Z.to_nat (FillableArray.__len__ E self))%nat)
      by (rewrite Hlen; lia).
    rewrite Hxs, lookup_take_lt by exact Hin. exact Hwhole.
Qed.

End NegativeIndex.

(* ===================================================================== *)
(** * A slice with a zero step                                            *)
(* ===================================================================== *)



(* ===================================================================== *)
(** * The general properties on small objects                            *)
(* ===================================================================== *)

(** The plain file after [extend([1..7])] with flushsize 4. *)
Lemma plainfile7_stores : FillableFile.stores (int32 0) plainfile7 [1; 2; 3; 4; 5; 6; 7].
Proof.
  destruct (init_stores (int32 0) "int32" 4 16 ltac:(lia)) as (s0 & Hinit & Hst0 & _).
  destruct (extend_stores (int32 0) (int32_scalar_layout 0) s0 []
              [1; 2; 3; 4; 5; 6; 7] (ints [1; 2; 3; 4; 5; 6; 7]) Hst0 eq_refl)
    as (s1 & Hext & Hst1).
  unfold plainfile7, file7, call. rewrite Hinit. cbn [rbind]. rewrite Hext.
  exact Hst1.
Qed.

(** The chunked array after [extend([1..7])] with chunksize 4. *)
Lemma chunks7_stores : FillableArray.stores (int32 0) chunks7 [1; 2; 3; 4; 5; 6; 7].
Proof.
  destruct (array_init_stores (int32 0) 4 ltac:(lia)) as (s0 & Hinit & Hst0).
  destruct (array_extend_stores (int32 0) s0 [] [1; 2; 3; 4; 5; 6; 7]
              (ints [1; 2; 3; 4; 5; 6; 7]) Hst0 eq_refl)
    as (s1 & Hext & Hst1).
  unfold chunks7, array7, call. rewrite Hinit. cbn [rbind]. rewrite Hext.
  exact Hst1.
Qed.

(** The chunked array after [extend([1..4])] with chunksize 4: its one
    chunk is full. *)
Lemma chunks4_stores : FillableArray.stores (int32 0) chunks4 [1; 2; 3; 4].
Proof.
  destruct (array_init_stores (int32 0) 4 ltac:(lia)) as (s0 & Hinit & Hst0).
  destruct (array_extend_stores (int32 0) s0 [] [1; 2; 3; 4]
              (ints [1; 2; 3; 4]) Hst0 eq_refl)
    as (s1 & Hext & Hst1).
  unfold chunks4, call. rewrite Hinit. cbn [rbind]. rewrite Hext.
  exact Hst1.
Qed.

(** The constructor of the numpy file returns. *)
Lemma numpyfile_new_returned :
  FillableFile.__init__ (int32 0) "int32" FillableNumpyFile_ 4 16 = Ok numpyfile_new.
Proof.
  assert (Hreturns : rmap (fun _ => tt)
                       (FillableFile.__init__ (int32 0) "int32" FillableNumpyFile_ 4 16)
                     = Ok tt) by (vm_compute; reflexivity).
  unfold numpyfile_new.
  destruct (FillableFile.__init__ (int32 0) "int32" FillableNumpyFile_ 4 16)
    as [self | e |]; try discriminate Hreturns.
  reflexivity.
Qed.

(** [self[1:6:2]] of the file of seven. *)
Lemma plain_file_slice_witness :
  outcome (FillableFile.__getitem__ (int32 0) (Slice (sl3 1 6 2))) plainfile7
  = Ok (Arr [2; 4; 6]).
Proof.
  rewrite (plain_file_slice (int32 0) (int32_scalar_layout 0) plainfile7
             [1; 2; 3; 4; 5; 6; 7] (sl3 1 6 2)).
  - reflexivity.
  - exact plainfile7_stores.
  - repeat constructor.
Defined.

(** [close()] on the file of seven. *)
Lemma plain_file_close_witness :
  exists self1,
    FillableFile.close (int32 0) plainfile7 = (self1, Ok tt)
    /\ contents (FillableFile._file _ self1)
       = tostring (int32 0) [1; 2; 3; 4; 5; 6; 7]
    /\ FillableFile.__getitem__ (int32 0) (Slice sl_all) self1
       = (self1, Ok (Arr [1; 2; 3; 4; 5; 6; 7])).
Proof.
  destruct (plain_file_close (int32 0) (int32_scalar_layout 0) plainfile7
              [1; 2; 3; 4; 5; 6; 7])
    as (self1 & Hclose & _ & Hbytes & _ & Hread).
  - exact plainfile7_stores.
  - repeat constructor.
  - exists self1. split; [exact Hclose |]. split; [exact Hbytes |].
    exact (Hread sl_all).
Defined.

(** The counters of [numpyfile6]. *)
Lemma reachable_counters_witness :
  FillableFile._index _ numpyfile6 - FillableFile._indexflushed _ numpyfile6
  = FillableFile._indexinchunk _ numpyfile6.
Proof.
  apply (reachable_counters (int32 0) "int32" numpyfile6).
  exact numpyfile6_reachable.
Defined.

(** Two flushes of [numpyfile6]. *)
Lemma flush_idempotent_witness :
  exists self1,
    FillableFile.flush (int32 0) numpyfile6 = (self1, Ok tt)
    /\ FillableFile.flush (int32 0) self1 = (self1, Ok tt).
Proof.
  destruct (flush_idempotent (int32 0) "int32" numpyfile6)
    as (self1 & Hflush & Hagain & _).
  - exact numpyfile6_reachable.
  - reflexivity.
  - vm_compute. discriminate.
  - exists self1. split; assumption.
Defined.


(** [append(2)] on the closed file. *)
Lemma append_after_close_witness :
  outcome (FillableFile.append (int32 0) (PyInt 2)) closedfile = Ok tt
  /\ FillableFile.__len__ _
       (state_after (FillableFile.append (int32 0) (PyInt 2)) closedfile)
     = 2.
Proof.
  destruct (append_after_close (int32 0) closedfile (PyInt 2) 2)
    as (Hout & Hlen & _).
  - reflexivity.
  - reflexivity.
  - vm_compute. split; [discriminate | reflexivity].
  - split; [exact Hout | exact Hlen].
Defined.

(** [append(1)] and [extend([1])] with [flushsize=0]. *)
Lemma zero_flushsize_witness :
  FillableFile.append (int32 0) (PyInt 1) plainfile_flushsize0
  = (plainfile_flushsize0, Raise IndexError)
  /\ outcome (FillableFile.extend (int32 0) (ints [1])) plainfile_flushsize0
     = OutOfFuel.
Proof.
  destruct (zero_flushsize (int32 0) "int32" FillableFile_ 16 plainfile_flushsize0)
    as (Happend & Hextend).
  - reflexivity.
  - split; [apply Happend |].
    apply (Hextend eq_refl (ints [1])). discriminate.
Defined.


(** [self[3:1]] and [self[::-1]] of the array of seven. *)
Lemma slice_out_of_order_witness :
  FillableArray.__getitem__ (int32 0) (Slice (sl 3 1)) chunks7
  = (chunks7, Raise ValueError)
  /\ FillableArray.__getitem__ (int32 0) (Slice (mkslice None None (Some (-1)))) chunks7
     = (chunks7, Raise ValueError).
Proof.
  pose proof (array_len_stores (int32 0) chunks7 _ chunks7_stores) as Hlen.
  split.
  - apply (slice_out_of_order (int32 0) (sl 3 1) 7); cbn; try lia. exact Hlen.
  - apply (slice_out_of_order (int32 0) (mkslice None None (Some (-1))) 7);
      cbn; try lia. exact Hlen.
Defined.

(** Index 4 and index 7 of the array of seven. *)
Lemma array_index_not_negative_witness :
  FillableArray.__getitem__ (int32 0) (Int 4) chunks7 = (chunks7, Ok (Item 5))
  /\ FillableArray.__getitem__ (int32 0) (Int 7) chunks7
     = (chunks7, Raise IndexError).
Proof.
  split.
  - apply (array_index_not_negative (int32 0) chunks7 [1; 2; 3; 4; 5; 6; 7] 4);
      [exact chunks7_stores | lia].
  - apply (array_index_not_negative (int32 0) chunks7 [1; 2; 3; 4; 5; 6; 7] 7);
      [exact chunks7_stores | lia].
Defined.

(** [append(1)] and the loop of [extend([1])] with [chunksize=0]. *)
Lemma zero_chunksize_witness :
  outcome (FillableArray.append (int32 0) (PyInt 1)) chunks_chunksize0
  = Raise IndexError
  /\ forall fuel : nat,
       outcome (FillableArray.extend_loop (int32 0) fuel 0 0 (ints [1]))
         chunks_chunksize0
       = OutOfFuel.
Proof.
  destruct (zero_chunksize (int32 0) chunks_chunksize0) as (Happend & Hextend).
  - reflexivity.
  - repeat constructor.
  - vm_compute. split; [discriminate | reflexivity].
  - reflexivity.
  - split; [apply Happend |].
    intros fuel. apply (Hextend eq_refl (ints [1]) fuel). discriminate.
Defined.

(** The walk on [record_x_y] with a factory that keeps its three
    arguments: the entry at the key of the stop offsets. *)
Lemma walk_entries_made_for_key_witness :
  exists fillables : gmap string (string * npdtype * list Z),
    _makefillables record_x_y ∅ (fun name dtype dims => (name, dtype, dims))
      false false = Ok fillables
    /\ fillables !! "object-Fy-E" = Some ("object-Fy-E", "int32", @nil Z)
    /\ exists dtype dims,
         ("object-Fy-E", "int32", @nil Z) = ("object-Fy-E", dtype, dims).
Proof.
  assert (Hwalk : exists fillables : gmap string (string * npdtype * list Z),
             _makefillables record_x_y ∅ (fun name dtype dims => (name, dtype, dims))
               false false = Ok fillables
             /\ fillables !! "object-Fy-E" = Some ("object-Fy-E", "int32", @nil Z)).
  { cbn. eexists. split; [reflexivity |].
    rewrite lookup_insert_ne by discriminate. apply lookup_insert_eq. }
  destruct Hwalk as (fillables & Hwalk & Hmade).
  exists fillables. split; [exact Hwalk |]. split; [exact Hmade |].
  exact (walk_entries_made_for_key (fun name dtype dims => (name, dtype, dims))
           record_x_y false false fillables "object-Fy-E" _ Hwalk Hmade).
Defined.

(** The header of [numpyfile_new]. *)
Lemma numpy_file_new_witness :
  zlen (contents (FillableFile._file _ numpyfile_new))
  = FillableFile._datapos _ numpyfile_new
  /\ header_count (contents (FillableFile._file _ numpyfile_new))
       (FillableFile._lenpos _ numpyfile_new) (FillableFile._formatter _ numpyfile_new)
     = Some 0.
Proof.
  destruct (numpy_file_new (int32 0) "int32" 4 16 numpyfile_new
              numpyfile_new_returned ltac:(lia))
    as (Hlen & _ & _ & _ & _ & _ & Hcount & Hzero).
  split; [exact Hlen |]. rewrite Hcount, Hzero. reflexivity.
Defined.

(** [self[2:6]] of the array of seven, across the boundary of its two
    chunks. *)
Lemma array_slice_contiguous_witness :
  FillableArray.__getitem__ (int32 0) (Slice (sl 2 6)) chunks7
  = (chunks7, Ok (Arr [3; 4; 5; 6])).
Proof.
  apply (array_slice_contiguous (int32 0) chunks7 [1; 2; 3; 4; 5; 6; 7] (sl 2 6)).
  - exact chunks7_stores.
  - left. reflexivity.
  - cbn. lia.
  - vm_compute. discriminate.
Defined.

(** [self[4:]] of the array of four in one full chunk. *)
Lemma array_slice_empty_witness :
  snd (FillableArray.__getitem__ (int32 0) (Slice (sl_from 4)) chunks4)
  = Raise IndexError.
Proof.
  rewrite (array_slice_empty (int32 0) chunks4 [1; 2; 3; 4] (sl_from 4)).
  - cbn [snd]. vm_compute. reflexivity.
  - exact chunks4_stores.
  - left. reflexivity.
  - vm_compute. split; discriminate.
  - reflexivity.
Defined.

(** [with self: self.append(8); self.append(None)] on the file of
    seven. *)
Lemma with_block_closes_witness :
  exists self2,
    with_block (FillableFile.append (int32 0) (PyInt 8);;
                FillableFile.append (int32 0) PyNone)%method plainfile7
    = (self2, Raise TypeError)
    /\ contents (FillableFile._file _ self2)
       = tostring (int32 0) [1; 2; 3; 4; 5; 6; 7; 8].
Proof.
  destruct (append_stores (int32 0) plainfile7 [1; 2; 3; 4; 5; 6; 7] (PyInt 8) 8
              plainfile7_stores eq_refl)
    as (self1 & Happend & Hst1 & Hroom1).
  { vm_compute. reflexivity. }
  assert (Hbody : (FillableFile.append (int32 0) (PyInt 8);;
                   FillableFile.append (int32 0) PyNone)%method plainfile7
                  = (self1, Raise TypeError)).
  { unfold bind. rewrite Happend.
    rewrite (file_append_failed (int32 0) self1 PyNone TypeError); [reflexivity | | reflexivity].
    split; [| exact Hroom1].
    destruct Hst1 as (_ & _ & _ & ? & ? & ? & _). lia. }
  destruct (with_block_closes (int32 0) _ plainfile7 self1 (Raise TypeError)
              _ Hbody Hst1)
    as (self2 & Hwith & _ & Hbytes & _).
  exists self2. split; [exact Hwith | exact Hbytes].
Defined.

(** [append(None)] on the file of seven. *)
Lemma append_unconverted_witness :
  FillableFile.append (int32 0) PyNone plainfile7 = (plainfile7, Raise TypeError).
Proof.
  destruct (append_unconverted (int32 0) PyNone TypeError eq_refl eq_refl)
    as (_ & Hfile).
  apply Hfile. vm_compute. split; [discriminate | reflexivity].
Defined.


(** Two [append] and one [extend] on [numpyfile_new], then
    [self[1:6:2]]. *)
Lemma numpy_file_append_extend_read_witness :
  exists self,
    (each (FillableFile.append (int32 0)) (ints [1; 2]);;
     FillableFile.extend (int32 0) (ints [3; 4; 5; 6; 7]))%method numpyfile_new
    = (self, Ok tt)
    /\ outcome (FillableFile.__getitem__ (int32 0) (Slice (sl3 1 6 2))) self
       = Ok (Arr [2; 4; 6]).
Proof.
  destruct (numpy_file_append_extend_read (int32 0) (int32_scalar_layout 0)
              "int32" 4 16 numpyfile_new (ints [1; 2]) (ints [3; 4; 5; 6; 7])
              [1; 2] [3; 4; 5; 6; 7] numpyfile_new_returned)
    as (self & Hcalls & _ & Hread).
  - lia.
  - lia.
  - reflexivity.
  - reflexivity.
  - vm_compute. reflexivity.
  - repeat constructor.
  - exists self. split; [exact Hcalls |]. rewrite Hread. reflexivity.
Defined.

(** Index -4 of the array of seven, whose two chunks have eight
    slots. *)
Lemma array_index_negative_witness :
  FillableArray.__getitem__ (int32 0) (Int (-4)) chunks7 = (chunks7, Ok (Item 5)).
Proof.
  destruct (array_index_negative (int32 0) chunks7 [1; 2; 3; 4; 5; 6; 7] (-4)
              chunks7_stores)
    as (x & Hslot & Hread & _).
  - vm_compute. split; [discriminate | reflexivity].
  - assert (Hfive : Some x = Some 5) by (rewrite <- Hslot; vm_compute; reflexivity).
    injection Hfive as ->. exact Hread.
Defined.

(** [flush()] and [close()] on the closed file. *)
Lemma closed_handle_witness :
  FillableFile.flush (int32 0) closedfile = (closedfile, Raise ValueError)
  /\ FillableFile.close (int32 0) closedfile = (closedfile, Raise ValueError).
Proof.
  destruct (closed_handle (int32 0) closedfile) as (Hclosed & _).
  apply Hclosed. reflexivity.
Defined.

